(** * loggerparser: checkpointed record processing and remote sync

    A shallow embedding of [services/cr10xformatter.py] and
    [services/ftpuploader.py].

    - Tables are lists of rows, a row is the list of the items of an
      ordered dictionary.  The functions on tables are Rocq functions
      into [Result], the sum of a value and a Python exception.
    - Code that reads or writes files, talks to the FTP session or saves
      the configuration runs in a state-and-exception monad.  Its state
      holds the configuration dictionary (one object per run, passed by
      reference and updated in place in the source), the outside world,
      and the trace of the calls made to the outside with their answers.
    - The outside world is a parameter: a type class gives the answer to
      every call, so the theorems hold for every behaviour of the file
      system, the FTP server and the parsing library, failures included.
    - Logging and the command-line front ends ([main], [setup_parser])
      are left out.  The loops over [sites], [locations] and [files] walk
      the dictionaries read at the start of the run; the source walks the
      same objects while [line_num] entries are assigned in them, which
      changes no key and no entry that is still to be visited. *)

From Stdlib Require Import String Ascii List ZArith Lia Bool Arith.
From Equations Require Import Equations.
Import ListNotations.
Open Scope string_scope.
Open Scope Z_scope.
Open Scope list_scope.

Set Implicit Arguments.

(* ================================================================= *)
(** ** Exceptions and results *)

(** The Python exceptions the two scripts can meet.  [OtherException]
    stands for any further subclass of [Exception] a collaborator raises
    (OSError, ValueError, the other ftplib errors); [KeyboardInterrupt]
    stands for the [BaseException]s that [except Exception] lets through. *)
Inductive Exn : Type :=
| TypeError (msg : string)
| KeyError (key : string)
| UnsupportedValueConversionType (msg : string)
| error_perm (msg : string)
| OtherException (msg : string)
| KeyboardInterrupt.

Definition is_Exception (e : Exn) : bool :=
  match e with KeyboardInterrupt => false | _ => true end.

Definition is_error_perm (e : Exn) : bool :=
  match e with error_perm _ => true | _ => false end.

Inductive Result (A : Type) : Type :=
| Ok (a : A)
| Err (e : Exn).
Arguments Ok {A} a.
Arguments Err {A} e.

Definition is_Ok {A} (r : Result A) : bool :=
  match r with Ok _ => true | Err _ => false end.

Definition rbind {A B} (r : Result A) (k : A -> Result B) : Result B :=
  match r with Ok a => k a | Err e => Err e end.

Declare Scope result_scope.
Delimit Scope result_scope with result.
Notation "'let?' x ':=' r 'in' k" := (rbind r (fun x => k))
  (at level 10, x pattern, r at level 100, k at level 200) : result_scope.

(* ================================================================= *)
(** ** Rows and tables *)

(** A column identifier is a name or a positional index ("str or int"). *)
Inductive Col : Type :=
| ColName (s : string)
| ColIndex (i : Z).

Definition col_eqb (a b : Col) : bool :=
  match a, b with
  | ColName s, ColName t => String.eqb s t
  | ColIndex i, ColIndex j => Z.eqb i j
  | _, _ => false
  end.

Inductive Value : Type :=
| VStr (s : string)
| VInt (z : Z)
| VDatetime (epoch : Z) (tz : option string).

(** [cr.Row] is an ordered dictionary: the list of its items, in
    insertion order.  A genuine row never repeats a key ([row_wf]). *)
Definition Row : Type := list (Col * Value).
Definition DataSet : Type := list Row.

Definition row_names (row : Row) : list Col := map fst row.
Definition row_values (row : Row) : list Value := map snd row.
Definition row_wf (row : Row) : Prop := NoDup (row_names row).

Fixpoint row_get (name : Col) (row : Row) : option Value :=
  match row with
  | [] => None
  | (n, v) :: rest => if col_eqb n name then Some v else row_get name rest
  end.

(** [row[name] = value]: an existing key keeps its place, a new key goes
    to the end. *)
Fixpoint row_set (row : Row) (name : Col) (value : Value) : Row :=
  match row with
  | [] => [(name, value)]
  | (n, v) :: rest =>
      if col_eqb n name then (n, value) :: rest
      else (n, v) :: row_set rest name value
  end.

(** [cr.Row(items)]. *)
Definition Row_of_items (items : list (Col * Value)) : Row :=
  fold_left (fun row item => row_set row (fst item) (snd item)) items [].

Definition col_in (name : Col) (columns : list Col) : bool :=
  existsb (col_eqb name) columns.

(* ================================================================= *)
(** ** Dictionaries and the configuration object *)

(** A dictionary with string keys, as the list of its items in insertion
    order (the order [.items()] walks them in). *)
Definition Dict (V : Type) : Type := list (string * V).

Fixpoint dict_get {V} (key : string) (d : Dict V) : option V :=
  match d with
  | [] => None
  | (k, v) :: rest => if String.eqb k key then Some v else dict_get key rest
  end.

(** [d[key] = value] *)
Fixpoint dict_set {V} (d : Dict V) (key : string) (value : V) : Dict V :=
  match d with
  | [] => [(key, value)]
  | (k, v) :: rest =>
      if String.eqb k key then (k, value) :: rest
      else (k, v) :: dict_set rest key value
  end.

(** [d[key]] *)
Definition getitem {V} (d : Dict V) (key : string) : Result V :=
  match dict_get key d with
  | Some v => Ok v
  | None => Err (KeyError key)
  end.

(** [d[key]] for a key that the model keeps as a record field. *)
Definition getfield {V} (key : string) (field : option V) : Result V :=
  match field with
  | Some v => Ok v
  | None => Err (KeyError key)
  end.

(** [d.get(key, default)] for a key kept as a record field. *)
Definition get_default {V} (field : option V) (default : V) : V :=
  match field with
  | Some v => v
  | None => default
  end.

Definition str_in (s : string) (l : list string) : bool :=
  existsb (String.eqb s) l.

(** [value == s] for a value that is a string or [None]. *)
Definition opt_str_eqb (value : option string) (s : string) : bool :=
  match value with
  | Some v => String.eqb v s
  | None => false
  end.

(** Truth value of a string-or-[None]: [None] and [""] are false. *)
Definition truthy (value : option string) : option string :=
  match value with
  | Some s => if String.eqb s "" then None else Some s
  | None => None
  end.

(** One entry of [convert_data_column_values] in an array-id block. *)
Record ConvertColumnInfo : Type := {
  value_type : option string;
  value_time_columns : option (list Col)
}.

(** [sites.<site>.locations.<location>.array_ids.<id>] *)
Record ArrayIdInfo : Type := {
  ai_name : option string;
  ai_column_names : option (list Col);
  ai_export_columns : option (list Col);
  ai_include_time_zone : option bool;
  ai_time_columns : option (list Col);
  ai_time_parsed_column_name : option Col;
  ai_to_utc : option bool;
  ai_convert_data_column_values : option (list (Col * ConvertColumnInfo))
}.

(** [sites.<site>.locations.<location>.files.<file>] *)
Record FileInfo : Type := {
  fi_name : option string;
  fi_file_path : option string;
  fi_line_num : option Z;
  fi_header_row : option Z
}.

(** A location block; the formatter reads [array_ids], [file_path],
    [line_num], [time_zone] and [time_format_args_library], the uploader
    reads [files]. *)
Record LocationInfo : Type := {
  loc_array_ids : option (Dict ArrayIdInfo);
  loc_file_path : option string;
  loc_line_num : option Z;
  loc_time_zone : option string;
  loc_time_format_args_library : option (list string);
  loc_files : option (Dict FileInfo)
}.

Record SiteInfo : Type := {
  site_locations : option (Dict LocationInfo)
}.

Record Settings : Type := {
  data_output_dir : option string;
  active : bool
}.

Record Cfg : Type := {
  cfg_settings : option Settings;
  cfg_sites : option (Dict SiteInfo)
}.

(** [cfg['settings']['data_output_dir']] *)
Definition cfg_data_output_dir (cfg : Cfg) : Result string :=
  (let? settings := getfield "settings" (cfg_settings cfg) in
   getfield "data_output_dir" (data_output_dir settings))%result.

Definition set_loc_line_num (l : LocationInfo) (n : Z) : LocationInfo :=
  {| loc_array_ids := loc_array_ids l;
     loc_file_path := loc_file_path l;
     loc_line_num := Some n;
     loc_time_zone := loc_time_zone l;
     loc_time_format_args_library := loc_time_format_args_library l;
     loc_files := loc_files l |}.

Definition set_loc_files (l : LocationInfo) (files : Dict FileInfo)
  : LocationInfo :=
  {| loc_array_ids := loc_array_ids l;
     loc_file_path := loc_file_path l;
     loc_line_num := loc_line_num l;
     loc_time_zone := loc_time_zone l;
     loc_time_format_args_library := loc_time_format_args_library l;
     loc_files := Some files |}.

Definition set_fi_line_num (f : FileInfo) (n : Z) : FileInfo :=
  {| fi_name := fi_name f;
     fi_file_path := fi_file_path f;
     fi_line_num := Some n;
     fi_header_row := fi_header_row f |}.

(** [cfg['sites'][site]['locations'][location]['line_num'] = n] *)
Definition assign_location_line_num (cfg : Cfg) (site location : string)
    (n : Z) : Result Cfg :=
  (let? sites := getfield "sites" (cfg_sites cfg) in
   let? site_info := getitem sites site in
   let? locations := getfield "locations" (site_locations site_info) in
   let? location_info := getitem locations location in
   Ok {| cfg_settings := cfg_settings cfg;
         cfg_sites := Some (dict_set sites site
           {| site_locations := Some (dict_set locations location
                (set_loc_line_num location_info n)) |}) |})%result.

(** [cfg['sites'][site]['locations'][location]['files'][file]['line_num'] = n] *)
Definition assign_file_line_num (cfg : Cfg) (site location file : string)
    (n : Z) : Result Cfg :=
  (let? sites := getfield "sites" (cfg_sites cfg) in
   let? site_info := getitem sites site in
   let? locations := getfield "locations" (site_locations site_info) in
   let? location_info := getitem locations location in
   let? files := getfield "files" (loc_files location_info) in
   let? file_info := getitem files file in
   Ok {| cfg_settings := cfg_settings cfg;
         cfg_sites := Some (dict_set sites site
           {| site_locations := Some (dict_set locations location
                (set_loc_files location_info
                   (dict_set files file (set_fi_line_num file_info n)))) |}) |})%result.

(** The checkpoints the formatter and the uploader keep in a configuration. *)
Definition location_line_num (cfg : Cfg) (site location : string)
  : option Z :=
  match cfg_sites cfg with
  | None => None
  | Some sites =>
      match dict_get site sites with
      | None => None
      | Some site_info =>
          match site_locations site_info with
          | None => None
          | Some locations =>
              match dict_get location locations with
              | None => None
              | Some location_info => loc_line_num location_info
              end
          end
      end
  end.

Definition file_line_num (cfg : Cfg) (site location file : string)
  : option Z :=
  match cfg_sites cfg with
  | None => None
  | Some sites =>
      match dict_get site sites with
      | None => None
      | Some site_info =>
          match site_locations site_info with
          | None => None
          | Some locations =>
              match dict_get location locations with
              | None => None
              | Some location_info =>
                  match loc_files location_info with
                  | None => None
                  | Some files =>
                      match dict_get file files with
                      | None => None
                      | Some file_info => fi_line_num file_info
                      end
                  end
              end
          end
      end
  end.

(* ================================================================= *)
(** ** The outside world *)

(** Calls that leave the program: the [campbellsciparser] readers and
    writer, [utils.save_config], the local file system and the one FTP
    session.  The index is the type of what the call returns.  A keyword
    argument the call site does not pass is [None]. *)
Inductive Call : Type -> Type :=
| cr_read_array_ids_data (infile_path : option string) (first_line_num : Z)
    (fix_floats : bool) (array_id_names : Dict string)
    : Call (Dict DataSet)
| cr_read_table_data (infile_path : option string) (header_row : option Z)
    (first_line_num : option Z) : Call DataSet
| cr_export_to_csv (data : DataSet) (outfile_path : string)
    (export_header : option bool) (include_time_zone : option bool)
    : Call unit
| utils_save_config (path : string) (cfg : Cfg) : Call unit
| os_makedirs (path : string) (exist_ok : bool) : Call unit
| os_remove (path : string) : Call unit
| open_rb (path : string) : Call string
| session_cwd (dirname : string) : Call unit
| session_mkd (dirname : string) : Call unit
| session_pwd : Call string
| session_nlst : Call (list string)
| session_storbinary (cmd : string) (f : string) : Call unit
| session_quit : Call unit
| print (e : Exn) : Call unit.

(** A call together with what came back. *)
Inductive Event : Type :=
| Ev (T : Type) (c : Call T) (r : Result T).
Arguments Ev {T} c r.

(** The world answers every call, normally or with an exception, and
    moves on. *)
Class World (Env : Type) : Type := {
  respond : forall T : Type, Call T -> Env -> Result T * Env
}.
Arguments respond {Env _ T} c env.

(** Library functions taken as functions of their arguments: the time
    parser of [campbellsciparser], which returns a table or raises, and
    the [os.path] helpers.  What the parser does to the rows it is handed
    is not modelled; [convert_data_column_values] works on a copy for
    that reason. *)
Class Library : Type := {
  (** [cr.parse_time(data, time_zone, time_format_args_library,
      time_parsed_column, time_columns, replace_time_column, to_utc)] *)
  cr_parse_time : DataSet -> option string -> option (list string) ->
                  option Col -> option (list Col) -> option Col -> bool ->
                  Result DataSet;
  (** [os.path.splitext(os.path.abspath(path))[1]] *)
  os_path_ext : string -> string;
  (** [os.path.join(os.path.abspath(output_dir), site, location, file)] *)
  os_path_join_abs : string -> string -> string -> string -> string;
  os_path_dirname : string -> string;
  (** [os.path.expanduser("~")] *)
  os_path_home : string
}.

(* ================================================================= *)
(** ** The state-and-exception monad *)

(** [mem_cfg] is the one configuration dictionary of a run, which the
    source passes around by reference and updates in place. *)
Record State (Env : Type) : Type := {
  mem_cfg : Cfg;
  ext : Env;
  trace : list Event
}.

(** An exception leaves the state as it was when it was raised. *)
Definition M (Env A : Type) : Type := State Env -> Result A * State Env.

Definition ret {Env A} (a : A) : M Env A := fun s => (Ok a, s).

Definition raise {Env A} (e : Exn) : M Env A := fun s => (Err e, s).

Definition bind {Env A B} (m : M Env A) (k : A -> M Env B) : M Env B :=
  fun s =>
    match m s with
    | (Ok a, s1) => k a s1
    | (Err e, s1) => (Err e, s1)
    end.

Definition lift {Env A} (r : Result A) : M Env A := fun s => (r, s).

Declare Scope monad_scope.
Delimit Scope monad_scope with monad.
Notation "x <- c1 ;; c2" := (bind c1 (fun x => c2))
  (at level 61, c1 at next level, right associativity) : monad_scope.
Notation "c1 ;; c2" := (bind c1 (fun _ => c2))
  (at level 61, right associativity) : monad_scope.
Open Scope monad_scope.

Definition get_cfg {Env} : M Env Cfg := fun s => (Ok (mem_cfg s), s).

Definition put_cfg {Env} (cfg : Cfg) : M Env unit :=
  fun s => (Ok tt, {| mem_cfg := cfg; ext := ext s; trace := trace s |}).

(** Make a call: the world answers, the trace records call and answer. *)
Definition call {Env} {W : World Env} {T} (c : Call T) : M Env T :=
  fun s =>
    let (r, env) := respond c (ext s) in
    (r, {| mem_cfg := mem_cfg s; ext := env; trace := trace s ++ [Ev c r] |}).

(** [for x in l: body(x)] *)
Fixpoint for_each {Env A} (l : list A) (body : A -> M Env unit)
  : M Env unit :=
  match l with
  | [] => ret tt
  | x :: rest => body x ;; for_each rest body
  end.

(** [try: body / except <handles>: handler] *)
Definition try_except {Env A} (body : M Env A) (handles : Exn -> bool)
    (handler : Exn -> M Env A) : M Env A :=
  fun s =>
    match body s with
    | (Ok a, s1) => (Ok a, s1)
    | (Err e, s1) => if handles e then handler e s1 else (Err e, s1)
    end.

(** [try: body / except <handles> as e: handler / else: orelse /
    finally: finalbody].  An exception of [finalbody] replaces whatever
    was on its way out. *)
Definition try_except_else_finally {Env} (body : M Env unit)
    (handles : Exn -> bool) (handler : Exn -> M Env unit)
    (orelse finalbody : M Env unit) : M Env unit :=
  fun s =>
    let (r1, s1) :=
      match body s with
      | (Ok _, s0) => orelse s0
      | (Err e, s0) => if handles e then handler e s0 else (Err e, s0)
      end in
    match finalbody s1 with
    | (Ok _, s2) => (r1, s2)
    | (Err e, s2) => (Err e, s2)
    end.

(** Observations on a trace. *)
Definition csv_exports (evs : list Event)
  : list (DataSet * string * option bool) :=
  flat_map (fun ev =>
    match ev with
    | Ev (cr_export_to_csv data path header _) _ => [(data, path, header)]
    | _ => []
    end) evs.

Definition storbinary_cmds (evs : list Event) : list string :=
  flat_map (fun ev =>
    match ev with
    | Ev (session_storbinary cmd _) _ => [cmd]
    | _ => []
    end) evs.

Definition saved_configs (evs : list Event) : list Cfg :=
  flat_map (fun ev =>
    match ev with
    | Ev (utils_save_config _ cfg) _ => [cfg]
    | _ => []
    end) evs.

Definition is_save {T} (c : Call T) : bool :=
  match c with
  | utils_save_config _ _ => true
  | _ => false
  end.

(** What a computation may leave behind, whatever its outcome. *)
Definition respects {Env A} (R : State Env -> State Env -> Prop)
    (m : M Env A) : Prop :=
  forall s, R s (snd (m s)).

Definition keeps_cfg {Env} (s s' : State Env) : Prop :=
  mem_cfg s' = mem_cfg s.

Definition keeps_saved {Env} (s s' : State Env) : Prop :=
  saved_configs (trace s') = saved_configs (trace s).

Definition keeps_cfg_and_saved {Env} (s s' : State Env) : Prop :=
  keeps_cfg s s' /\ keeps_saved s s'.

(* ================================================================= *)
(** ** Calling a Python function with keyword arguments *)

(** The values [process_location] hands to [process_array_ids]. *)
Inductive PyValue : Type :=
| PyNone
| PyStr (s : string)
| PyStrList (l : list string)
| PyArraysData (d : Dict DataSet)
| PyArrayIdsInfo (i : Dict ArrayIdInfo).

Definition Kwargs : Type := Dict PyValue.

Definition dict_has {V} (key : string) (d : Dict V) : bool :=
  match dict_get key d with Some _ => true | None => false end.

(** Binding a call that passes keyword arguments only to a function
    whose parameters [params] have no defaults and which takes neither
    [*args] nor [**kwargs]: a keyword that names no parameter is
    rejected first, then a parameter left without a value. *)
Definition bind_keywords (fname : string) (params : list string)
    (kwargs : Kwargs) : Result Kwargs :=
  match find (fun kv => negb (str_in (fst kv) params)) kwargs with
  | Some (k, _) =>
      Err (TypeError (fname ++ "() got an unexpected keyword argument '"
                      ++ k ++ "'")%string)
  | None =>
      match find (fun p => negb (dict_has p kwargs)) params with
      | Some p =>
          Err (TypeError (fname ++ "() missing required argument: '"
                          ++ p ++ "'")%string)
      | None => Ok kwargs
      end
  end.

(** Reading a bound parameter at the type the body uses it at.  Python
    checks no types at the call; a value of another shape would fail
    somewhere in the body, which the model reports here. *)
Definition arg_str (bound : Kwargs) (p : string) : Result string :=
  match dict_get p bound with
  | Some (PyStr s) => Ok s
  | _ => Err (TypeError p)
  end.

Definition arg_opt_str (bound : Kwargs) (p : string)
  : Result (option string) :=
  match dict_get p bound with
  | Some (PyStr s) => Ok (Some s)
  | Some PyNone => Ok None
  | _ => Err (TypeError p)
  end.

Definition arg_opt_str_list (bound : Kwargs) (p : string)
  : Result (option (list string)) :=
  match dict_get p bound with
  | Some (PyStrList l) => Ok (Some l)
  | Some PyNone => Ok None
  | _ => Err (TypeError p)
  end.

Definition arg_arrays_data (bound : Kwargs) (p : string)
  : Result (Dict DataSet) :=
  match dict_get p bound with
  | Some (PyArraysData d) => Ok d
  | _ => Err (TypeError p)
  end.

Definition arg_array_ids_info (bound : Kwargs) (p : string)
  : Result (Dict ArrayIdInfo) :=
  match dict_get p bound with
  | Some (PyArrayIdsInfo i) => Ok i
  | _ => Err (TypeError p)
  end.

Definition py_opt_str (o : option string) : PyValue :=
  match o with Some s => PyStr s | None => PyNone end.

Definition py_opt_str_list (o : option (list string)) : PyValue :=
  match o with Some l => PyStrList l | None => PyNone end.

(** [os.path.splitext(os.path.abspath(file_path))[1]] on what
    [.get('file_path')] gave. *)
Definition file_extension {L : Library} (file_path : option string)
  : Result string :=
  match file_path with
  | Some p => Ok (os_path_ext p)
  | None =>
      Err (TypeError "expected str, bytes or os.PathLike object, not NoneType")
  end.

(* ================================================================= *)
(** * services/cr10xformatter.py *)

Module Cr10xFormatter.

Definition APP_CONFIG_PATH : string := "cfg/cr10xformatter.yaml".

Section Tables.
Context {L : Library}.

Definition convert_data_time_values (data : DataSet) (column_name : Col)
    (value_time_columns : option (list Col)) (time_zone : option string)
    (time_format_args_library : option (list string)) (to_utc : bool)
  : Result DataSet :=
  cr_parse_time data time_zone time_format_args_library
    (Some column_name) value_time_columns (Some column_name) to_utc.

Definition make_data_set_backup (data : DataSet) : DataSet :=
  map (fun row : Row => Row_of_items (map (fun item => (fst item, snd item)) row))
      data.

(** [name in columns_to_export]; the configuration lookup that feeds it
    may have produced [None], on which [in] raises. *)
Definition py_in (name : Col) (columns : option (list Col)) : Result bool :=
  match columns with
  | Some l => Ok (col_in name l)
  | None => Err (TypeError "argument of type 'NoneType' is not iterable")
  end.

(** [[(name, value) for name, value in row.items() if name in columns]] *)
Fixpoint export_items (items : list (Col * Value))
    (columns_to_export : option (list Col)) : Result (list (Col * Value)) :=
  match items with
  | [] => Ok []
  | (name, value) :: rest =>
      (let? keep := py_in name columns_to_export in
       let? kept := export_items rest columns_to_export in
       Ok (if keep then (name, value) :: kept else kept))%result
  end.

Fixpoint make_export_data_set (data : DataSet)
    (columns_to_export : option (list Col)) : Result DataSet :=
  match data with
  | [] => Ok []
  | row :: rest =>
      (let? items := export_items row columns_to_export in
       let? data_to_export := make_export_data_set rest columns_to_export in
       Ok (Row_of_items items :: data_to_export))%result
  end.

(** The inner loop of [restore_data_after_data_time_conversion] over the
    items of one converted row: [converted_values] is the row built so
    far, [data_converted] the list appended to. *)
Fixpoint collect_converted (items : list (Col * Value))
    (converted_column_name : Col) (converted_values : Row)
    (data_converted : list Row) : Row * list Row :=
  match items with
  | [] => (converted_values, data_converted)
  | (converted_name, converted_value) :: rest =>
      if col_eqb converted_name converted_column_name then
        let converted_values :=
          row_set converted_values converted_column_name converted_value in
        collect_converted rest converted_column_name converted_values
          (data_converted ++ [converted_values])
      else
        collect_converted rest converted_column_name converted_values
          data_converted
  end.

(** The outer loop: one fresh [cr.Row()] per converted row. *)
Fixpoint collect_converted_rows (data : DataSet)
    (converted_column_name : Col) (data_converted : list Row) : list Row :=
  match data with
  | [] => data_converted
  | row :: rest =>
      collect_converted_rows rest converted_column_name
        (snd (collect_converted row converted_column_name [] data_converted))
  end.

(** Modelled from the spec: the step of
    [common.update_column_values_generator] on one pair of rows
    ([services/common.py] is not among the sources).  Section 4.2, step 4:
    "replace the target column's value with the corresponding parsed
    value - all other columns are copied unchanged from the baseline." *)
Definition update_column_values (row_old row_new : Row) : Row :=
  map (fun item =>
         match row_get (fst item) row_new with
         | Some value => (fst item, value)
         | None => item
         end) row_old.

(** Modelled from the spec: [common.update_column_values_generator]
    ([services/common.py] is not among the sources), as the list of the
    rows it yields.  Section 4.2, step 4: "walk the baseline in original
    order, and for every row, replace the target column's value with the
    corresponding parsed value".  A baseline row that has no corresponding
    new row is copied as it is. *)
Fixpoint update_column_values_generator (data_old data_new : list Row)
  : list Row :=
  match data_old with
  | [] => []
  | row_old :: rest_old =>
      match data_new with
      | [] => row_old :: update_column_values_generator rest_old []
      | row_new :: rest_new =>
          update_column_values row_old row_new
          :: update_column_values_generator rest_old rest_new
      end
  end.

Definition restore_data_after_data_time_conversion (data data_backup : DataSet)
    (converted_column_name : Col) : DataSet :=
  let data_converted := collect_converted_rows data converted_column_name [] in
  let data_merged := update_column_values_generator data_backup data_converted in
  data_merged.

(** The [for] loop of [convert_data_column_values]. *)
Fixpoint convert_columns (values_to_convert : list (Col * ConvertColumnInfo))
    (data data_backup : DataSet) (time_zone : option string)
    (time_format_args_library : option (list string)) (to_utc : bool)
    (data_converted : DataSet) : Result DataSet :=
  match values_to_convert with
  | [] => Ok data_converted
  | (column_name, convert_column_info) :: rest =>
      if opt_str_eqb (value_type convert_column_info) "time" then
          (let? array_id_data_converted_values_all :=
             convert_data_time_values data column_name
               (value_time_columns convert_column_info) time_zone
               time_format_args_library to_utc in
           let data_converted :=
             restore_data_after_data_time_conversion
               array_id_data_converted_values_all data_backup column_name in
           convert_columns rest data data_backup time_zone
             time_format_args_library to_utc data_converted)%result
      else
          Err (UnsupportedValueConversionType
                 "Only time conversion is supported in this version.")
  end.

Definition convert_data_column_values (data : DataSet)
    (values_to_convert : list (Col * ConvertColumnInfo))
    (time_zone : option string)
    (time_format_args_library : option (list string)) (to_utc : bool)
  : Result DataSet :=
  let data_converted := [] in
  let data_backup := make_data_set_backup data in
  convert_columns values_to_convert data data_backup time_zone
    time_format_args_library to_utc data_converted.

(** Modelled from the spec: [cr.update_column_names] with
    [match_row_lengths=True, get_mismatched_row_lengths=True] (the
    [campbellsciparser] package is not among the sources).  Section 4.1:
    "assign column names positionally from [ArraySchema.column_names]; a
    row whose field count does not equal the schema's column count is
    classified as a mismatch and routed to that array-id's mismatch set
    rather than raising an error".  The result is
    [(named_rows, mismatched_rows)]; a mismatch is "retained unmodified". *)
Fixpoint update_column_names (data : DataSet) (column_names : list Col)
  : DataSet * DataSet :=
  match data with
  | [] => ([], [])
  | row :: rest =>
      let (named, mismatched) := update_column_names rest column_names in
      if Nat.eqb (length row) (length column_names)
      then (Row_of_items (combine column_names (row_values row)) :: named,
            mismatched)
      else (named, row :: mismatched)
  end.

End Tables.

Record Args : Type := {
  args_site : option string;
  args_location : option string;
  args_track : bool
}.

Section Pipeline.
Context {L : Library} {Env : Type} {W : World Env}.

Definition process_array_ids_params : list string :=
  ["site"; "location"; "data"; "time_zone"; "time_format_args_library";
   "output_dir"; "array_ids_info"; "file_ext"].

(** One turn of the [for array_id, array_id_info in array_ids_info.items()]
    loop. *)
Definition process_array_id (site location : string) (data : Dict DataSet)
    (time_zone : option string)
    (time_format_args_library : option (list string))
    (output_dir file_ext : string) (array_id : string)
    (array_id_info : ArrayIdInfo) : M Env unit :=
  let array_name := get_default (ai_name array_id_info) array_id in
  match dict_get array_name data with
  | None => raise (TypeError "object of type 'NoneType' has no len()")
  | Some array_id_data =>
      if Nat.eqb (length array_id_data) 0 then ret tt
      else
        let column_names := ai_column_names array_id_info in
        let export_columns := ai_export_columns array_id_info in
        let include_time_zone :=
          get_default (ai_include_time_zone array_id_info) false in
        let time_columns := ai_time_columns array_id_info in
        let time_parsed_column_name :=
          get_default (ai_time_parsed_column_name array_id_info)
                      (ColName "Timestamp") in
        let to_utc := get_default (ai_to_utc array_id_info) false in
        let column_values_to_convert :=
          ai_convert_data_column_values array_id_info in
        let array_id_file := (array_name ++ file_ext)%string in
        let array_id_file_path :=
          os_path_join_abs output_dir site location array_id_file in
        let array_id_mismatches_file :=
          (array_name ++ " Mismatches" ++ file_ext)%string in
        let array_id_mismatches_file_path :=
          os_path_join_abs output_dir site location array_id_mismatches_file in
        column_names <-
          match column_names with
          | Some names => ret names
          | None => raise (TypeError "object of type 'NoneType' has no len()")
          end ;;
        let (array_id_data_with_column_names, mismatches) :=
          update_column_names array_id_data column_names in
        array_id_data_with_column_names <-
          match column_values_to_convert with
          | Some (c :: cs) =>
              lift (convert_data_column_values
                      array_id_data_with_column_names (c :: cs) time_zone
                      time_format_args_library to_utc)
          | _ => ret array_id_data_with_column_names
          end ;;
        array_id_data_time_converted <-
          lift (cr_parse_time array_id_data_with_column_names time_zone
                  time_format_args_library (Some time_parsed_column_name)
                  time_columns None to_utc) ;;
        data_to_export <-
          lift (make_export_data_set array_id_data_time_converted
                  export_columns) ;;
        call (cr_export_to_csv data_to_export array_id_file_path
                (Some true) (Some include_time_zone)) ;;
        match mismatches with
        | [] => ret tt
        | _ :: _ =>
            call (cr_export_to_csv mismatches array_id_mismatches_file_path
                    None None)
        end
  end.

(** The body of [process_array_ids], its parameters bound. *)
Definition process_array_ids_body (site location : string)
    (data : Dict DataSet) (time_zone : option string)
    (time_format_args_library : option (list string))
    (output_dir : string) (array_ids_info : Dict ArrayIdInfo)
    (file_ext : string) : M Env unit :=
  for_each array_ids_info (fun item =>
    process_array_id site location data time_zone time_format_args_library
      output_dir file_ext (fst item) (snd item)).

(** A call of [process_array_ids] with keyword arguments: the keywords
    are bound to the eight parameters of the [def], then the body runs. *)
Definition process_array_ids (kwargs : Kwargs) : M Env unit :=
  bound <- lift (bind_keywords "process_array_ids"
                   process_array_ids_params kwargs) ;;
  site <- lift (arg_str bound "site") ;;
  location <- lift (arg_str bound "location") ;;
  data <- lift (arg_arrays_data bound "data") ;;
  time_zone <- lift (arg_opt_str bound "time_zone") ;;
  time_format_args_library <-
    lift (arg_opt_str_list bound "time_format_args_library") ;;
  output_dir <- lift (arg_str bound "output_dir") ;;
  array_ids_info <- lift (arg_array_ids_info bound "array_ids_info") ;;
  file_ext <- lift (arg_str bound "file_ext") ;;
  process_array_ids_body site location data time_zone
    time_format_args_library output_dir array_ids_info file_ext.

(** [num_of_new_rows], summed over [data.items()]. *)
Definition count_new_rows (data : Dict DataSet) : Z :=
  fold_left (fun num_of_new_rows item =>
               num_of_new_rows + Z.of_nat (length (snd item))) data 0.

(** [cfg] is the configuration object of the state; the function returns
    that same object. *)
Definition process_location (output_dir site location : string)
    (location_info : LocationInfo) (track : bool) : M Env Cfg :=
  let array_ids_info := get_default (loc_array_ids location_info) [] in
  let file_path := loc_file_path location_info in
  let line_num := get_default (loc_line_num location_info) 0 in
  let time_zone := loc_time_zone location_info in
  let time_format_args_library :=
    loc_time_format_args_library location_info in
  let array_id_names :=
    map (fun item => (fst item, get_default (ai_name (snd item)) (fst item)))
        array_ids_info in
  data <- call (cr_read_array_ids_data file_path line_num true
                  array_id_names) ;;
  let num_of_new_rows := count_new_rows data in
  if num_of_new_rows =? 0 then get_cfg
  else
    file_ext <- lift (file_extension file_path) ;;
    process_array_ids
      [("site", PyStr site);
       ("location", PyStr location);
       ("array_ids_data", PyArraysData data);
       ("time_zone", py_opt_str time_zone);
       ("time_format_args_library",
        py_opt_str_list time_format_args_library);
       ("output_dir", PyStr output_dir);
       ("array_ids_info", PyArrayIdsInfo array_ids_info);
       ("file_ext", PyStr file_ext)] ;;
    (if track then
       if num_of_new_rows >? 0 then
         let new_line_num := line_num + num_of_new_rows in
         cfg <- get_cfg ;;
         cfg <- lift (assign_location_line_num cfg site location
                        new_line_num) ;;
         put_cfg cfg
       else ret tt
     else ret tt) ;;
    get_cfg.

(** [for location, location_info in locations.items()] *)
Definition process_locations (output_dir site : string)
    (locations : Dict LocationInfo) (track : bool) : M Env unit :=
  for_each locations (fun item =>
    _ <- process_location output_dir site (fst item) (snd item) track ;;
    ret tt).

Definition process_sites (args : Args) : M Env unit :=
  cfg <- get_cfg ;;
  let output_dir :=
    match cfg_data_output_dir cfg with
    | Ok dir => dir
    | Err _ => os_path_home
    end in
  sites <- lift (getfield "sites" (cfg_sites cfg)) ;;
  match truthy (args_site args) with
  | Some site =>
      site_info <- lift (getitem sites site) ;;
      locations <- lift (getfield "locations" (site_locations site_info)) ;;
      match truthy (args_location args) with
      | Some location =>
          location_info <- lift (getitem locations location) ;;
          _ <- process_location output_dir site location location_info
                 (args_track args) ;;
          ret tt
      | None => process_locations output_dir site locations (args_track args)
      end
  | None =>
      for_each sites (fun item =>
        locations <- lift (getfield "locations"
                             (site_locations (snd item))) ;;
        process_locations output_dir (fst item) locations (args_track args))
  end ;;
  if args_track args then
    cfg <- get_cfg ;;
    call (utils_save_config APP_CONFIG_PATH cfg)
  else ret tt.

End Pipeline.

End Cr10xFormatter.

(* ================================================================= *)
(** * services/ftpuploader.py *)

(** [current_dir.split("/")] *)
Fixpoint split_slash (s : string) : list string :=
  match s with
  | EmptyString => [EmptyString]
  | String c rest =>
      if Ascii.eqb c "/"%char then EmptyString :: split_slash rest
      else
        match split_slash rest with
        | [] => [String c EmptyString]
        | segment :: segments => String c segment :: segments
        end
  end.

(** ["/".join(segments)] *)
Fixpoint join_slash (segments : list string) : string :=
  match segments with
  | [] => EmptyString
  | [segment] => segment
  | segment :: rest => (segment ++ String "/"%char (join_slash rest))%string
  end.

(** ["/".join(current_dir.split("/")[:-1])] *)
Definition parent_dir (current_dir : string) : string :=
  join_slash (removelast (split_slash current_dir)).

Lemma split_slash_nonempty (s : string) : split_slash s <> [].
Proof.
  destruct s as [|c rest]; simpl; [discriminate|].
  destruct (Ascii.eqb c "/"%char); [discriminate|].
  destruct (split_slash rest); discriminate.
Qed.

Lemma join_split_slash (s : string) : join_slash (split_slash s) = s.
Proof.
  induction s as [|c rest IH]; simpl; [reflexivity|].
  destruct (Ascii.eqb_spec c "/"%char) as [->|Hne].
  - pose proof (split_slash_nonempty rest) as Hn.
    destruct (split_slash rest) as [|seg segs]; [contradiction|].
    simpl in *. now rewrite IH.
  - pose proof (split_slash_nonempty rest) as Hn.
    destruct (split_slash rest) as [|seg segs]; [contradiction|].
    destruct segs as [|seg' segs']; simpl in *; now rewrite <- IH.
Qed.

Lemma string_length_append (s t : string) :
  String.length (s ++ t)%string = (String.length s + String.length t)%nat.
Proof. induction s as [|c s IH]; simpl; [reflexivity | now rewrite IH]. Qed.

Lemma join_removelast_shorter (segments : list string) :
  join_slash segments <> EmptyString ->
  (String.length (join_slash (removelast segments))
   < String.length (join_slash segments))%nat.
Proof.
  induction segments as [|seg rest IH]; intros Hne.
  - now contradiction Hne.
  - destruct rest as [|seg' rest'].
    + simpl in *. destruct seg; [now contradiction Hne | simpl; lia].
    + change (removelast (seg :: seg' :: rest'))
        with (seg :: removelast (seg' :: rest')).
      change (join_slash (seg :: seg' :: rest'))
        with (seg ++ String "/"%char (join_slash (seg' :: rest')))%string.
      rewrite string_length_append. cbn [String.length].
      destruct (removelast (seg' :: rest')) as [|r rs] eqn:Hr.
      * simpl. lia.
      * change (join_slash (seg :: r :: rs))
          with (seg ++ String "/"%char (join_slash (r :: rs)))%string.
        rewrite string_length_append. cbn [String.length].
        assert (Hlt : (String.length (join_slash (r :: rs))
                       < String.length (join_slash (seg' :: rest')))%nat).
        { apply IH. destruct rest' as [|s2 r2]; [discriminate Hr|].
          change (join_slash (seg' :: s2 :: r2))
            with (seg' ++ String "/"%char (join_slash (s2 :: r2)))%string.
          destruct seg'; discriminate. }
        lia.
Qed.

Lemma parent_dir_shorter (current_dir : string) :
  current_dir <> EmptyString ->
  (String.length (parent_dir current_dir) < String.length current_dir)%nat.
Proof.
  intros Hne. unfold parent_dir.
  rewrite <- (join_split_slash current_dir) at 2.
  apply join_removelast_shorter. now rewrite join_split_slash.
Qed.

Module FtpUploader.

Definition APP_CONFIG_PATH : string := "cfg/ftpuploader.yaml".

Record Args : Type := {
  args_site : option string;
  args_location : option string;
  args_file : option string
}.

Section Sync.
Context {L : Library} {Env : Type} {W : World Env}.

Equations? cd_tree (current_dir : string) : M Env unit
  by wf (String.length current_dir) lt :=
  cd_tree current_dir with string_dec current_dir EmptyString => {
    | left _ => ret tt
    | right _ =>
        try_except (call (session_cwd current_dir)) is_error_perm
          (fun _ =>
             cd_tree (parent_dir current_dir) ;;
             call (session_mkd current_dir) ;;
             call (session_cwd current_dir)) }.
Proof. now apply parent_dir_shorter. Qed.

(** [line_num + num_of_new_rows], where [line_num] is what
    [.get('line_num')] gave. *)
Definition py_add (line_num : option Z) (n : Z) : Result Z :=
  match line_num with
  | Some l => Ok (l + n)
  | None =>
      Err (TypeError "unsupported operand type(s) for +: 'NoneType' and 'int'")
  end.

(** [cfg] is the configuration object of the state. *)
Definition transfer_rows (output_dir site location file : string)
    (file_info : FileInfo) : M Env unit :=
  let name := get_default (fi_name file_info) file in
  let file_path := fi_file_path file_info in
  let line_num := fi_line_num file_info in
  let header_row := fi_header_row file_info in
  file_ext <- lift (file_extension file_path) ;;
  data <- call (cr_read_table_data file_path header_row line_num) ;;
  let num_of_new_rows := Z.of_nat (length data) in
  if num_of_new_rows =? 0 then ret tt
  else
    let file_name := (name ++ file_ext)%string in
    let output_file_path :=
      os_path_join_abs output_dir site location file_name in
    call (os_makedirs (os_path_dirname output_file_path) true) ;;
    listing <- call session_nlst ;;
    (if negb (str_in file_name listing) then
       call (cr_export_to_csv data output_file_path (Some true) None) ;;
       f <- call (open_rb output_file_path) ;;
       call (session_storbinary ("STOR " ++ file_name)%string f)
     else
       call (cr_export_to_csv data output_file_path (Some false) None) ;;
       f <- call (open_rb output_file_path) ;;
       call (session_storbinary ("APPE " ++ file_name)%string f)) ;;
    call (os_remove output_file_path) ;;
    new_line_num <- lift (py_add line_num num_of_new_rows) ;;
    cfg <- get_cfg ;;
    cfg <- lift (assign_file_line_num cfg site location file new_line_num) ;;
    put_cfg cfg.

(** [for file, file_info in files.items()] *)
Definition transfer_files (output_dir site location location_dir : string)
    (files : Dict FileInfo) : M Env unit :=
  for_each files (fun item =>
    cd_tree location_dir ;;
    cd_tree (fst item) ;;
    transfer_rows output_dir site location (fst item) (snd item)).

(** [for location, location_info in locations.items()] *)
Definition transfer_locations (output_dir site site_dir : string)
    (locations : Dict LocationInfo) : M Env unit :=
  for_each locations (fun item =>
    files <- lift (getfield "files" (loc_files (snd item))) ;;
    cd_tree site_dir ;;
    cd_tree (fst item) ;;
    location_dir <- call session_pwd ;;
    transfer_files output_dir site (fst item) location_dir files).

(** The suite of the [try] statement of [process_sites]. *)
Definition process_sites_try (args : Args) (output_dir : string)
    (sites : Dict SiteInfo) (root_dir : string) : M Env unit :=
  match truthy (args_site args) with
  | Some site =>
      site_info <- lift (getitem sites site) ;;
      locations <- lift (getfield "locations" (site_locations site_info)) ;;
      cd_tree site ;;
      site_dir <- call session_pwd ;;
      match truthy (args_location args) with
      | Some location =>
          location_info <- lift (getitem locations location) ;;
          files <- lift (getfield "files" (loc_files location_info)) ;;
          cd_tree location ;;
          location_dir <- call session_pwd ;;
          match truthy (args_file args) with
          | Some file =>
              file_info <- lift (getitem files file) ;;
              cd_tree file ;;
              transfer_rows output_dir site location file file_info
          | None =>
              transfer_files output_dir site location location_dir files
          end
      | None => transfer_locations output_dir site site_dir locations
      end
  | None =>
      for_each sites (fun item =>
        locations <- lift (getfield "locations"
                             (site_locations (snd item))) ;;
        cd_tree root_dir ;;
        cd_tree (fst item) ;;
        site_dir <- call session_pwd ;;
        transfer_locations output_dir (fst item) site_dir locations)
  end.

(** What precedes the [try]: the output directory, the sites and the
    remote directory the session starts in. *)
Definition process_sites_setup : M Env (string * Dict SiteInfo * string) :=
  cfg <- get_cfg ;;
  let output_dir :=
    match cfg_data_output_dir cfg with
    | Ok dir => dir
    | Err _ => os_path_home
    end in
  sites <- lift (getfield "sites" (cfg_sites cfg)) ;;
  root_dir <- call session_pwd ;;
  ret (output_dir, sites, root_dir).

Definition process_sites (args : Args) : M Env unit :=
  setup <- process_sites_setup ;;
  let '(output_dir, sites, root_dir) := setup in
  try_except_else_finally
    (process_sites_try args output_dir sites root_dir)
    is_Exception (fun e => call (print e))
    (cfg <- get_cfg ;; call (utils_save_config APP_CONFIG_PATH cfg))
    (call session_quit).

End Sync.

End FtpUploader.

(* ================================================================= *)
(** * A small concrete world

    Used to run the two programs on concrete inputs: source files are
    lists of rows, the remote directory is a listing of names, and the
    local disk remembers which files exist. *)

Module Demo.

Record Env : Type := {
  (** logger files: path to the physical lines, each tagged with its array *)
  logger_files : Dict (list (string * Row));
  (** table files: path to the rows of the table *)
  table_files : Dict DataSet;
  (** local output files that exist *)
  local_files : list string;
  (** remote directories the session can enter *)
  remote_dirs : list string;
  remote_cwd : string;
  (** names in the remote working directory *)
  remote_names : list string;
  (** transfer commands the server refuses *)
  refused_cmds : list string;
  (** the configuration file on disk *)
  stored_cfg : option Cfg
}.

Definition rows_of_array (lines : list (string * Row)) (array_name : string)
  : DataSet :=
  map snd (filter (fun line => String.eqb (fst line) array_name) lines).

Definition with_local (e : Env) (files : list string) : Env :=
  {| logger_files := logger_files e; table_files := table_files e;
     local_files := files; remote_dirs := remote_dirs e;
     remote_cwd := remote_cwd e; remote_names := remote_names e;
     refused_cmds := refused_cmds e; stored_cfg := stored_cfg e |}.

Definition with_remote (e : Env) (dirs : list string) (cwd : string)
    (names : list string) : Env :=
  {| logger_files := logger_files e; table_files := table_files e;
     local_files := local_files e; remote_dirs := dirs;
     remote_cwd := cwd; remote_names := names;
     refused_cmds := refused_cmds e; stored_cfg := stored_cfg e |}.

Definition with_stored (e : Env) (cfg : Cfg) : Env :=
  {| logger_files := logger_files e; table_files := table_files e;
     local_files := local_files e; remote_dirs := remote_dirs e;
     remote_cwd := remote_cwd e; remote_names := remote_names e;
     refused_cmds := refused_cmds e; stored_cfg := Some cfg |}.

Definition answer (T : Type) (c : Call T) (e : Env) : Result T * Env :=
  match c in Call T return Result T * Env with
  | cr_read_array_ids_data infile_path first_line_num _ array_id_names =>
      match infile_path with
      | None => (Err (TypeError "infile_path"), e)
      | Some path =>
          match dict_get path (logger_files e) with
          | None => (Err (OtherException "No such file"), e)
          | Some lines =>
              let fresh := skipn (Z.to_nat first_line_num) lines in
              (Ok (map (fun item => (snd item, rows_of_array fresh (snd item)))
                       array_id_names), e)
          end
      end
  | cr_read_table_data infile_path _ first_line_num =>
      match infile_path with
      | None => (Err (TypeError "infile_path"), e)
      | Some path =>
          match dict_get path (table_files e) with
          | None => (Err (OtherException "No such file"), e)
          | Some rows =>
              match first_line_num with
              | None => (Err (TypeError "first_line_num"), e)
              | Some line_num => (Ok (skipn (Z.to_nat line_num) rows), e)
              end
          end
      end
  | cr_export_to_csv _ outfile_path _ _ =>
      (Ok tt, with_local e (outfile_path :: local_files e))
  | utils_save_config _ cfg => (Ok tt, with_stored e cfg)
  | os_makedirs _ _ => (Ok tt, e)
  | os_remove path =>
      if str_in path (local_files e)
      then (Ok tt, with_local e
              (filter (fun p => negb (String.eqb p path)) (local_files e)))
      else (Err (OtherException "No such file"), e)
  | open_rb path =>
      if str_in path (local_files e) then (Ok path, e)
      else (Err (OtherException "No such file"), e)
  | session_cwd dirname =>
      if str_in dirname (remote_dirs e)
      then (Ok tt, with_remote e (remote_dirs e) dirname (remote_names e))
      else (Err (error_perm "550 Failed to change directory."), e)
  | session_mkd dirname =>
      (Ok tt, with_remote e (dirname :: remote_dirs e) (remote_cwd e)
                (remote_names e))
  | session_pwd => (Ok (remote_cwd e), e)
  | session_nlst => (Ok (remote_names e), e)
  | session_storbinary cmd _ =>
      if str_in cmd (refused_cmds e)
      then (Err (OtherException "426 Connection closed; transfer aborted."), e)
      else (Ok tt, with_remote e (remote_dirs e) (remote_cwd e)
              (substring 5 (String.length cmd) cmd :: remote_names e))
  | session_quit => (Ok tt, e)
  | print _ => (Ok tt, e)
  end.

#[export] Instance world : World Env := {| respond := answer |}.

(** A stand-in for the time parser: the values of the time columns of a
    row, read as integers, are added up into the timestamp; the time
    columns leave the row, and the timestamp goes to [replace_time_column]
    when one is given and to the front of the row otherwise.  A row that
    lacks a time column, or holds no integer there, does not parse. *)
Definition time_of (row : Row) (time_columns : list Col) : option Z :=
  fold_left (fun acc c =>
    match acc, row_get c row with
    | Some t, Some (VInt z) => Some (t + z)
    | _, _ => None
    end) time_columns (Some 0).

Definition parse_row (row : Row) (time_zone : option string)
    (time_parsed_column : Col) (time_columns : list Col)
    (replace_time_column : option Col) : Result Row :=
  match time_of row time_columns with
  | None => Err (OtherException "Could not parse time values")
  | Some t =>
      let stamp := VDatetime t time_zone in
      match replace_time_column with
      | Some c =>
          Ok (row_set
                (filter (fun item =>
                           col_eqb (fst item) c
                           || negb (col_in (fst item) time_columns)) row)
                c stamp)
      | None =>
          Ok ((time_parsed_column, stamp)
                :: filter (fun item => negb (col_in (fst item) time_columns))
                     row)
      end
  end.

Fixpoint parse_time (data : DataSet) (time_zone : option string)
    (time_format_args_library : option (list string))
    (time_parsed_column : option Col) (time_columns : option (list Col))
    (replace_time_column : option Col) (to_utc : bool) : Result DataSet :=
  match data with
  | [] => Ok []
  | row :: rest =>
      (let? parsed :=
         parse_row row time_zone
           (get_default time_parsed_column (ColIndex 0))
           (get_default time_columns []) replace_time_column in
       let? others :=
         parse_time rest time_zone time_format_args_library
           time_parsed_column time_columns replace_time_column to_utc in
       Ok (parsed :: others))%result
  end.

(** The part of a path from the last dot of its last component on. *)
Fixpoint extension (path acc : string) : string :=
  match path with
  | EmptyString => acc
  | String c rest =>
      if Ascii.eqb c "."%char then extension rest path
      else if Ascii.eqb c "/"%char then extension rest EmptyString
      else extension rest acc
  end.

#[export] Instance library : Library := {|
  cr_parse_time := parse_time;
  os_path_ext := fun path => extension path EmptyString;
  os_path_join_abs := fun output_dir site location file =>
    (output_dir ++ "/" ++ site ++ "/" ++ location ++ "/" ++ file)%string;
  os_path_dirname := parent_dir;
  os_path_home := "/home/logger"
|}.

Definition start (cfg : Cfg) (e : Env) : State Env :=
  {| mem_cfg := cfg; ext := e; trace := [] |}.

End Demo.

(* ================================================================= *)
(** * Concrete runs

    The scenario of the specification: a logger file of which ten lines
    were consumed ([line_num = 10]) and to which three lines were added,
    all of array [1] with schema [Year, Day, Hour, Temp]; two of the new
    lines have four fields, one has three. *)

Module Examples.
Import Demo.

Fixpoint raw_from (i : Z) (values : list Z) : Row :=
  match values with
  | [] => []
  | v :: rest => (ColIndex i, VInt v) :: raw_from (i + 1) rest
  end.

(** A line as the reader gives it: fields keyed by position. *)
Definition raw (values : list Z) : Row := raw_from 0 values.

Definition temp_columns : list Col :=
  [ColName "Year"; ColName "Day"; ColName "Hour"; ColName "Temp"].

Definition temp_info : ArrayIdInfo :=
  {| ai_name := Some "Temp";
     ai_column_names := Some temp_columns;
     ai_export_columns := Some [ColName "Timestamp"; ColName "Temp"];
     ai_include_time_zone := None;
     ai_time_columns := Some [ColName "Year"; ColName "Day"; ColName "Hour"];
     ai_time_parsed_column_name := None;
     ai_to_utc := None;
     ai_convert_data_column_values := None |}.

(** An array whose second conversion asks for a type other than "time". *)
Definition wind_info : ArrayIdInfo :=
  {| ai_name := Some "Wind";
     ai_column_names := Some [ColName "Year"; ColName "Day"; ColName "Speed"];
     ai_export_columns := Some [ColName "Timestamp"; ColName "Speed"];
     ai_include_time_zone := None;
     ai_time_columns := Some [ColName "Year"; ColName "Day"];
     ai_time_parsed_column_name := None;
     ai_to_utc := None;
     ai_convert_data_column_values :=
       Some [(ColName "Day",
              {| value_type := Some "time";
                 value_time_columns := Some [ColName "Year"; ColName "Day"] |});
             (ColName "Speed",
              {| value_type := Some "float"; value_time_columns := None |})] |}.

Definition new_lines : list (string * Row) :=
  [("Temp", raw [2016; 3; 12; 20]);
   ("Temp", raw [2016; 3; 13; 21]);
   ("Temp", raw [2016; 3; 14])].

Definition logger_lines : list (string * Row) :=
  repeat ("Temp", raw [2016; 1; 0; 5]) 10 ++ new_lines.

Definition mast (line_num : Z) : LocationInfo :=
  {| loc_array_ids := Some [("1", temp_info)];
     loc_file_path := Some "/data/station.dat";
     loc_line_num := Some line_num;
     loc_time_zone := Some "UTC";
     loc_time_format_args_library := Some ["%Y"; "%j"; "%H"];
     loc_files := None |}.

Definition formatter_cfg (line_num : Z) : Cfg :=
  {| cfg_settings := Some {| data_output_dir := Some "/out"; active := true |};
     cfg_sites := Some [("Site", {| site_locations :=
                                      Some [("Mast", mast line_num)] |})] |}.

Definition quiet_env : Env :=
  {| logger_files := [("/data/station.dat", logger_lines)];
     table_files := [];
     local_files := [];
     remote_dirs := ["/"];
     remote_cwd := "/";
     remote_names := [];
     refused_cmds := [];
     stored_cfg := None |}.

Definition formatter_state (line_num : Z) : State Env :=
  start (formatter_cfg line_num) quiet_env.

(** What the reader hands over for the three new lines. *)
Definition new_data : Dict DataSet :=
  [("Temp", map snd new_lines)].

(** Two arrays already split by name, for [process_array_ids]. *)
Definition two_arrays : Dict DataSet :=
  [("Temp", map snd new_lines);
   ("Wind", [raw [2016; 3; 7]])].

(** The uploader: two table files of twelve rows, ten of them uploaded. *)
Definition table_rows : DataSet :=
  repeat [(ColName "Timestamp", VStr "2016-01-01 00:00:00");
          (ColName "Temp", VInt 5)] 12.

Definition table_file (path : string) : FileInfo :=
  {| fi_name := None;
     fi_file_path := Some path;
     fi_line_num := Some 10;
     fi_header_row := Some 0 |}.

Definition uploader_cfg : Cfg :=
  {| cfg_settings := Some {| data_output_dir := Some "/out"; active := true |};
     cfg_sites :=
       Some [("Site",
              {| site_locations :=
                   Some [("Mast",
                          {| loc_array_ids := None;
                             loc_file_path := None;
                             loc_line_num := None;
                             loc_time_zone := None;
                             loc_time_format_args_library := None;
                             loc_files :=
                               Some [("Temp", table_file "/out/Temp.dat");
                                     ("Wind", table_file "/out/Wind.dat")]
                          |})] |})] |}.

Definition uploader_env (refused : list string) : Env :=
  {| logger_files := [];
     table_files := [("/out/Temp.dat", table_rows);
                     ("/out/Wind.dat", table_rows)];
     local_files := [];
     remote_dirs := ["/"];
     remote_cwd := "/";
     remote_names := [];
     refused_cmds := refused;
     stored_cfg := None |}.

Definition uploader_state (refused : list string) : State Env :=
  start uploader_cfg (uploader_env refused).

Definition all_sites : FtpUploader.Args :=
  {| FtpUploader.args_site := None;
     FtpUploader.args_location := None;
     FtpUploader.args_file := None |}.

(** A table with a day-of-year column to convert in place. *)
Definition day_table : DataSet :=
  [[(ColName "Year", VInt 2016); (ColName "Day", VInt 3);
    (ColName "Temp", VInt 20)];
   [(ColName "Year", VInt 2016); (ColName "Day", VInt 4);
    (ColName "Temp", VInt 21)]].

(** The stand-in parser on [day_table], as [convert_data_time_values]
    calls it for the column [Day]. *)
Definition day_parsed : DataSet :=
  [[(ColName "Day", VDatetime 2019 None); (ColName "Temp", VInt 20)];
   [(ColName "Day", VDatetime 2020 None); (ColName "Temp", VInt 21)]].

(** The state the array [Temp] leaves behind in [process_array_ids]. *)
Definition after_temp : State Env :=
  snd (Cr10xFormatter.process_array_ids_body "Site" "Mast" two_arrays (Some "UTC") None
         "/out" [("1", temp_info)] ".dat" (formatter_state 10)).

(** The same transfer when the remote directory already lists the file. *)
Definition listed_state : State Env :=
  start uploader_cfg
    (with_remote (uploader_env []) ["/"] "/" ["Temp.dat"]).

End Examples.

(* ================================================================= *)
(** * The conversion loop on shared tables

    [convert_data_column_values] hands the same two table objects,
    [data] and [data_backup], to [cr.parse_time] and to
    [common.update_column_values_generator] on every turn of its loop.
    Both callees are outside the sources, and either may write into the
    rows of the table it is handed.  In this second embedding of the loop
    a callee answers with its result and with the table it was handed as
    the call left it, and the loop carries both tables from turn to
    turn. *)

Module SharedTables.

Class Callees : Type := {
  (** [cr.parse_time]: the parsed table or the exception, and [data]
      after the call. *)
  parse_time :
    DataSet -> option string -> option (list string) -> option Col ->
    option (list Col) -> option Col -> bool -> Result DataSet * DataSet;
  (** [common.update_column_values_generator], run to its end: the rows
      it yields, and [data_old] after the call. *)
  update_column_values_generator :
    DataSet -> list Row -> list Row * DataSet
}.

(** Callees that write nothing: the parser of the library and the merge
    step of [Cr10xFormatter], each leaving its table as it was. *)
Definition without_writes {L : Library} : Callees :=
  {| parse_time := fun data time_zone time_format_args_library
                       time_parsed_column time_columns replace_time_column
                       to_utc =>
       (cr_parse_time data time_zone time_format_args_library
          time_parsed_column time_columns replace_time_column to_utc,
        data);
     update_column_values_generator := fun data_old data_new =>
       (Cr10xFormatter.update_column_values_generator data_old data_new,
        data_old) |}.

Section Conversion.
Context {C : Callees}.

Definition convert_data_time_values (data : DataSet) (column_name : Col)
    (value_time_columns : option (list Col)) (time_zone : option string)
    (time_format_args_library : option (list string)) (to_utc : bool)
  : Result DataSet * DataSet :=
  parse_time data time_zone time_format_args_library
    (Some column_name) value_time_columns (Some column_name) to_utc.

(** The merged rows, and [data_backup] after the merge. *)
Definition restore_data_after_data_time_conversion
    (data data_backup : DataSet) (converted_column_name : Col)
  : DataSet * DataSet :=
  let data_converted :=
    Cr10xFormatter.collect_converted_rows data converted_column_name [] in
  update_column_values_generator data_backup data_converted.

(** The [for] loop of [convert_data_column_values]: the outcome, then
    [data] and [data_backup] as the loop left them. *)
Fixpoint convert_columns (values_to_convert : list (Col * ConvertColumnInfo))
    (data data_backup : DataSet) (time_zone : option string)
    (time_format_args_library : option (list string)) (to_utc : bool)
    (data_converted : DataSet) : Result DataSet * DataSet * DataSet :=
  match values_to_convert with
  | [] => (Ok data_converted, data, data_backup)
  | (column_name, convert_column_info) :: rest =>
      if opt_str_eqb (value_type convert_column_info) "time" then
        match convert_data_time_values data column_name
                (value_time_columns convert_column_info) time_zone
                time_format_args_library to_utc with
        | (Ok array_id_data_converted_values_all, data) =>
            let (data_converted, data_backup) :=
              restore_data_after_data_time_conversion
                array_id_data_converted_values_all data_backup column_name in
            convert_columns rest data data_backup time_zone
              time_format_args_library to_utc data_converted
        | (Err e, data) => (Err e, data, data_backup)
        end
      else
        (Err (UnsupportedValueConversionType
                "Only time conversion is supported in this version."),
         data, data_backup)
  end.

Definition convert_data_column_values (data : DataSet)
    (values_to_convert : list (Col * ConvertColumnInfo))
    (time_zone : option string)
    (time_format_args_library : option (list string)) (to_utc : bool)
  : Result DataSet * DataSet * DataSet :=
  let data_converted := [] in
  let data_backup := Cr10xFormatter.make_data_set_backup data in
  convert_columns values_to_convert data data_backup time_zone
    time_format_args_library to_utc data_converted.

End Conversion.

End SharedTables.

(* ================================================================= *)
(** * The uploader's argument check *)

(** The validation of [setup_parser] in [ftpuploader.py], after
    [parse_args]: the message handed to [parser.error], which ends the
    program, or [None] when the arguments pass. *)
Definition setup_parser_error (args : FtpUploader.Args) : option string :=
  match truthy (FtpUploader.args_file args) with
  | Some _ =>
      match truthy (FtpUploader.args_location args),
            truthy (FtpUploader.args_site args) with
      | None, None => Some "--site and --location are required."
      | _, _ => None
      end
  | None =>
      match truthy (FtpUploader.args_location args),
            truthy (FtpUploader.args_site args) with
      | Some _, None => Some "--site is required."
      | _, _ => None
      end
  end.

(* ================================================================= *)
(** * More concrete inputs *)

Module Cases.
Import Demo Examples.

(** A file entry whose [line_num] was never written. *)
Definition fresh_file (path : string) : FileInfo :=
  {| fi_name := None;
     fi_file_path := Some path;
     fi_line_num := None;
     fi_header_row := Some 0 |}.

(** A table file with nothing after its checkpoint. *)
Definition read_file (path : string) : FileInfo :=
  {| fi_name := None;
     fi_file_path := Some path;
     fi_line_num := Some 12;
     fi_header_row := Some 0 |}.

(** A site that the configuration does not have. *)
Definition unknown_site : FtpUploader.Args :=
  {| FtpUploader.args_site := Some "Nowhere";
     FtpUploader.args_location := None;
     FtpUploader.args_file := None |}.

(** The conversion of the column [Day] of [day_table]. *)
Definition day_conversion : Col * ConvertColumnInfo :=
  (ColName "Day",
   {| value_type := Some "time";
      value_time_columns := Some [ColName "Year"; ColName "Day"] |}).

(** The conversion of the column [Year] of [day_table]. *)
Definition year_conversion : Col * ConvertColumnInfo :=
  (ColName "Year",
   {| value_type := Some "time";
      value_time_columns := Some [ColName "Year"] |}).

(** An array with nothing new beside the array [Temp]. *)
Definition quiet_and_temp : Dict DataSet :=
  [("Wind", []); ("Temp", map snd new_lines)].

(** Converted rows of which the second lacks the column [Day]. *)
Definition partly_parsed : DataSet :=
  [[(ColName "Day", VDatetime 2019 None); (ColName "Temp", VInt 20)];
   [(ColName "Temp", VInt 21)];
   [(ColName "Day", VDatetime 2021 None); (ColName "Temp", VInt 22)]].

(** The uploader's state when its [try] statement starts. *)
Definition after_setup : State Env :=
  snd (FtpUploader.process_sites_setup (uploader_state [])).

(** A merge step that writes the new values into the rows of the
    baseline and yields those rows. *)
Definition writing_merge : SharedTables.Callees :=
  {| SharedTables.parse_time :=
       SharedTables.parse_time (Callees := SharedTables.without_writes);
     SharedTables.update_column_values_generator := fun data_old data_new =>
       let merged :=
         Cr10xFormatter.update_column_values_generator data_old data_new in
       (merged, merged) |}.

End Cases.

(* ================================================================= *)
(** * Vocabulary of the statements *)

(** The message of the [TypeError] that the call in [process_location]
    meets. *)
Definition unexpected_array_ids_data : string :=
  "process_array_ids() got an unexpected keyword argument 'array_ids_data'".

(** A row cut down to the listed columns. *)
Definition project_row (columns : list Col) (row : Row) : Row :=
  filter (fun item => col_in (fst item) columns) row.

Definition width_matches (column_names : list Col) (row : Row) : bool :=
  Nat.eqb (length row) (length column_names).

Definition assign_names (column_names : list Col) (row : Row) : Row :=
  Row_of_items (combine column_names (row_values row)).

(** The one-column row that the restore step keeps of a converted row. *)
Definition converted_only (column : Col) (row : Row) : Row :=
  match row_get column row with
  | Some value => [(column, value)]
  | None => []
  end.

(** The read that opens [process_location]. *)
Definition location_read (location_info : LocationInfo)
  : Call (Dict DataSet) :=
  cr_read_array_ids_data (loc_file_path location_info)
    (get_default (loc_line_num location_info) 0) true
    (map (fun item => (fst item, get_default (ai_name (snd item)) (fst item)))
         (get_default (loc_array_ids location_info) [])).

(** The two files [process_array_ids] writes for an array. *)
Definition array_file_path {L : Library}
    (output_dir site location array_name file_ext : string) : string :=
  os_path_join_abs output_dir site location (array_name ++ file_ext)%string.

Definition mismatches_file_path {L : Library}
    (output_dir site location array_name file_ext : string) : string :=
  os_path_join_abs output_dir site location
    (array_name ++ " Mismatches" ++ file_ext)%string.

(** Neither the configuration in memory nor the exports have changed. *)
Definition keeps_cfg_and_exports {Env} (s s' : State Env) : Prop :=
  mem_cfg s' = mem_cfg s /\ csv_exports (trace s') = csv_exports (trace s).

Fixpoint has_slash (s : string) : bool :=
  match s with
  | EmptyString => false
  | String c rest => Ascii.eqb c "/"%char || has_slash rest
  end.

(** [x] is [current_dir] or one of the paths [cd_tree] recurses on. *)
Inductive on_the_way (current_dir : string) : string -> Prop :=
| on_the_way_self :
    current_dir <> EmptyString -> on_the_way current_dir current_dir
| on_the_way_parent (x : string) :
    current_dir <> EmptyString ->
    on_the_way (parent_dir current_dir) x -> on_the_way current_dir x.

(** A change of directory or a directory creation on the way to
    [current_dir]. *)
Definition navigates (current_dir : string) (ev : Event) : Prop :=
  match ev with
  | Ev (session_cwd x) _ => on_the_way current_dir x
  | Ev (session_mkd x) _ => on_the_way current_dir x
  | _ => False
  end.

(** [s'] continues the trace of [s]. *)
Definition extends {Env} (s s' : State Env) : Prop :=
  exists evs, trace s' = trace s ++ evs.

(** More observations on a trace. *)
Definition removed_files (evs : list Event) : list string :=
  flat_map (fun ev =>
    match ev with
    | Ev (os_remove path) _ => [path]
    | _ => []
    end) evs.

Definition completed_transfers (evs : list Event) : list string :=
  flat_map (fun ev =>
    match ev with
    | Ev (session_storbinary cmd _) (Ok _) => [cmd]
    | _ => []
    end) evs.

Definition is_quit {T} (c : Call T) : bool :=
  match c with
  | session_quit => true
  | _ => false
  end.

(** How many times a trace closes the session. *)
Definition quits (evs : list Event) : nat :=
  length (filter (fun ev => match ev with Ev c _ => is_quit c end) evs).

(** [s'] continues the trace of [s] and leaves the session open. *)
Definition keeps_session {Env} (s s' : State Env) : Prop :=
  exists evs, trace s' = trace s ++ evs /\ quits evs = 0%nat.

(** The part of its arguments that a run of the uploader reads. *)
Definition selection (args : FtpUploader.Args) : FtpUploader.Args :=
  match truthy (FtpUploader.args_site args) with
  | None =>
      {| FtpUploader.args_site := None;
         FtpUploader.args_location := None;
         FtpUploader.args_file := None |}
  | Some site =>
      match truthy (FtpUploader.args_location args) with
      | None =>
          {| FtpUploader.args_site := Some site;
             FtpUploader.args_location := None;
             FtpUploader.args_file := None |}
      | Some location =>
          {| FtpUploader.args_site := Some site;
             FtpUploader.args_location := Some location;
             FtpUploader.args_file := truthy (FtpUploader.args_file args) |}
      end
  end.

(* ================================================================= *)
(** * Facts about rows *)

Unset Implicit Arguments.
Import Cr10xFormatter.

Lemma col_eqb_spec (a b : Col) : reflect (a = b) (col_eqb a b).
Proof.
  destruct a as [s|i], b as [t|j]; simpl; try (constructor; discriminate).
  - destruct (String.eqb_spec s t); constructor; congruence.
  - destruct (Z.eqb_spec i j); constructor; congruence.
Qed.

Lemma col_eqb_refl (a : Col) : col_eqb a a = true.
Proof. destruct (col_eqb_spec a a); congruence. Qed.

Lemma col_in_spec (name : Col) (columns : list Col) :
  col_in name columns = true <-> In name columns.
Proof.
  unfold col_in. rewrite existsb_exists. split.
  - intros [x [Hin Heq]]. destruct (col_eqb_spec name x); congruence.
  - intros Hin. exists name. split; [assumption | apply col_eqb_refl].
Qed.

Lemma row_get_None (name : Col) (row : Row) :
  row_get name row = None <-> ~ In name (row_names row).
Proof.
  induction row as [|[n v] rest IH]; simpl.
  - tauto.
  - destruct (col_eqb_spec n name) as [->|Hne].
    + split; [discriminate | intros H; exfalso; apply H; now left].
    + rewrite IH. tauto.
Qed.

Lemma row_set_fresh (row : Row) (name : Col) (value : Value) :
  ~ In name (row_names row) -> row_set row name value = row ++ [(name, value)].
Proof.
  induction row as [|[n v] rest IH]; simpl; intros Hn.
  - reflexivity.
  - destruct (col_eqb_spec n name) as [->|Hne].
    + exfalso. apply Hn. now left.
    + rewrite IH; [reflexivity | tauto].
Qed.

Lemma fold_row_set_fresh (items : list (Col * Value)) (acc : Row) :
  NoDup (row_names acc ++ row_names items) ->
  fold_left (fun row item => row_set row (fst item) (snd item)) items acc
  = acc ++ items.
Proof.
  revert acc. induction items as [|[n v] rest IH]; simpl; intros acc Hnd.
  - now rewrite app_nil_r.
  - rewrite row_set_fresh.
    + rewrite IH.
      * now rewrite <- app_assoc.
      * unfold row_names in *. rewrite map_app. simpl.
        rewrite <- app_assoc. exact Hnd.
    + apply NoDup_remove_2 in Hnd. intros Hin. apply Hnd.
      apply in_or_app. now left.
Qed.

Lemma Row_of_items_wf (row : Row) : row_wf row -> Row_of_items row = row.
Proof.
  intros Hwf. unfold Row_of_items. now rewrite fold_row_set_fresh.
Qed.

Lemma project_row_wf (columns : list Col) (row : Row) :
  row_wf row -> row_wf (project_row columns row).
Proof.
  unfold row_wf, row_names, project_row.
  induction row as [|[n v] rest IH]; simpl; intros Hnd.
  - constructor.
  - inversion Hnd as [|x l Hnot Hrest]; subst.
    destruct (col_in n columns); simpl; [|now apply IH].
    constructor; [|now apply IH].
    intros Hin. apply Hnot. apply in_map_iff in Hin.
    destruct Hin as [[n' v'] [Heq Hin]]. apply filter_In in Hin.
    apply in_map_iff. exists (n', v'). tauto.
Qed.

Lemma row_get_project (columns : list Col) (name : Col) (row : Row) :
  row_get name (project_row columns row)
  = if col_in name columns then row_get name row else None.
Proof.
  unfold project_row. induction row as [|[n v] rest IH]; simpl.
  - now destruct (col_in name columns).
  - destruct (col_eqb_spec n name) as [->|Hne].
    + destruct (col_in name columns) eqn:Hc; simpl.
      * now rewrite col_eqb_refl.
      * exact IH.
    + destruct (col_in n columns); simpl; [|exact IH].
      destruct (col_eqb_spec n name); [congruence | exact IH].
Qed.

(* ================================================================= *)
(** * Facts about the configuration *)

Lemma dict_get_set_same {V} (d : Dict V) (key : string) (value : V) :
  dict_get key (dict_set d key value) = Some value.
Proof.
  induction d as [|[k v] rest IH]; simpl.
  - now rewrite String.eqb_refl.
  - destruct (String.eqb k key) eqn:Hk; simpl; now rewrite Hk.
Qed.

Lemma dict_get_set_other {V} (d : Dict V) (key key' : string) (value : V) :
  key' <> key -> dict_get key' (dict_set d key value) = dict_get key' d.
Proof.
  intros Hne. induction d as [|[k v] rest IH]; simpl.
  - destruct (String.eqb_spec key key'); [congruence | reflexivity].
  - destruct (String.eqb_spec k key) as [->|Hk]; simpl.
    + destruct (String.eqb_spec key key'); [congruence | reflexivity].
    + destruct (String.eqb_spec k key'); [reflexivity | exact IH].
Qed.

(** The assignment of lines 414-418 of the formatter, when it is
    reached: the checkpoint of that location reads back as assigned. *)
Lemma assign_location_line_num_sets (cfg cfg' : Cfg) (site location : string)
    (n : Z) :
  assign_location_line_num cfg site location n = Ok cfg' ->
  location_line_num cfg' site location = Some n.
Proof.
  unfold assign_location_line_num, location_line_num, getfield, getitem.
  destruct (cfg_sites cfg) as [sites|]; simpl; [|discriminate].
  destruct (dict_get site sites) as [site_info|]; simpl; [|discriminate].
  destruct (site_locations site_info) as [locations|]; simpl; [|discriminate].
  destruct (dict_get location locations) as [location_info|]; simpl;
    [|discriminate].
  intros H. injection H as <-. simpl.
  rewrite dict_get_set_same. simpl. now rewrite dict_get_set_same.
Qed.

(** The assignment that ends [transfer_rows]. *)
Lemma assign_file_line_num_sets (cfg cfg' : Cfg)
    (site location file : string) (n : Z) :
  assign_file_line_num cfg site location file n = Ok cfg' ->
  file_line_num cfg' site location file = Some n.
Proof.
  unfold assign_file_line_num, file_line_num, getfield, getitem.
  destruct (cfg_sites cfg) as [sites|]; simpl; [|discriminate].
  destruct (dict_get site sites) as [site_info|]; simpl; [|discriminate].
  destruct (site_locations site_info) as [locations|]; simpl; [|discriminate].
  destruct (dict_get location locations) as [location_info|]; simpl;
    [|discriminate].
  destruct (loc_files location_info) as [files|]; simpl; [|discriminate].
  destruct (dict_get file files) as [file_info|]; simpl; [|discriminate].
  intros H. injection H as <-. simpl.
  rewrite dict_get_set_same. simpl. rewrite dict_get_set_same. simpl.
  now rewrite dict_get_set_same.
Qed.

Lemma assign_file_line_num_other (cfg cfg' : Cfg)
    (site location file file' : string) (n : Z) :
  assign_file_line_num cfg site location file n = Ok cfg' ->
  file' <> file ->
  file_line_num cfg' site location file' = file_line_num cfg site location file'.
Proof.
  unfold assign_file_line_num, file_line_num, getfield, getitem.
  destruct (cfg_sites cfg) as [sites|]; simpl; [|discriminate].
  destruct (dict_get site sites) as [site_info|] eqn:Hs; simpl;
    [|discriminate].
  destruct (site_locations site_info) as [locations|] eqn:Hl; simpl;
    [|discriminate].
  destruct (dict_get location locations) as [location_info|] eqn:Hloc; simpl;
    [|discriminate].
  destruct (loc_files location_info) as [files|] eqn:Hf; simpl;
    [|discriminate].
  destruct (dict_get file files) as [file_info|]; simpl; [|discriminate].
  intros H Hne. injection H as <-. simpl.
  rewrite dict_get_set_same. simpl. rewrite dict_get_set_same. simpl.
  now rewrite dict_get_set_other.
Qed.

(* ================================================================= *)
(** * The export projector *)

Lemma export_items_Some (columns : list Col) (row : Row) :
  export_items row (Some columns) = Ok (project_row columns row).
Proof.
  unfold project_row. induction row as [|[n v] rest IH]; simpl.
  - reflexivity.
  - rewrite IH. simpl. reflexivity.
Qed.

Lemma make_export_data_set_Some (columns : list Col) (data : DataSet) :
  Forall row_wf data ->
  make_export_data_set data (Some columns)
  = Ok (map (project_row columns) data).
Proof.
  induction 1 as [|row rest Hwf _ IH]; simpl.
  - reflexivity.
  - rewrite export_items_Some. simpl. rewrite IH. simpl.
    rewrite Row_of_items_wf by now apply project_row_wf.
    reflexivity.
Qed.

(** C10.  On a table of well-formed rows and a list of export columns,
    [make_export_data_set] raises nothing and returns one row per input
    row, in the same order; each output row is the input row filtered to
    the items whose key is in the export list, so the kept items keep
    their relative order, a kept key keeps its value, and a key that the
    input row lacks, or that is not exported, is absent from the output
    row. *)
Theorem make_export_data_set_projects
    (data : DataSet) (columns_to_export : list Col)
    (Hwf : Forall row_wf data) :
  exists data_to_export,
    make_export_data_set data (Some columns_to_export) = Ok data_to_export
    /\ length data_to_export = length data
    /\ forall i row, nth_error data i = Some row ->
         exists out_row,
           nth_error data_to_export i = Some out_row
           /\ out_row = filter (fun item => col_in (fst item) columns_to_export) row
           /\ forall name,
                row_get name out_row
                = if col_in name columns_to_export then row_get name row
                  else None.
Proof.
  exists (map (project_row columns_to_export) data). split; [|split].
  - now apply make_export_data_set_Some.
  - apply length_map.
  - intros i row Hi. exists (project_row columns_to_export row).
    split; [|split].
    + now apply map_nth_error.
    + reflexivity.
    + intros name. apply row_get_project.
Qed.

(* ================================================================= *)
(** * Column names and mismatches *)

Lemma update_column_names_filter (data : DataSet) (column_names : list Col) :
  update_column_names data column_names
  = (map (assign_names column_names)
         (filter (width_matches column_names) data),
     filter (fun row => negb (width_matches column_names row)) data).
Proof.
  induction data as [|row rest IH]; simpl; [reflexivity|].
  rewrite IH. unfold width_matches.
  destruct (Nat.eqb (length row) (length column_names)); reflexivity.
Qed.

Lemma filter_length_split {A} (p : A -> bool) (l : list A) :
  (length (filter p l) + length (filter (fun x => negb (p x)) l)
   = length l)%nat.
Proof.
  induction l as [|x l IH]; simpl; [reflexivity|].
  destruct (p x); simpl; lia.
Qed.

Lemma map_combine {A B} (l : list A) (l' : list B) :
  length l = length l' ->
  map fst (combine l l') = l /\ map snd (combine l l') = l'.
Proof.
  revert l'. induction l as [|x l IH]; intros [|y l'] Hlen;
    try discriminate; simpl.
  - now split.
  - injection Hlen as Hlen. destruct (IH l' Hlen) as [-> ->]. now split.
Qed.

Lemma assign_names_values (column_names : list Col) (row : Row) :
  NoDup column_names -> length row = length column_names ->
  row_names (assign_names column_names row) = column_names
  /\ row_values (assign_names column_names row) = row_values row.
Proof.
  intros Hnd Hlen. unfold assign_names.
  assert (Hl : length column_names = length (row_values row)).
  { unfold row_values. now rewrite length_map. }
  destruct (map_combine _ _ Hl) as [Hfst Hsnd].
  rewrite Row_of_items_wf.
  - unfold row_names. rewrite Hfst. split; [reflexivity|].
    unfold row_values at 1. exact Hsnd.
  - unfold row_wf, row_names. now rewrite Hfst.
Qed.

(** C8.  Column-name assignment with mismatch detection is total (it
    returns a pair, never an exception) and splits the input rows in two
    without losing or repeating any: the mismatch set holds, unmodified and
    in order, exactly the rows whose field count differs from the number
    of column names, the named set holds, in order, the renamed rows of
    matching width, and the two sizes add up to the number of input
    rows. *)
Theorem update_column_names_conserves_rows
    (data : DataSet) (column_names : list Col) :
  let (named_rows, mismatched_rows) :=
    update_column_names data column_names in
  (length named_rows + length mismatched_rows = length data)%nat
  /\ mismatched_rows
     = filter (fun row => negb (Nat.eqb (length row) (length column_names)))
         data
  /\ named_rows
     = map (fun row => Row_of_items (combine column_names (row_values row)))
         (filter (fun row => Nat.eqb (length row) (length column_names))
            data).
Proof.
  rewrite update_column_names_filter. split; [|split].
  - rewrite length_map. apply filter_length_split.
  - reflexivity.
  - reflexivity.
Qed.

(* ================================================================= *)
(** * Column value conversion *)

Lemma make_data_set_backup_wf (data : DataSet) :
  Forall row_wf data -> make_data_set_backup data = data.
Proof.
  unfold make_data_set_backup. induction 1 as [|row rest Hwf _ IH]; simpl.
  - reflexivity.
  - rewrite IH. f_equal.
    replace (map (fun item : Col * Value => (fst item, snd item)) row)
      with row.
    + now apply Row_of_items_wf.
    + clear. induction row as [|[n v] r IHr]; simpl; congruence.
Qed.

Lemma collect_converted_absent (items : list (Col * Value)) (column : Col)
    (converted_values : Row) (data_converted : list Row) :
  ~ In column (row_names items) ->
  collect_converted items column converted_values data_converted
  = (converted_values, data_converted).
Proof.
  revert converted_values data_converted.
  induction items as [|[n v] rest IH]; simpl; intros cv acc Hn.
  - reflexivity.
  - destruct (col_eqb_spec n column) as [->|Hne].
    + exfalso. apply Hn. now left.
    + apply IH. tauto.
Qed.

Lemma collect_converted_present (items : list (Col * Value)) (column : Col)
    (value : Value) (data_converted : list Row) :
  NoDup (row_names items) -> row_get column items = Some value ->
  collect_converted items column [] data_converted
  = ([(column, value)], data_converted ++ [[(column, value)]]).
Proof.
  induction items as [|[n v] rest IH]; simpl; intros Hnd Hget.
  - discriminate.
  - inversion Hnd as [|x l Hnot Hrest]; subst.
    destruct (col_eqb_spec n column) as [->|Hne].
    + injection Hget as ->. simpl.
      now rewrite collect_converted_absent.
    + now apply IH.
Qed.

Lemma collect_converted_rows_spec (data : DataSet) (column : Col)
    (data_converted : list Row) :
  Forall (fun row => row_wf row /\ row_get column row <> None) data ->
  collect_converted_rows data column data_converted
  = data_converted ++ map (converted_only column) data.
Proof.
  intros H. revert data_converted.
  induction H as [|row rest [Hwf Hget] _ IH]; simpl; intros acc.
  - now rewrite app_nil_r.
  - unfold converted_only at 1.
    destruct (row_get column row) as [value|] eqn:Hv; [|contradiction].
    rewrite (collect_converted_present row column value acc Hwf Hv). simpl.
    rewrite IH. now rewrite <- app_assoc.
Qed.

Lemma update_column_values_names (row_old row_new : Row) :
  row_names (update_column_values row_old row_new) = row_names row_old.
Proof.
  unfold update_column_values, row_names. rewrite map_map.
  apply map_ext. intros [n v]. simpl.
  now destruct (row_get n row_new).
Qed.

Lemma update_column_values_get (row_old row_new : Row) (name : Col) :
  row_get name (update_column_values row_old row_new)
  = match row_get name row_old with
    | Some value =>
        Some (match row_get name row_new with
              | Some value' => value'
              | None => value
              end)
    | None => None
    end.
Proof.
  unfold update_column_values.
  induction row_old as [|[n v] rest IH]; simpl; [reflexivity|].
  destruct (col_eqb_spec n name) as [->|Hne].
  - destruct (row_get name row_new); simpl; now rewrite col_eqb_refl.
  - destruct (row_get n row_new); simpl;
      (destruct (col_eqb_spec n name); [congruence | exact IH]).
Qed.

Lemma update_column_values_generator_nth (data_old data_new : list Row)
    (i : nat) (row_old : Row) :
  length data_new = length data_old ->
  nth_error data_old i = Some row_old ->
  exists row_new,
    nth_error data_new i = Some row_new
    /\ nth_error (update_column_values_generator data_old data_new) i
       = Some (update_column_values row_old row_new).
Proof.
  revert data_new i.
  induction data_old as [|r rest IH]; intros data_new i Hlen Hi.
  - destruct i; discriminate.
  - destruct data_new as [|rn restn]; [discriminate|].
    destruct i as [|i]; simpl in *.
    + injection Hi as ->. now exists rn.
    + apply IH; [lia | exact Hi].
Qed.

Lemma update_column_values_generator_length (data_old data_new : list Row) :
  length (update_column_values_generator data_old data_new)
  = length data_old.
Proof.
  revert data_new. induction data_old as [|r rest IH]; intros data_new.
  - reflexivity.
  - destruct data_new; simpl; now rewrite IH.
Qed.

Section Conversion.
Context {L : Library}.

(** C3 (the merge step, [common.update_column_values_generator], is
    modelled from the spec).  Take a table of well-formed rows and one
    conversion specification of value type "time" for the column
    [column_name], and let the time parser answer the call of
    [convert_data_time_values] with one well-formed row per input row,
    each holding the target column.  Then [convert_data_column_values]
    returns a table with as many rows as the input; the row at each
    position has the column names of the input row at that position, in
    the same order; every column other than the target keeps its value;
    and the target column, where the input row has it, holds the parsed
    value of the row at that position. *)
Theorem convert_data_column_values_keeps_columns
    (data parsed : DataSet) (column_name : Col)
    (value_time_columns : option (list Col)) (time_zone : option string)
    (time_format_args_library : option (list string)) (to_utc : bool)
    (Hwf : Forall row_wf data)
    (Hparse : cr_parse_time data time_zone time_format_args_library
                (Some column_name) value_time_columns (Some column_name)
                to_utc = Ok parsed)
    (Hlen : length parsed = length data)
    (Hparsed : Forall (fun row => row_wf row
                                  /\ row_get column_name row <> None) parsed) :
  exists converted,
    convert_data_column_values data
      [(column_name, {| value_type := Some "time";
                        value_time_columns := value_time_columns |})]
      time_zone time_format_args_library to_utc = Ok converted
    /\ length converted = length data
    /\ forall i row, nth_error data i = Some row ->
         exists row' parsed_row,
           nth_error converted i = Some row'
           /\ nth_error parsed i = Some parsed_row
           /\ row_names row' = row_names row
           /\ (forall name, name <> column_name ->
                 row_get name row' = row_get name row)
           /\ (In column_name (row_names row) ->
                 row_get column_name row' = row_get column_name parsed_row).
Proof.
  unfold convert_data_column_values. simpl.
  unfold convert_data_time_values. rewrite Hparse. simpl.
  unfold restore_data_after_data_time_conversion.
  rewrite make_data_set_backup_wf by exact Hwf.
  rewrite (collect_converted_rows_spec parsed column_name [] Hparsed). simpl.
  eexists. split; [reflexivity|]. split.
  - apply update_column_values_generator_length.
  - intros i row Hi.
    destruct (update_column_values_generator_nth data
                (map (converted_only column_name) parsed) i row)
      as [row_new [Hnew Hout]]; [now rewrite length_map | exact Hi |].
    destruct (nth_error parsed i) as [parsed_row|] eqn:Hp.
    2:{ rewrite nth_error_map, Hp in Hnew. discriminate. }
    rewrite nth_error_map, Hp in Hnew. simpl in Hnew.
    injection Hnew as <-.
    exists (update_column_values row (converted_only column_name parsed_row)),
           parsed_row.
    split; [exact Hout|]. split; [reflexivity|].
    split; [apply update_column_values_names|].
    assert (Hval : exists value, row_get column_name parsed_row = Some value).
    { rewrite Forall_forall in Hparsed.
      destruct (Hparsed parsed_row (nth_error_In _ _ Hp)) as [_ Hsome].
      destruct (row_get column_name parsed_row) as [value|];
        [now exists value | contradiction]. }
    destruct Hval as [value Hvalue].
    unfold converted_only. rewrite Hvalue. split.
    + intros name Hne. rewrite update_column_values_get. simpl.
      destruct (col_eqb_spec column_name name) as [Heq|_]; [congruence|].
      now destruct (row_get name row).
    + intros Hin. rewrite update_column_values_get. simpl.
      rewrite col_eqb_refl.
      destruct (row_get column_name row) eqn:Hr; [reflexivity|].
      apply row_get_None in Hr. contradiction.
Qed.

Lemma convert_columns_app
    (pre rest : list (Col * ConvertColumnInfo)) (data data_backup : DataSet)
    (time_zone : option string)
    (time_format_args_library : option (list string)) (to_utc : bool)
    (acc : DataSet) :
  convert_columns (pre ++ rest) data data_backup time_zone
    time_format_args_library to_utc acc
  = match convert_columns pre data data_backup time_zone
            time_format_args_library to_utc acc with
    | Ok acc' => convert_columns rest data data_backup time_zone
                   time_format_args_library to_utc acc'
    | Err e => Err e
    end.
Proof.
  revert acc. induction pre as [|[c info] pre IH]; intros acc; simpl.
  - reflexivity.
  - destruct (opt_str_eqb (value_type info) "time"); [|reflexivity].
    destruct (convert_data_time_values data c (value_time_columns info)
                time_zone time_format_args_library to_utc); simpl.
    + apply IH.
    + reflexivity.
Qed.

Lemma opt_str_eqb_false (value : option string) (s : string) :
  value <> Some s -> opt_str_eqb value s = false.
Proof.
  destruct value as [v|]; simpl; [|reflexivity].
  destruct (String.eqb_spec v s) as [->|Hne]; [|reflexivity].
  intros H. exfalso. now apply H.
Qed.

Lemma convert_data_column_values_unsupported
    (data : DataSet) (pre post : list (Col * ConvertColumnInfo))
    (column_name : Col) (info : ConvertColumnInfo)
    (time_zone : option string)
    (time_format_args_library : option (list string)) (to_utc : bool) :
  value_type info <> Some "time" ->
  is_Ok (convert_data_column_values data pre time_zone
           time_format_args_library to_utc) = true ->
  convert_data_column_values data (pre ++ (column_name, info) :: post)
    time_zone time_format_args_library to_utc
  = Err (UnsupportedValueConversionType
           "Only time conversion is supported in this version.").
Proof.
  unfold convert_data_column_values. intros Hty Hpre.
  rewrite convert_columns_app.
  destruct (convert_columns pre data (make_data_set_backup data) time_zone
              time_format_args_library to_utc []); [|discriminate].
  simpl. now rewrite opt_str_eqb_false.
Qed.

End Conversion.

(* ================================================================= *)
(** * Facts about the monad *)

Section MonadFacts.
Context {Env : Type} {W : World Env}.

Lemma bind_Ok {A B} (m : M Env A) (k : A -> M Env B) (s s1 : State Env)
    (a : A) :
  m s = (Ok a, s1) -> bind m k s = k a s1.
Proof. intros H. unfold bind. now rewrite H. Qed.

Lemma bind_Err {A B} (m : M Env A) (k : A -> M Env B) (s s1 : State Env)
    (e : Exn) :
  m s = (Err e, s1) -> bind m k s = (Err e, s1).
Proof. intros H. unfold bind. now rewrite H. Qed.

Lemma call_respond {T} (c : Call T) (s : State Env) (r : Result T)
    (env : Env) :
  respond c (ext s) = (r, env) ->
  call c s = (r, {| mem_cfg := mem_cfg s; ext := env;
                    trace := trace s ++ [Ev c r] |}).
Proof. intros H. unfold call. now rewrite H. Qed.

Lemma for_each_app {A} (l1 l2 : list A) (body : A -> M Env unit)
    (s : State Env) :
  for_each (l1 ++ l2) body s
  = match for_each l1 body s with
    | (Ok _, s1) => for_each l2 body s1
    | (Err e, s1) => (Err e, s1)
    end.
Proof.
  revert s. induction l1 as [|x l1 IH]; intros s; simpl.
  - reflexivity.
  - unfold bind. destruct (body x s) as [[[]|e] s1]; [apply IH | reflexivity].
Qed.

Lemma saved_configs_app (evs1 evs2 : list Event) :
  saved_configs (evs1 ++ evs2) = saved_configs evs1 ++ saved_configs evs2.
Proof. apply flat_map_app. Qed.

Section Frame.
Variable R : State Env -> State Env -> Prop.
Hypothesis R_refl : forall s, R s s.
Hypothesis R_trans : forall a b c, R a b -> R b c -> R a c.

Lemma respects_ret {A} (a : A) : respects R (ret a : M Env A).
Proof. intros s. apply R_refl. Qed.

Lemma respects_raise {A} (e : Exn) : respects R (raise e : M Env A).
Proof. intros s. apply R_refl. Qed.

Lemma respects_lift {A} (r : Result A) : respects R (lift r : M Env A).
Proof. intros s. apply R_refl. Qed.

Lemma respects_get_cfg : respects R (get_cfg : M Env Cfg).
Proof. intros s. apply R_refl. Qed.

Lemma respects_bind {A B} (m : M Env A) (k : A -> M Env B) :
  respects R m -> (forall a, respects R (k a)) -> respects R (bind m k).
Proof.
  intros Hm Hk s. unfold bind. specialize (Hm s).
  destruct (m s) as [[a|e] s1]; simpl in *.
  - eapply R_trans; [exact Hm | apply Hk].
  - exact Hm.
Qed.

Lemma respects_for_each {A} (l : list A) (body : A -> M Env unit) :
  (forall x, respects R (body x)) -> respects R (for_each l body).
Proof.
  intros Hbody. induction l as [|x l IH]; simpl.
  - apply respects_ret.
  - apply respects_bind; [apply Hbody | intros _; exact IH].
Qed.

Lemma respects_try_except {A} (body : M Env A) (handles : Exn -> bool)
    (handler : Exn -> M Env A) :
  respects R body -> (forall e, respects R (handler e)) ->
  respects R (try_except body handles handler).
Proof.
  intros Hb Hh s. unfold try_except. specialize (Hb s).
  destruct (body s) as [[a|e] s1]; simpl in *; [exact Hb|].
  destruct (handles e); [|exact Hb].
  eapply R_trans; [exact Hb | apply Hh].
Qed.

End Frame.

Lemma keeps_cfg_refl (s : State Env) : keeps_cfg s s.
Proof. reflexivity. Qed.

Lemma keeps_cfg_trans (a b c : State Env) :
  keeps_cfg a b -> keeps_cfg b c -> keeps_cfg a c.
Proof. unfold keeps_cfg. congruence. Qed.

Lemma keeps_saved_refl (s : State Env) : keeps_saved s s.
Proof. reflexivity. Qed.

Lemma keeps_saved_trans (a b c : State Env) :
  keeps_saved a b -> keeps_saved b c -> keeps_saved a c.
Proof. unfold keeps_saved. congruence. Qed.

Lemma keeps_both_refl (s : State Env) : keeps_cfg_and_saved s s.
Proof. split; reflexivity. Qed.

Lemma keeps_both_trans (a b c : State Env) :
  keeps_cfg_and_saved a b -> keeps_cfg_and_saved b c ->
  keeps_cfg_and_saved a c.
Proof.
  intros [H1 H2] [H3 H4].
  split; [eapply keeps_cfg_trans | eapply keeps_saved_trans]; eassumption.
Qed.

Lemma call_keeps_cfg {T} (c : Call T) : respects keeps_cfg (call c).
Proof.
  intros s. unfold call. now destruct (respond c (ext s)).
Qed.

Lemma call_keeps_saved {T} (c : Call T) :
  is_save c = false -> respects keeps_saved (call c).
Proof.
  intros Hc s. unfold call, keeps_saved.
  destruct (respond c (ext s)) as [r env]. simpl.
  rewrite saved_configs_app. simpl.
  destruct c; try discriminate; simpl; now rewrite app_nil_r.
Qed.

Lemma call_keeps_both {T} (c : Call T) :
  is_save c = false -> respects keeps_cfg_and_saved (call c).
Proof.
  intros Hc s. split; [apply call_keeps_cfg | now apply call_keeps_saved].
Qed.

Lemma put_cfg_keeps_saved (cfg : Cfg) :
  respects keeps_saved (put_cfg cfg : M Env unit).
Proof. intros s. reflexivity. Qed.

End MonadFacts.

(* ================================================================= *)
(** * The formatter: one location *)

Section FormatterFacts.
Context {L : Library} {Env : Type} {W : World Env}.

(** The keywords of the call in [process_location] name no parameter
    [array_ids_data], whatever the values. *)
Lemma bind_keywords_array_ids_data (v1 v2 v3 v4 v5 v6 v7 v8 : PyValue) :
  bind_keywords "process_array_ids" process_array_ids_params
    [("site", v1); ("location", v2); ("array_ids_data", v3);
     ("time_zone", v4); ("time_format_args_library", v5);
     ("output_dir", v6); ("array_ids_info", v7); ("file_ext", v8)]
  = Err (TypeError unexpected_array_ids_data).
Proof. reflexivity. Qed.

Lemma count_new_rows_nonneg (data : Dict DataSet) : 0 <= count_new_rows data.
Proof.
  unfold count_new_rows.
  assert (H : forall acc, 0 <= acc ->
            0 <= fold_left (fun n (item : string * DataSet) =>
                              n + Z.of_nat (length (snd item))) data acc).
  { induction data as [|x data IH]; simpl; intros acc Hacc.
    - exact Hacc.
    - apply IH. lia. }
  apply H. lia.
Qed.

(** C1.  When the read of a location yields at least one new row,
    [process_location] raises a [TypeError]: with a file path in the
    configuration it is the one of the call, which passes the keyword
    [array_ids_data] to a function that has no such parameter.  The state
    it leaves is the state right after the read: the trace holds the read
    and nothing else (no array-id was processed, no file exported, no
    configuration saved) and the configuration in memory is untouched. *)
Theorem process_location_raises_TypeError
    (output_dir site location : string) (location_info : LocationInfo)
    (track : bool) (s : State Env) (data : Dict DataSet) (env : Env)
    (Hread : respond (location_read location_info) (ext s) = (Ok data, env))
    (Hrows : 0 < count_new_rows data) :
  exists msg,
    process_location output_dir site location location_info track s
    = (Err (TypeError msg),
       {| mem_cfg := mem_cfg s; ext := env;
          trace := trace s ++ [Ev (location_read location_info) (Ok data)] |})
    /\ (loc_file_path location_info <> None ->
        msg = unexpected_array_ids_data).
Proof.
  unfold process_location.
  rewrite (bind_Ok _ _ _ _ _ (call_respond _ _ _ _ Hread)).
  destruct (Z.eqb_spec (count_new_rows data) 0) as [H0|_]; [lia|].
  destruct (loc_file_path location_info) as [path|] eqn:Hpath.
  - eexists. split; [|reflexivity].
    unfold process_array_ids, bind, lift at 1 2. simpl file_extension.
    cbv iota beta. rewrite bind_keywords_array_ids_data. reflexivity.
  - eexists. split; [reflexivity|]. intros H. now contradiction H.
Qed.

(** C7.  When the read of a location yields no new row,
    [process_location] returns the configuration as it is, with tracking
    or without; the state it leaves is the state right after the read, so
    no file was exported and nothing was saved. *)
Theorem process_location_no_new_rows
    (output_dir site location : string) (location_info : LocationInfo)
    (track : bool) (s : State Env) (data : Dict DataSet) (env : Env)
    (Hread : respond (location_read location_info) (ext s) = (Ok data, env))
    (Hrows : count_new_rows data = 0) :
  process_location output_dir site location location_info track s
  = (Ok (mem_cfg s),
     {| mem_cfg := mem_cfg s; ext := env;
        trace := trace s ++ [Ev (location_read location_info) (Ok data)] |}).
Proof.
  unfold process_location.
  rewrite (bind_Ok _ _ _ _ _ (call_respond _ _ _ _ Hread)).
  rewrite Hrows. reflexivity.
Qed.

Lemma process_array_id_unsupported
    (site location : string) (data : Dict DataSet)
    (time_zone : option string)
    (time_format_args_library : option (list string))
    (output_dir file_ext array_id : string) (info : ArrayIdInfo)
    (rows : DataSet) (names : list Col)
    (pre post : list (Col * ConvertColumnInfo)) (column_name : Col)
    (bad : ConvertColumnInfo) (s : State Env) :
  value_type bad <> Some "time" ->
  dict_get (get_default (ai_name info) array_id) data = Some rows ->
  rows <> [] ->
  ai_column_names info = Some names ->
  ai_convert_data_column_values info
  = Some (pre ++ (column_name, bad) :: post) ->
  is_Ok (convert_data_column_values (fst (update_column_names rows names))
           pre time_zone time_format_args_library
           (get_default (ai_to_utc info) false)) = true ->
  process_array_id site location data time_zone time_format_args_library
    output_dir file_ext array_id info s
  = (Err (UnsupportedValueConversionType
            "Only time conversion is supported in this version."), s).
Proof.
  intros Hty Hrows Hne Hnames Hconv Hpre.
  pose proof (convert_data_column_values_unsupported
                (fst (update_column_names rows names)) pre post column_name
                bad time_zone time_format_args_library
                (get_default (ai_to_utc info) false) Hty Hpre) as Hbad.
  unfold process_array_id. rewrite Hrows.
  destruct rows as [|row rows']; [now contradiction Hne|].
  cbn [length Nat.eqb]. rewrite Hnames, Hconv.
  unfold bind at 1. unfold ret at 1.
  destruct (update_column_names (row :: rows') names) as [named mism].
  cbn [fst] in Hbad.
  destruct pre as [|p pre']; cbn [app] in Hbad |- *;
    unfold bind at 1, lift at 1; now rewrite Hbad.
Qed.

(** C9.  A conversion specification whose value type is not "time"
    makes [convert_data_column_values] raise the unsupported-conversion
    error when the loop reaches it, that is, when the specifications
    before it were converted; the parser is not consulted for it.  In
    [process_array_ids] the error leaves the state exactly as the
    array-ids processed before had left it: their exports stand, and
    nothing was written for the failing array-id. *)
Theorem unsupported_conversion_raises
    (site location : string) (data : Dict DataSet)
    (time_zone : option string)
    (time_format_args_library : option (list string))
    (output_dir file_ext array_id : string) (info : ArrayIdInfo)
    (processed later : Dict ArrayIdInfo)
    (rows : DataSet) (names : list Col)
    (pre post : list (Col * ConvertColumnInfo)) (column_name : Col)
    (bad : ConvertColumnInfo) (s s1 : State Env)
    (Hty : value_type bad <> Some "time")
    (Hprocessed : process_array_ids_body site location data time_zone
                    time_format_args_library output_dir processed file_ext s
                  = (Ok tt, s1))
    (Hrows : dict_get (get_default (ai_name info) array_id) data = Some rows)
    (Hne : rows <> [])
    (Hnames : ai_column_names info = Some names)
    (Hconv : ai_convert_data_column_values info
             = Some (pre ++ (column_name, bad) :: post))
    (Hpre : is_Ok (convert_data_column_values
                     (fst (update_column_names rows names)) pre time_zone
                     time_format_args_library
                     (get_default (ai_to_utc info) false)) = true) :
  (forall (table : DataSet) (to_utc : bool),
      is_Ok (convert_data_column_values table pre time_zone
               time_format_args_library to_utc) = true ->
      convert_data_column_values table (pre ++ (column_name, bad) :: post)
        time_zone time_format_args_library to_utc
      = Err (UnsupportedValueConversionType
               "Only time conversion is supported in this version."))
  /\ process_array_ids_body site location data time_zone
       time_format_args_library output_dir
       (processed ++ (array_id, info) :: later) file_ext s
     = (Err (UnsupportedValueConversionType
               "Only time conversion is supported in this version."), s1).
Proof.
  split.
  - intros table to_utc Hok.
    now apply convert_data_column_values_unsupported.
  - unfold process_array_ids_body in *. rewrite for_each_app, Hprocessed.
    cbn [for_each]. apply bind_Err. cbn [fst snd].
    eapply process_array_id_unsupported; eassumption.
Qed.

End FormatterFacts.

(* ================================================================= *)
(** * What the programs leave untouched *)

(** Side conditions: the three relations are preorders. *)
Ltac preorder :=
  first [ assumption
        | exact keeps_cfg_refl | exact keeps_cfg_trans
        | exact keeps_saved_refl | exact keeps_saved_trans
        | exact keeps_both_refl | exact keeps_both_trans ].

(** Walks a computation built from the monad's combinators and closes
    [respects] goals; [known] supplies lemmas about named callees. *)
Ltac frame_using known :=
  repeat first
    [ known
    | progress cbv zeta
    | apply respects_ret; preorder
    | apply respects_raise; preorder
    | apply respects_lift; preorder
    | apply respects_get_cfg; preorder
    | apply call_keeps_both; reflexivity
    | apply call_keeps_saved; reflexivity
    | apply call_keeps_cfg
    | apply put_cfg_keeps_saved
    | apply respects_bind; [preorder | | intros ?]
    | apply respects_for_each; [preorder | preorder | intros ?]
    | apply respects_try_except; [preorder | | intros ?]
    | match goal with
      | |- respects _ (match ?x with _ => _ end) => destruct x
      | |- respects _ (if ?b then _ else _) => destruct b
      end ].

Ltac frame := frame_using fail.

(* ================================================================= *)
(** * The uploader *)

Section UploaderFacts.
Context {L : Library} {Env : Type} {W : World Env}.

Lemma cd_tree_respects (R : State Env -> State Env -> Prop) :
  (forall s, R s s) -> (forall a b c, R a b -> R b c -> R a c) ->
  (forall T (c : Call T), is_save c = false -> respects R (call c)) ->
  forall current_dir, respects R (FtpUploader.cd_tree current_dir).
Proof.
  intros Hrefl Htrans Hcall current_dir.
  apply (FtpUploader.cd_tree_elim (fun _ m => respects R m)).
  - intros d _ _. now apply respects_ret.
  - intros d Hne IH _.
    apply respects_try_except; [exact Htrans | now apply Hcall |].
    intros e. apply respects_bind; [exact Htrans | |].
    + intros s. apply (IH e s).
    + intros _. apply respects_bind; [exact Htrans | now apply Hcall |].
      intros _. now apply Hcall.
Qed.

Lemma cd_tree_keeps_saved (d : string) :
  respects keeps_saved (FtpUploader.cd_tree d).
Proof.
  apply (cd_tree_respects keeps_saved); try preorder.
  intros T c Hc. now apply call_keeps_saved.
Qed.

Lemma transfer_rows_keeps_saved
    (output_dir site location file : string) (file_info : FileInfo) :
  respects keeps_saved
    (FtpUploader.transfer_rows output_dir site location file file_info).
Proof.
  unfold FtpUploader.transfer_rows. cbv zeta. frame.
Qed.

Lemma process_sites_try_keeps_saved (args : FtpUploader.Args)
    (output_dir : string) (sites : Dict SiteInfo) (root_dir : string) :
  respects keeps_saved (FtpUploader.process_sites_try args output_dir sites root_dir).
Proof.
  unfold FtpUploader.process_sites_try, FtpUploader.transfer_locations,
    FtpUploader.transfer_files.
  frame_using ltac:(first [ apply cd_tree_keeps_saved
                          | apply transfer_rows_keeps_saved ]).
Qed.

Lemma process_sites_setup_keeps_saved :
  respects keeps_saved (FtpUploader.process_sites_setup (Env := Env)).
Proof. unfold FtpUploader.process_sites_setup. frame. Qed.

(** C4.  A run of the uploader's [process_sites] calls
    [utils.save_config] exactly when what precedes the [try] and the
    whole [try] suite (every site, location and file of the run) complete
    without raising, and then once, with the configuration as it is in
    memory at that point, all advanced checkpoints included.  When
    anything raises (caught and printed, or not caught) the run saves
    nothing: the configuration in memory, with whatever checkpoints the
    run had advanced before the exception, is left unsaved. *)
Theorem process_sites_saves_iff_completed
    (args : FtpUploader.Args) (s : State Env) :
  let s' := snd (FtpUploader.process_sites args s) in
  match FtpUploader.process_sites_setup s with
  | (Ok (output_dir, sites, root_dir), s0) =>
      match FtpUploader.process_sites_try args output_dir sites root_dir
              s0 with
      | (Ok _, s1) =>
          saved_configs (trace s') = saved_configs (trace s) ++ [mem_cfg s1]
          /\ mem_cfg s' = mem_cfg s1
      | (Err _, s1) =>
          saved_configs (trace s') = saved_configs (trace s)
          /\ mem_cfg s' = mem_cfg s1
      end
  | (Err _, s0) =>
      saved_configs (trace s') = saved_configs (trace s)
      /\ mem_cfg s' = mem_cfg s0
  end.
Proof.
  unfold FtpUploader.process_sites, bind.
  pose proof (process_sites_setup_keeps_saved s) as Hsetup.
  destruct (FtpUploader.process_sites_setup s)
    as [[[[output_dir sites] root_dir]|e] s0]; simpl in Hsetup.
  2:{ simpl. now split. }
  unfold try_except_else_finally.
  pose proof (process_sites_try_keeps_saved args output_dir sites root_dir s0)
    as Htry.
  destruct (FtpUploader.process_sites_try args output_dir sites root_dir s0)
    as [[[]|e] s1]; simpl in Htry; unfold keeps_saved in *.
  - unfold get_cfg, call. simpl.
    destruct (respond (utils_save_config FtpUploader.APP_CONFIG_PATH
                         (mem_cfg s1)) (ext s1)) as [r1 env1]. simpl.
    destruct (respond session_quit env1) as [[[]|e2] env2]; simpl;
      rewrite !saved_configs_app; simpl; rewrite app_nil_r;
      (split; [congruence | reflexivity]).
  - destruct (is_Exception e); unfold call; simpl.
    + destruct (respond (print e) (ext s1)) as [r1 env1]. simpl.
      destruct (respond session_quit env1) as [[[]|e2] env2]; simpl;
        rewrite !saved_configs_app; simpl; rewrite !app_nil_r;
        (split; [congruence | reflexivity]).
    + destruct (respond session_quit (ext s1)) as [[[]|e2] env2]; simpl;
        rewrite !saved_configs_app; simpl; rewrite !app_nil_r;
        (split; [congruence | reflexivity]).
Qed.

(** Case analysis on the answer to the next call. *)
Ltac run_call :=
  match goal with
  | |- context [@respond ?E ?Wd ?T ?c ?e] =>
      let r := fresh "r" in
      let env := fresh "env" in
      let Hr := fresh "Hr" in
      destruct (@respond E Wd T c e) as [[r|r] env] eqn:Hr;
      cbn [ext mem_cfg trace fst snd]
  end.

Lemma transfer_rows_cfg
    (output_dir site location file : string) (file_info : FileInfo)
    (s : State Env) :
  let (r, s') :=
    FtpUploader.transfer_rows output_dir site location file file_info s in
  match r with
  | Err _ => mem_cfg s' = mem_cfg s
  | Ok _ =>
      match fst (respond (cr_read_table_data (fi_file_path file_info)
                            (fi_header_row file_info)
                            (fi_line_num file_info)) (ext s)) with
      | Ok data =>
          if Z.of_nat (length data) =? 0 then mem_cfg s' = mem_cfg s
          else exists old,
                 fi_line_num file_info = Some old
                 /\ assign_file_line_num (mem_cfg s) site location file
                      (old + Z.of_nat (length data)) = Ok (mem_cfg s')
      | Err _ => False
      end
  end.
Proof.
  unfold FtpUploader.transfer_rows, bind, lift, call, ret, get_cfg, put_cfg.
  destruct (fi_file_path file_info) as [path|]; cbn [file_extension];
    [|reflexivity].
  run_call; [|reflexivity].
  destruct (Z.of_nat (length r) =? 0); [reflexivity|].
  run_call; [|reflexivity].
  run_call; [|reflexivity].
  destruct (negb (str_in _ r1)).
  - run_call; [|reflexivity]. run_call; [|reflexivity].
    run_call; [|reflexivity]. run_call; [|reflexivity].
    destruct (fi_line_num file_info) as [old|]; cbn [FtpUploader.py_add];
      [|reflexivity].
    destruct (assign_file_line_num _ _ _ _ _) as [cfg|e] eqn:Hassign;
      cbn [mem_cfg]; [|reflexivity].
    exists old. now split.
  - run_call; [|reflexivity]. run_call; [|reflexivity].
    run_call; [|reflexivity]. run_call; [|reflexivity].
    destruct (fi_line_num file_info) as [old|]; cbn [FtpUploader.py_add];
      [|reflexivity].
    destruct (assign_file_line_num _ _ _ _ _) as [cfg|e] eqn:Hassign;
      cbn [mem_cfg]; [|reflexivity].
    exists old. now split.
Qed.

(** The next call, on the state as the calls before it left it. *)
Ltac step_call := cbn [ext mem_cfg trace fst snd]; run_call.

(** Closes one outcome of [transfer_rows] after the export: names the
    events that follow it and evaluates the observations on them. *)
Ltac transfer_done :=
  repeat match goal with u : unit |- _ => destruct u end;
  cbn [ext mem_cfg trace fst snd];
  eexists; split; [rewrite <- ?app_assoc; cbn [app]; reflexivity|];
  cbn [fst snd];
  repeat first
    [ reflexivity
    | discriminate
    | split
    | eexists
    | intros ? ].

(** C6.  In a transfer that read at least one new row, once the remote
    directory is listed, the next call exports the rows to the staging
    file, with a header if and only if the target name is absent from the
    listing, and the rows are exported only that once.  When the export
    and the opening of the staging file succeed, the call that follows
    sends the opened file to the server, under [STOR name] when the name
    is absent from the listing and under [APPE name] when it is present,
    and no other transfer command is sent; a transfer that returns
    normally had that command accepted.  When the export or the opening
    fails, the transfer raises that exception and nothing is sent. *)
Theorem transfer_rows_create_or_append
    (output_dir site location file path : string) (file_info : FileInfo)
    (s : State Env) (data : DataSet) (listing : list string)
    (env1 env2 env3 : Env)
    (Hpath : fi_file_path file_info = Some path)
    (Hread : respond (cr_read_table_data (Some path)
                        (fi_header_row file_info) (fi_line_num file_info))
                     (ext s) = (Ok data, env1))
    (Hrows : data <> [])
    (Hdirs : respond (os_makedirs
                        (os_path_dirname
                           (os_path_join_abs output_dir site location
                              (get_default (fi_name file_info) file
                               ++ os_path_ext path)%string)) true) env1
             = (Ok tt, env2))
    (Hlist : respond session_nlst env2 = (Ok listing, env3)) :
  let file_name :=
    (get_default (fi_name file_info) file ++ os_path_ext path)%string in
  let output_file_path :=
    os_path_join_abs output_dir site location file_name in
  let absent := negb (str_in file_name listing) in
  let cmd := ((if absent then "STOR " else "APPE ") ++ file_name)%string in
  let export := cr_export_to_csv data output_file_path (Some absent) None in
  let exported := respond export env3 in
  let opened := respond (open_rb output_file_path) (snd exported) in
  let (r, s') :=
    FtpUploader.transfer_rows output_dir site location file file_info s in
  exists evs,
    trace s'
    = trace s
      ++ [Ev (cr_read_table_data (Some path) (fi_header_row file_info)
                (fi_line_num file_info)) (Ok data);
          Ev (os_makedirs (os_path_dirname output_file_path) true) (Ok tt);
          Ev session_nlst (Ok listing);
          Ev export (fst exported)]
      ++ evs
    /\ csv_exports evs = []
    /\ match fst exported with
       | Err e => evs = [] /\ r = Err e
       | Ok _ =>
           match fst opened with
           | Err e =>
               evs = [Ev (open_rb output_file_path) (Err e)] /\ r = Err e
           | Ok f =>
               exists stored rest,
                 evs = Ev (open_rb output_file_path) (Ok f)
                       :: Ev (session_storbinary cmd f) stored :: rest
                 /\ storbinary_cmds rest = []
                 /\ (r = Ok tt -> stored = Ok tt)
           end
       end.
Proof.
  cbv zeta.
  unfold FtpUploader.transfer_rows, bind, lift, call, ret, get_cfg, put_cfg.
  cbv zeta. rewrite Hpath. cbn [file_extension]. rewrite Hread.
  cbn [ext mem_cfg trace].
  destruct (Z.eqb_spec (Z.of_nat (length data)) 0) as [H0|_].
  { destruct data; [now contradiction Hrows | simpl in H0; lia]. }
  cbn [ext mem_cfg trace]. rewrite Hdirs. cbn [ext mem_cfg trace].
  rewrite Hlist. cbn [ext mem_cfg trace].
  destruct (negb (str_in _ listing));
    (step_call; [|transfer_done]);
    (step_call; [|transfer_done]);
    (step_call; [|transfer_done]);
    (step_call; [|transfer_done]);
    (destruct (fi_line_num file_info) as [old|]; cbn [FtpUploader.py_add];
     [|transfer_done]);
    destruct (assign_file_line_num _ _ _ _ _); transfer_done.
Qed.

End UploaderFacts.

(* ================================================================= *)
(** * The formatter: tracking *)

Section FormatterFrame.
Context {L : Library} {Env : Type} {W : World Env}.

Lemma process_array_ids_keeps_both (kwargs : Kwargs) :
  respects keeps_cfg_and_saved (process_array_ids (Env := Env) kwargs).
Proof.
  unfold process_array_ids, process_array_ids_body, process_array_id.
  frame.
Qed.

Lemma process_location_untracked
    (output_dir site location : string) (location_info : LocationInfo) :
  respects keeps_cfg_and_saved
    (process_location (Env := Env) output_dir site location location_info
       false).
Proof.
  unfold process_location.
  frame_using ltac:(apply process_array_ids_keeps_both).
Qed.

Lemma process_location_failure
    (output_dir site location : string) (location_info : LocationInfo)
    (track : bool) (s : State Env) :
  is_Ok (fst (process_location output_dir site location location_info
                track s)) = false ->
  mem_cfg (snd (process_location output_dir site location location_info
                  track s)) = mem_cfg s.
Proof.
  destruct track; [|intros _; apply process_location_untracked].
  unfold process_location, bind. cbv zeta.
  pose proof (call_keeps_cfg (location_read location_info) s) as Hread.
  unfold location_read in Hread.
  destruct (call _ s) as [[data|e] s1]; simpl in Hread; [|intros _; exact Hread].
  destruct (count_new_rows data =? 0); [discriminate|].
  unfold lift at 1.
  destruct (file_extension (loc_file_path location_info)) as [file_ext|e];
    [|intros _; exact Hread].
  match goal with
  | |- context [process_array_ids ?k s1] =>
      pose proof (process_array_ids_keeps_both k s1) as [Hids _];
      destruct (process_array_ids k s1) as [[[]|e] s2]
  end; simpl in Hids; unfold keeps_cfg in *; [|intros _; simpl; congruence].
  destruct (count_new_rows data >? 0); [|discriminate].
  unfold get_cfg, lift, put_cfg.
  destruct (assign_location_line_num _ _ _ _); simpl;
    [discriminate | intros _; congruence].
Qed.

Lemma formatter_process_sites_untracked (args : Cr10xFormatter.Args) :
  args_track args = false ->
  respects keeps_cfg_and_saved (Cr10xFormatter.process_sites (Env := Env) args).
Proof.
  intros Htrack. unfold Cr10xFormatter.process_sites, process_locations.
  rewrite Htrack.
  frame_using ltac:(apply process_location_untracked).
Qed.

End FormatterFrame.

(* ================================================================= *)
(** * When the checkpoint is assigned *)

Section Checkpoints.
Context {L : Library} {Env : Type} {W : World Env}.

(** C5, amended.  In the formatter, [process_location] leaves the
    configuration in memory as it was whenever tracking is off or the call
    raises, and a run of [process_sites] with tracking off neither changes
    nor saves the configuration.  The uploader has no tracking option:
    [transfer_rows] leaves the configuration as it was when it raises or
    when it read no new row, and after a transfer of [n >= 1] new rows
    that returns normally the configuration is the old one with that
    file's [line_num] set to the old value plus [n]. *)
Theorem line_num_assigned_only_after_success :
  (forall (output_dir site location : string) (location_info : LocationInfo)
          (track : bool) (s : State Env),
      track = false
      \/ is_Ok (fst (process_location output_dir site location location_info
                       track s)) = false ->
      mem_cfg (snd (process_location output_dir site location location_info
                      track s)) = mem_cfg s)
  /\ (forall (args : Cr10xFormatter.Args) (s : State Env),
        args_track args = false ->
        mem_cfg (snd (Cr10xFormatter.process_sites args s)) = mem_cfg s
        /\ saved_configs (trace (snd (Cr10xFormatter.process_sites args s)))
           = saved_configs (trace s))
  /\ (forall (output_dir site location file : string) (file_info : FileInfo)
             (s : State Env),
        let (r, s') :=
          FtpUploader.transfer_rows output_dir site location file file_info
            s in
        match r with
        | Err _ => mem_cfg s' = mem_cfg s
        | Ok _ =>
            match fst (respond (cr_read_table_data (fi_file_path file_info)
                                  (fi_header_row file_info)
                                  (fi_line_num file_info)) (ext s)) with
            | Ok data =>
                if Z.of_nat (length data) =? 0 then mem_cfg s' = mem_cfg s
                else exists old,
                       fi_line_num file_info = Some old
                       /\ assign_file_line_num (mem_cfg s) site location file
                            (old + Z.of_nat (length data)) = Ok (mem_cfg s')
            | Err _ => False
            end
        end).
Proof.
  split; [|split].
  - intros output_dir site location location_info track s [->|Hfail].
    + apply process_location_untracked.
    + now apply process_location_failure.
  - intros args s Htrack.
    exact (formatter_process_sites_untracked args Htrack s).
  - apply transfer_rows_cfg.
Qed.

End Checkpoints.

(* ================================================================= *)
(** * More on the formatter's tables *)

Lemma col_in_filter (name : Col) (columns1 columns2 : list Col) :
  col_in name (filter (fun c => col_in c columns1) columns2)
  = col_in name columns2 && col_in name columns1.
Proof.
  induction columns2 as [|c rest IH]; simpl; [reflexivity|].
  destruct (col_in c columns1) eqn:Hc; simpl; rewrite IH.
  - destruct (col_eqb_spec name c) as [->|Hne]; simpl.
    + now rewrite Hc.
    + reflexivity.
  - destruct (col_eqb_spec name c) as [->|Hne]; simpl.
    + rewrite Hc. now rewrite andb_false_r.
    + reflexivity.
Qed.

Lemma project_row_twice (columns1 columns2 : list Col) (row : Row) :
  project_row columns2 (project_row columns1 row)
  = project_row (filter (fun c => col_in c columns1) columns2) row.
Proof.
  unfold project_row. induction row as [|[n v] rest IH]; simpl.
  - reflexivity.
  - rewrite col_in_filter.
    destruct (col_in n columns1); simpl.
    + rewrite andb_true_r. destruct (col_in n columns2); now rewrite IH.
    + rewrite andb_false_r. exact IH.
Qed.

Lemma project_row_names (columns : list Col) (row : Row) (name : Col) :
  In name (row_names (project_row columns row)) ->
  In name columns /\ In name (row_names row).
Proof.
  unfold row_names, project_row. intros Hin.
  apply in_map_iff in Hin. destruct Hin as [[n v] [Heq Hin]].
  simpl in Heq. subst n. apply filter_In in Hin. destruct Hin as [Hin Hc].
  split.
  - now apply col_in_spec.
  - apply in_map_iff. now exists (name, v).
Qed.

(** X1.  [make_data_set_backup] returns a table equal to its argument
    when no row of the argument repeats a column name: rebuilding each row
    from its items changes nothing. *)
Theorem make_data_set_backup_copies (data : DataSet)
    (Hwf : Forall row_wf data) :
  make_data_set_backup data = data.
Proof. now apply make_data_set_backup_wf. Qed.

(** X2.  On rows without repeated column names and a list of columns to
    export, [make_export_data_set] succeeds; the rows it returns have no
    repeated column names either, and every column name of a returned row
    is one of the columns to export. *)
Theorem make_export_data_set_keeps_rows_well_formed
    (data : DataSet) (columns_to_export : list Col)
    (Hwf : Forall row_wf data) :
  exists data_to_export,
    make_export_data_set data (Some columns_to_export) = Ok data_to_export
    /\ Forall row_wf data_to_export
    /\ forall out_row name,
         In out_row data_to_export -> In name (row_names out_row) ->
         In name columns_to_export.
Proof.
  exists (map (project_row columns_to_export) data).
  split; [now apply make_export_data_set_Some|]. split.
  - apply Forall_map. eapply Forall_impl; [|exact Hwf].
    intros row. apply project_row_wf.
  - intros out_row name Hin Hname. apply in_map_iff in Hin.
    destruct Hin as [row [<- _]].
    now apply (project_row_names columns_to_export row).
Qed.

(** X3.  Exporting twice is exporting once with the columns common to
    both lists: on rows without repeated column names,
    [make_export_data_set] applied with [columns2] to the result of
    [make_export_data_set] with [columns1] gives what one application
    with the columns of [columns2] that are in [columns1] gives; and
    applied twice with the same list it gives what it gives once. *)
Theorem make_export_data_set_twice
    (data : DataSet) (columns1 columns2 : list Col)
    (Hwf : Forall row_wf data) :
  rbind (make_export_data_set data (Some columns1))
        (fun exported => make_export_data_set exported (Some columns2))
  = make_export_data_set data
      (Some (filter (fun c => col_in c columns1) columns2))
  /\ rbind (make_export_data_set data (Some columns1))
           (fun exported => make_export_data_set exported (Some columns1))
     = make_export_data_set data (Some columns1).
Proof.
  assert (Hwf1 : Forall row_wf (map (project_row columns1) data)).
  { apply Forall_map. eapply Forall_impl; [|exact Hwf].
    intros row. apply project_row_wf. }
  rewrite !make_export_data_set_Some by assumption. simpl.
  rewrite !make_export_data_set_Some by assumption.
  rewrite !map_map. split; f_equal; apply map_ext_in; intros row _.
  - apply project_row_twice.
  - rewrite project_row_twice. unfold project_row.
    apply filter_ext. intros [n v]. simpl. rewrite col_in_filter.
    now destruct (col_in n columns1).
Qed.

(** X4.  When the configuration has no [export_columns], so that
    [columns_to_export] is [None], [make_export_data_set] raises a
    [TypeError] (the test [name in columns_to_export]) as soon as the
    table has a row with a field; nothing is returned. *)
Theorem make_export_data_set_without_columns
    (data : DataSet) (Hrow : exists row, In row data /\ row <> []) :
  make_export_data_set data None
  = Err (TypeError "argument of type 'NoneType' is not iterable").
Proof.
  destruct Hrow as [row [Hin Hne]].
  induction data as [|r rest IH]; [contradiction|].
  simpl. destruct r as [|[n v] items]; simpl.
  - destruct Hin as [<-|Hin]; [now contradiction Hne|].
    now rewrite (IH Hin).
  - reflexivity.
Qed.

(** X5.  The loop of [restore_data_after_data_time_conversion] over the
    converted rows, on rows without repeated column names: it collects,
    in order, one row for each converted row that has the converted
    column, holding that column alone; a converted row without the column
    contributes no row, so the rows after it move up by one place in the
    list handed to the merge. *)
Theorem collect_converted_rows_skips_rows_without_column
    (data : DataSet) (converted_column_name : Col)
    (Hwf : Forall row_wf data) :
  collect_converted_rows data converted_column_name []
  = map (converted_only converted_column_name)
      (filter (fun row => col_in converted_column_name (row_names row))
         data).
Proof.
  assert (Hacc : forall acc,
    collect_converted_rows data converted_column_name acc
    = acc ++ map (converted_only converted_column_name)
               (filter (fun row =>
                          col_in converted_column_name (row_names row))
                  data)).
  { induction Hwf as [|row rest Hrow _ IH]; simpl; intros acc.
    - now rewrite app_nil_r.
    - destruct (row_get converted_column_name row) as [value|] eqn:Hget.
      + rewrite (collect_converted_present row converted_column_name value
                   acc Hrow Hget). simpl. rewrite IH.
        destruct (col_in converted_column_name (row_names row)) eqn:Hin.
        * simpl. unfold converted_only at 2. rewrite Hget.
          now rewrite <- app_assoc.
        * assert (Hnot : ~ In converted_column_name (row_names row)).
          { intros H. apply col_in_spec in H. congruence. }
          apply row_get_None in Hnot. congruence.
      + assert (Hnot : ~ In converted_column_name (row_names row))
          by now apply row_get_None.
        rewrite (collect_converted_absent row converted_column_name [] acc
                   Hnot). simpl. rewrite IH.
        destruct (col_in converted_column_name (row_names row)) eqn:Hin;
          [|reflexivity].
        apply col_in_spec in Hin. contradiction. }
  exact (Hacc []).
Qed.

Section SharedConversion.
Context {C : SharedTables.Callees}.

Lemma shared_convert_columns_app
    (earlier rest : list (Col * ConvertColumnInfo))
    (data data_backup : DataSet) (time_zone : option string)
    (time_format_args_library : option (list string)) (to_utc : bool)
    (data_converted : DataSet) :
  SharedTables.convert_columns (earlier ++ rest) data data_backup time_zone
    time_format_args_library to_utc data_converted
  = match SharedTables.convert_columns earlier data data_backup time_zone
            time_format_args_library to_utc data_converted with
    | (Ok data_converted', data', data_backup') =>
        SharedTables.convert_columns rest data' data_backup' time_zone
          time_format_args_library to_utc data_converted'
    | (Err e, data', data_backup') => (Err e, data', data_backup')
    end.
Proof.
  revert data data_backup data_converted.
  induction earlier as [|[c info] earlier IH];
    intros data data_backup data_converted; simpl.
  - reflexivity.
  - destruct (opt_str_eqb (value_type info) "time"); [|reflexivity].
    destruct (SharedTables.convert_data_time_values data c
                (value_time_columns info) time_zone
                time_format_args_library to_utc) as [[parsed|e] data'];
      [|reflexivity].
    destruct (SharedTables.restore_data_after_data_time_conversion parsed
                data_backup c) as [merged data_backup'].
    apply IH.
Qed.

(** A turn does not read the rows that the turn before it returned. *)
Lemma shared_convert_columns_turn
    (column_name : Col) (convert_column_info : ConvertColumnInfo)
    (data data_backup : DataSet) (time_zone : option string)
    (time_format_args_library : option (list string)) (to_utc : bool)
    (data_converted data_converted' : DataSet) :
  SharedTables.convert_columns [(column_name, convert_column_info)] data
    data_backup time_zone time_format_args_library to_utc data_converted
  = SharedTables.convert_columns [(column_name, convert_column_info)] data
      data_backup time_zone time_format_args_library to_utc data_converted'.
Proof.
  simpl. destruct (opt_str_eqb (value_type convert_column_info) "time");
    [|reflexivity].
  destruct (SharedTables.convert_data_time_values data column_name
              (value_time_columns convert_column_info) time_zone
              time_format_args_library to_utc) as [[parsed|e] data'];
    [|reflexivity].
  now destruct (SharedTables.restore_data_after_data_time_conversion parsed
                  data_backup column_name).
Qed.

(** Callees that write nothing leave both tables as the loop found
    them. *)
Lemma shared_convert_columns_tables
    (values_to_convert : list (Col * ConvertColumnInfo))
    (data data_backup : DataSet) (time_zone : option string)
    (time_format_args_library : option (list string)) (to_utc : bool)
    (data_converted : DataSet) :
  (forall table tz library parsed_column columns replaced utc,
      snd (SharedTables.parse_time table tz library parsed_column columns
             replaced utc) = table) ->
  (forall data_old data_new,
      snd (SharedTables.update_column_values_generator data_old data_new)
      = data_old) ->
  let '(_, data', data_backup') :=
    SharedTables.convert_columns values_to_convert data data_backup
      time_zone time_format_args_library to_utc data_converted in
  data' = data /\ data_backup' = data_backup.
Proof.
  intros Hparse Hmerge. revert data_converted.
  induction values_to_convert as [|[c info] rest IH]; intros data_converted;
    simpl.
  - now split.
  - destruct (opt_str_eqb (value_type info) "time"); [|now split].
    unfold SharedTables.convert_data_time_values,
      SharedTables.restore_data_after_data_time_conversion.
    pose proof (Hparse data time_zone time_format_args_library (Some c)
                  (value_time_columns info) (Some c) to_utc) as Hp.
    destruct (SharedTables.parse_time data time_zone
                time_format_args_library (Some c) (value_time_columns info)
                (Some c) to_utc) as [[parsed|e] data'];
      simpl in Hp; subst data'; [|now split].
    pose proof (Hmerge data_backup (collect_converted_rows parsed c []))
      as Hm.
    destruct (SharedTables.update_column_values_generator data_backup
                (collect_converted_rows parsed c []))
      as [merged data_backup']; simpl in Hm; subst data_backup'.
    apply IH.
Qed.

(** X6.  Of several conversions only the last is kept, as long as the
    callees write nothing.  The loop of [convert_data_column_values]
    hands [data] and [data_backup] to every turn and does not read the
    rows the turn before returned.  So when [cr.parse_time] and the merge
    generator leave the table they are handed as it was, and the earlier
    conversions succeed, the result is the result of the last conversion
    alone.  (A merge generator that writes into the rows of the baseline
    keeps the earlier conversions as well: [conversions_of_year_and_day]
    below.) *)
Theorem convert_data_column_values_keeps_last_conversion_only
    (data : DataSet) (earlier : list (Col * ConvertColumnInfo))
    (column_name : Col) (convert_column_info : ConvertColumnInfo)
    (time_zone : option string)
    (time_format_args_library : option (list string)) (to_utc : bool)
    (Hparse : forall table tz library parsed_column columns replaced utc,
        snd (SharedTables.parse_time table tz library parsed_column columns
               replaced utc) = table)
    (Hmerge : forall data_old data_new,
        snd (SharedTables.update_column_values_generator data_old data_new)
        = data_old)
    (Hearlier : is_Ok (fst (fst (SharedTables.convert_data_column_values
                                   data earlier time_zone
                                   time_format_args_library to_utc)))
                = true) :
  SharedTables.convert_data_column_values data
    (earlier ++ [(column_name, convert_column_info)]) time_zone
    time_format_args_library to_utc
  = SharedTables.convert_data_column_values data
      [(column_name, convert_column_info)] time_zone
      time_format_args_library to_utc.
Proof.
  unfold SharedTables.convert_data_column_values in *. cbv zeta in *.
  rewrite shared_convert_columns_app.
  pose proof (shared_convert_columns_tables earlier data
                (make_data_set_backup data) time_zone
                time_format_args_library to_utc [] Hparse Hmerge) as Hsame.
  destruct (SharedTables.convert_columns earlier data
              (make_data_set_backup data) time_zone
              time_format_args_library to_utc [])
    as [[[acc|e] data'] data_backup']; [|discriminate Hearlier].
  destruct Hsame as [-> ->].
  apply shared_convert_columns_turn.
Qed.

End SharedConversion.

(** With callees that write nothing, the loop on shared tables is the
    loop of [Cr10xFormatter]. *)
Lemma convert_columns_without_writes {L : Library}
    (values_to_convert : list (Col * ConvertColumnInfo))
    (data data_backup : DataSet) (time_zone : option string)
    (time_format_args_library : option (list string)) (to_utc : bool)
    (data_converted : DataSet) :
  SharedTables.convert_columns (C := SharedTables.without_writes)
    values_to_convert data data_backup time_zone time_format_args_library
    to_utc data_converted
  = (convert_columns values_to_convert data data_backup time_zone
       time_format_args_library to_utc data_converted,
     data, data_backup).
Proof.
  revert data_converted.
  induction values_to_convert as [|[c info] rest IH]; intros data_converted;
    simpl.
  - reflexivity.
  - destruct (opt_str_eqb (value_type info) "time"); [|reflexivity].
    unfold SharedTables.convert_data_time_values, convert_data_time_values.
    simpl.
    destruct (cr_parse_time data time_zone time_format_args_library
                (Some c) (value_time_columns info) (Some c) to_utc)
      as [parsed|e]; simpl; [|reflexivity].
    apply IH.
Qed.


(* ================================================================= *)
(** * The formatter: one array, and a whole run *)

(** Case analysis on the answer of the world to the next call. *)
Ltac next_call :=
  match goal with
  | |- context [@respond ?E ?Wd ?T ?c ?e] =>
      let r := fresh "r" in
      let env := fresh "env" in
      let Hr := fresh "Hr" in
      destruct (@respond E Wd T c e) as [[r|r] env] eqn:Hr;
      cbn [ext mem_cfg trace fst snd]
  end.

(** Case analysis on the next answer or on an innermost scrutinee. *)
Ltac case_step :=
  cbn [ext mem_cfg trace fst snd];
  match goal with
  | |- context [@respond ?E ?Wd ?T ?c ?e] =>
      destruct (@respond E Wd T c e) as [[?|?] ?]
  | |- context [match ?x with _ => _ end] =>
      lazymatch x with
      | context [match _ with _ => _ end] => fail
      | _ => destruct x
      end
  end.

(** Closes one outcome of [process_array_id]. *)
Ltac array_done :=
  repeat match goal with u : unit |- _ => destruct u end;
  cbn [ext mem_cfg trace fst snd];
  split; [reflexivity|];
  first [ left; reflexivity
        | right; left; eexists; reflexivity
        | right; right; eexists; eexists;
          split; [|rewrite <- ?app_assoc; reflexivity]; discriminate ].

Lemma csv_exports_app (evs1 evs2 : list Event) :
  csv_exports (evs1 ++ evs2) = csv_exports evs1 ++ csv_exports evs2.
Proof. apply flat_map_app. Qed.

Section MoreFormatter.
Context {L : Library} {Env : Type} {W : World Env}.

(** X7.  One turn of the loop of [process_array_ids] never changes the
    configuration in memory and makes at most two calls, both of
    [cr.export_to_csv]: either it makes no call at all, or it writes the
    array's file (with a header row and the array's [include_time_zone])
    and stops there, or it writes the array's file, that call returning,
    and then the file of the mismatched rows, which are then not empty.
    The result of the turn is the result of its last call. *)
Theorem process_array_id_writes_at_most_two_files
    (site location : string) (data : Dict DataSet)
    (time_zone : option string)
    (time_format_args_library : option (list string))
    (output_dir file_ext array_id : string) (array_id_info : ArrayIdInfo)
    (s : State Env) :
  let array_name := get_default (ai_name array_id_info) array_id in
  let main_path :=
    array_file_path output_dir site location array_name file_ext in
  let side_path :=
    mismatches_file_path output_dir site location array_name file_ext in
  let include_time_zone :=
    get_default (ai_include_time_zone array_id_info) false in
  let (r, s') :=
    process_array_id site location data time_zone time_format_args_library
      output_dir file_ext array_id array_id_info s in
  mem_cfg s' = mem_cfg s
  /\ (s' = s
      \/ (exists exported,
            trace s' = trace s
              ++ [Ev (cr_export_to_csv exported main_path (Some true)
                        (Some include_time_zone)) r])
      \/ (exists exported mismatches,
            mismatches <> []
            /\ trace s' = trace s
                 ++ [Ev (cr_export_to_csv exported main_path (Some true)
                           (Some include_time_zone)) (Ok tt);
                     Ev (cr_export_to_csv mismatches side_path None None)
                        r])).
Proof.
  intros array_name main_path side_path include_time_zone.
  unfold process_array_id, bind, ret, raise, lift, call.
  fold array_name. fold main_path. fold side_path. fold include_time_zone.
  repeat case_step; array_done.
Qed.

(** X8.  What a turn of the loop of [process_array_ids] exports when it
    returns.  Let the array have rows, let [cr.update_column_names] split
    them into [named] and [mismatches], let the configured conversions (if
    any) turn [named] into [converted], and let [cr.parse_time] turn that
    into [parsed], rows without repeated column names.  Then the turn adds
    to the exports of the trace the rows of [parsed] cut down to the
    [export_columns], written with a header to the array's file, followed,
    when [mismatches] is not empty, by [mismatches] as they are, written to
    the array's mismatches file; and nothing else. *)
Theorem process_array_id_exports
    (site location : string) (data : Dict DataSet)
    (time_zone : option string)
    (time_format_args_library : option (list string))
    (output_dir file_ext array_id : string) (array_id_info : ArrayIdInfo)
    (rows named mismatches converted parsed : DataSet)
    (names columns : list Col) (s : State Env)
    (Hrows : dict_get (get_default (ai_name array_id_info) array_id) data
             = Some rows)
    (Hne : rows <> [])
    (Hnames : ai_column_names array_id_info = Some names)
    (Hsplit : update_column_names rows names = (named, mismatches))
    (Hconv : match ai_convert_data_column_values array_id_info with
             | Some (c :: cs) =>
                 convert_data_column_values named (c :: cs) time_zone
                   time_format_args_library
                   (get_default (ai_to_utc array_id_info) false)
             | _ => Ok named
             end = Ok converted)
    (Hparse : cr_parse_time converted time_zone time_format_args_library
                (Some (get_default (ai_time_parsed_column_name array_id_info)
                         (ColName "Timestamp")))
                (ai_time_columns array_id_info) None
                (get_default (ai_to_utc array_id_info) false) = Ok parsed)
    (Hwf : Forall row_wf parsed)
    (Hcols : ai_export_columns array_id_info = Some columns) :
  let array_name := get_default (ai_name array_id_info) array_id in
  let (r, s') :=
    process_array_id site location data time_zone time_format_args_library
      output_dir file_ext array_id array_id_info s in
  r = Ok tt ->
  csv_exports (trace s')
  = csv_exports (trace s)
    ++ (map (project_row columns) parsed,
        array_file_path output_dir site location array_name file_ext,
        Some true)
       :: match mismatches with
          | [] => []
          | _ :: _ =>
              [(mismatches,
                mismatches_file_path output_dir site location array_name
                  file_ext, None)]
          end.
Proof.
  intros array_name.
  unfold process_array_id, bind, ret, raise, lift, call.
  fold array_name. unfold array_name at 1. rewrite Hrows.
  destruct rows as [|row rows']; [now contradiction Hne|].
  cbn [length Nat.eqb]. rewrite Hnames, Hsplit, Hcols.
  destruct (ai_convert_data_column_values array_id_info) as [[|c cs]|];
    (try (injection Hconv as ->)); try rewrite Hconv;
    rewrite Hparse, (make_export_data_set_Some columns parsed Hwf);
    repeat case_step;
    cbn [ext mem_cfg trace fst snd]; intros Hr; try discriminate Hr;
    rewrite !csv_exports_app; cbn [csv_exports flat_map app];
    rewrite <- ?app_assoc; reflexivity.
Qed.

(** X9.  An array that the reader returned without rows is skipped:
    [process_array_ids] over a configuration that lists such an array
    runs as it does over the configuration without it, whatever else is
    configured for the array. *)
Theorem process_array_ids_skips_empty_arrays
    (site location : string) (data : Dict DataSet)
    (time_zone : option string)
    (time_format_args_library : option (list string))
    (output_dir file_ext array_id : string) (array_id_info : ArrayIdInfo)
    (before after : Dict ArrayIdInfo) (s : State Env)
    (Hempty : dict_get (get_default (ai_name array_id_info) array_id) data
              = Some []) :
  process_array_ids_body site location data time_zone
    time_format_args_library output_dir
    (before ++ (array_id, array_id_info) :: after) file_ext s
  = process_array_ids_body site location data time_zone
      time_format_args_library output_dir (before ++ after) file_ext s.
Proof.
  unfold process_array_ids_body. rewrite !for_each_app.
  destruct (for_each before _ s) as [[[]|e] s1]; [|reflexivity].
  cbn [for_each]. unfold bind at 1.
  unfold process_array_id at 1. cbn [fst snd]. rewrite Hempty.
  reflexivity.
Qed.

End MoreFormatter.

(** X10.  The number of new rows that [process_location] computes is the
    number of rows of all the arrays together, and it is zero exactly
    when every array is empty. *)
Theorem count_new_rows_total (data : Dict DataSet) :
  count_new_rows data = Z.of_nat (length (flat_map snd data))
  /\ (count_new_rows data = 0 <-> Forall (fun item => snd item = []) data).
Proof.
  assert (Hacc : forall acc,
    fold_left (fun n (item : string * DataSet) =>
                 n + Z.of_nat (length (snd item))) data acc
    = acc + Z.of_nat (length (flat_map snd data))).
  { induction data as [|[k rows] rest IH]; simpl; intros acc.
    - lia.
    - rewrite IH, length_app. lia. }
  assert (Htotal : count_new_rows data = Z.of_nat (length (flat_map snd data))).
  { unfold count_new_rows. rewrite Hacc. lia. }
  split; [exact Htotal|]. rewrite Htotal. clear Hacc Htotal.
  induction data as [|[k rows] rest IH]; simpl.
  - split; [constructor | reflexivity].
  - rewrite length_app. split.
    + intros H. constructor.
      * simpl. destruct rows; [reflexivity | simpl in H; lia].
      * apply IH. lia.
    + intros H. inversion H as [|x l Hx Hl]; subst. simpl in Hx. subst rows.
      simpl. now apply IH.
Qed.

Section FormatterRuns.
Context {L : Library} {Env : Type} {W : World Env}.

Lemma process_location_keeps_saved
    (output_dir site location : string) (location_info : LocationInfo)
    (track : bool) :
  respects keeps_saved
    (process_location (Env := Env) output_dir site location location_info
       track).
Proof.
  unfold process_location, process_array_ids, process_array_ids_body,
    process_array_id.
  frame.
Qed.

Lemma bind_get_cfg {A} (k : Cfg -> M Env A) (s : State Env) :
  bind get_cfg k s = k (mem_cfg s) s.
Proof. reflexivity. Qed.

Lemma bind_lift {A B} (r : Result A) (k : A -> M Env B) (s : State Env) :
  bind (lift r) k s
  = match r with Ok a => k a s | Err e => (Err e, s) end.
Proof. now destruct r. Qed.

(** X11.  A run of the formatter's [process_sites] calls
    [utils.save_config] at most once, only when tracking was asked for,
    and then with the configuration as it is in memory at the end of the
    run; a tracked run that returns has saved exactly once. *)
Theorem formatter_process_sites_saves_at_the_end
    (args : Cr10xFormatter.Args) (s : State Env) :
  let (r, s') := Cr10xFormatter.process_sites args s in
  (saved_configs (trace s') = saved_configs (trace s)
   \/ (args_track args = true
       /\ saved_configs (trace s')
          = saved_configs (trace s) ++ [mem_cfg s']))
  /\ (r = Ok tt -> args_track args = true ->
      saved_configs (trace s') = saved_configs (trace s) ++ [mem_cfg s']).
Proof.
  unfold Cr10xFormatter.process_sites.
  rewrite bind_get_cfg, bind_lift.
  destruct (getfield "sites" (cfg_sites (mem_cfg s))) as [sites|e];
    [|split; [now left | discriminate]].
  match goal with
  | |- context [bind ?m ?k s] =>
      assert (Hloops : respects keeps_saved m)
  end.
  { unfold process_locations.
    frame_using ltac:(apply process_location_keeps_saved). }
  unfold bind at 1.
  match goal with
  | |- context [match ?m s with _ => _ end] =>
      specialize (Hloops s); destruct (m s) as [[[]|e] s1]
  end; simpl in Hloops; unfold keeps_saved in Hloops.
  2:{ split; [now left | discriminate]. }
  destruct (args_track args).
  - unfold bind, get_cfg, call. cbn [ext mem_cfg trace].
    destruct (respond _ (ext s1)) as [r env]. cbn [ext mem_cfg trace].
    rewrite saved_configs_app, Hloops. cbn.
    split; [right; now split | now intros _ _].
  - cbn. split; [now left | discriminate].
Qed.

(** The call of [process_array_ids] made by [process_location] raises
    before the body runs, in any state. *)
Lemma process_location_call_raises (kw1 kw2 kw3 kw4 kw5 kw6 kw7 kw8 : PyValue)
    (s : State Env) :
  process_array_ids
    [("site", kw1); ("location", kw2); ("array_ids_data", kw3);
     ("time_zone", kw4); ("time_format_args_library", kw5);
     ("output_dir", kw6); ("array_ids_info", kw7); ("file_ext", kw8)] s
  = (Err (TypeError unexpected_array_ids_data), s).
Proof. reflexivity. Qed.

Lemma keeps_cfg_and_exports_refl (s : State Env) : keeps_cfg_and_exports s s.
Proof. now split. Qed.

Lemma keeps_cfg_and_exports_trans (a b c : State Env) :
  keeps_cfg_and_exports a b -> keeps_cfg_and_exports b c ->
  keeps_cfg_and_exports a c.
Proof.
  unfold keeps_cfg_and_exports. intros [H1 H2] [H3 H4]. split; congruence.
Qed.

Lemma process_location_writes_nothing
    (output_dir site location : string) (location_info : LocationInfo)
    (track : bool) :
  respects keeps_cfg_and_exports
    (process_location (Env := Env) output_dir site location location_info
       track).
Proof.
  intros s. unfold process_location, bind, call, get_cfg, lift.
  cbn [ext mem_cfg trace].
  destruct (respond _ (ext s)) as [[data|e] env]; cbn [ext mem_cfg trace snd].
  2:{ split; [reflexivity|]. cbn. rewrite csv_exports_app. cbn.
      now rewrite app_nil_r. }
  assert (Hread : forall r : Result (Dict DataSet),
    keeps_cfg_and_exports s
      {| mem_cfg := mem_cfg s; ext := env;
         trace := trace s ++ [Ev (location_read location_info) r] |}).
  { intros r. split; [reflexivity|]. cbn. rewrite csv_exports_app. cbn.
    now rewrite app_nil_r. }
  destruct (count_new_rows data =? 0); [apply Hread|].
  destruct (file_extension (loc_file_path location_info)) as [file_ext|e];
    [|apply Hread].
  rewrite process_location_call_raises. apply Hread.
Qed.

(** X12.  As the code stands, a run of the formatter's [process_sites]
    writes no output file and moves no checkpoint, whatever the
    configuration, the arguments and the answers of the world: no call of
    [cr.export_to_csv] is added to the trace, and the configuration in
    memory at the end is the one at the start.  (The only caller of
    [process_array_ids] passes a keyword the function does not have.) *)
Theorem formatter_process_sites_writes_nothing
    (args : Cr10xFormatter.Args) (s : State Env) :
  let s' := snd (Cr10xFormatter.process_sites args s) in
  mem_cfg s' = mem_cfg s
  /\ csv_exports (trace s') = csv_exports (trace s).
Proof.
  assert (H : respects keeps_cfg_and_exports
                (Cr10xFormatter.process_sites (Env := Env) args)).
  { assert (Hcall : forall cfg,
      respects keeps_cfg_and_exports
        (call (utils_save_config Cr10xFormatter.APP_CONFIG_PATH cfg))).
    { intros cfg s0. unfold call.
      destruct (respond _ (ext s0)) as [r env]. split; [reflexivity|].
      cbn. rewrite csv_exports_app. cbn. now rewrite app_nil_r. }
    unfold Cr10xFormatter.process_sites, process_locations.
    repeat first
      [ apply process_location_writes_nothing
      | apply Hcall
      | apply respects_ret; exact keeps_cfg_and_exports_refl
      | apply respects_lift; exact keeps_cfg_and_exports_refl
      | apply respects_get_cfg; exact keeps_cfg_and_exports_refl
      | apply respects_bind;
        [exact keeps_cfg_and_exports_trans | | intros ?]
      | apply respects_for_each;
        [exact keeps_cfg_and_exports_refl
        |exact keeps_cfg_and_exports_trans | intros ?]
      | match goal with
        | |- respects _ (match ?x with _ => _ end) => destruct x
        | |- respects _ (if ?b then _ else _) => destruct b
        end ]. }
  exact (H s).
Qed.

End FormatterRuns.

(* ================================================================= *)
(** * The uploader: remote directories *)

Lemma split_slash_plain (segment : string) :
  has_slash segment = false -> split_slash segment = [segment].
Proof.
  induction segment as [|c rest IH]; simpl; [reflexivity|].
  intros H. apply orb_false_iff in H. destruct H as [Hc Hrest].
  rewrite Hc, (IH Hrest). reflexivity.
Qed.

Lemma split_slash_child (dir segment : string) :
  split_slash (dir ++ String "/"%char segment)%string
  = split_slash dir ++ split_slash segment.
Proof.
  induction dir as [|c rest IH]; simpl.
  - reflexivity.
  - destruct (Ascii.eqb c "/"%char).
    + now rewrite IH.
    + rewrite IH. pose proof (split_slash_nonempty rest) as Hn.
      destruct (split_slash rest); [contradiction | reflexivity].
Qed.

(** X13.  The path that [cd_tree] recurses on,
    ["/".join(current_dir.split("/")[:-1])], is the directory above: for
    a last segment without a slash, the parent of [dir/segment] is [dir],
    and the parent of a path of one segment is the empty string, on which
    the recursion stops. *)
Theorem parent_dir_of_child (dir segment : string)
    (Hplain : has_slash segment = false) :
  parent_dir (dir ++ String "/"%char segment)%string = dir
  /\ parent_dir segment = EmptyString.
Proof.
  unfold parent_dir. split.
  - rewrite split_slash_child, (split_slash_plain segment Hplain).
    rewrite removelast_last. apply join_split_slash.
  - now rewrite (split_slash_plain segment Hplain).
Qed.

Section CdTree.
Context {Env : Type} {W : World Env}.

Lemma cd_tree_nonempty (current_dir : string) :
  current_dir <> EmptyString ->
  FtpUploader.cd_tree current_dir
  = try_except (call (session_cwd current_dir)) is_error_perm
      (fun _ =>
         (fun s => FtpUploader.cd_tree (parent_dir current_dir) s) ;;
         call (session_mkd current_dir) ;;
         call (session_cwd current_dir)).
Proof.
  intros Hne. rewrite FtpUploader.cd_tree_equation_1.
  destruct (string_dec current_dir EmptyString) as [Heq|Hn];
    [contradiction|].
  now rewrite FtpUploader.cd_tree_clause_1_equation_2.
Qed.

(** X14.  When the server lets the session enter [current_dir], or
    refuses with anything other than [ftplib.error_perm], [cd_tree] makes
    the one call [session.cwd(current_dir)] and ends with its answer: it
    creates no directory and changes nothing else. *)
Theorem cd_tree_enters_existing_directory
    (current_dir : string) (s : State Env) (r : Result unit) (env : Env)
    (Hne : current_dir <> EmptyString)
    (Hcwd : respond (session_cwd current_dir) (ext s) = (r, env))
    (Hperm : forall e, r = Err e -> is_error_perm e = false) :
  FtpUploader.cd_tree current_dir s
  = (r, {| mem_cfg := mem_cfg s; ext := env;
           trace := trace s ++ [Ev (session_cwd current_dir) r] |}).
Proof.
  rewrite (cd_tree_nonempty current_dir Hne).
  unfold try_except, call. rewrite Hcwd.
  destruct r as [[]|e]; [reflexivity|].
  now rewrite (Hperm e eq_refl).
Qed.

Lemma extends_refl (s : State Env) : extends s s.
Proof. exists []. now rewrite app_nil_r. Qed.

Lemma extends_trans (a b c : State Env) :
  extends a b -> extends b c -> extends a c.
Proof.
  intros [e1 H1] [e2 H2]. exists (e1 ++ e2).
  now rewrite H2, H1, app_assoc.
Qed.

Lemma call_extends {T} (c : Call T) : respects extends (call c).
Proof.
  intros s. unfold call. destruct (respond c (ext s)) as [r env].
  now exists [Ev c r].
Qed.

Lemma cd_tree_extends (current_dir : string) :
  respects extends (FtpUploader.cd_tree current_dir).
Proof.
  apply (cd_tree_respects extends); [exact extends_refl | exact extends_trans|].
  intros T c _. apply call_extends.
Qed.

(** X15.  When [cd_tree] returns for a directory name that is not
    empty, the last call it made is [session.cwd(current_dir)], and the
    server accepted it: the session is in the directory asked for. *)
Theorem cd_tree_ends_in_current_dir
    (current_dir : string) (s s' : State Env)
    (Hne : current_dir <> EmptyString)
    (Hok : FtpUploader.cd_tree current_dir s = (Ok tt, s')) :
  exists evs,
    trace s' = trace s ++ evs ++ [Ev (session_cwd current_dir) (Ok tt)].
Proof.
  rewrite (cd_tree_nonempty current_dir Hne) in Hok.
  unfold try_except in Hok. unfold call at 1 in Hok.
  destruct (respond (session_cwd current_dir) (ext s)) as [[[]|e] env].
  - injection Hok as <-. exists []. reflexivity.
  - destruct (is_error_perm e); [|discriminate Hok].
    unfold bind at 1 in Hok.
    pose proof (cd_tree_extends (parent_dir current_dir)
                  {| mem_cfg := mem_cfg s; ext := env;
                     trace := trace s
                       ++ [Ev (session_cwd current_dir) (Err e)] |})
      as [evs1 Hevs1].
    destruct (FtpUploader.cd_tree (parent_dir current_dir) _)
      as [[[]|e1] s2]; [|discriminate Hok].
    cbn [snd trace] in Hevs1.
    unfold bind, call in Hok.
    destruct (respond (session_mkd current_dir) (ext s2)) as [[[]|e2] env2];
      [|discriminate Hok].
    cbn [ext mem_cfg trace] in Hok.
    destruct (respond (session_cwd current_dir) env2) as [[[]|e3] env3];
      [|discriminate Hok].
    injection Hok as <-. cbn [trace]. rewrite Hevs1.
    exists ([Ev (session_cwd current_dir) (Err e)] ++ evs1
            ++ [Ev (session_mkd current_dir) (Ok tt)]).
    rewrite <- !app_assoc. reflexivity.
Qed.

Lemma navigates_parent (current_dir : string) (evs : list Event) :
  current_dir <> EmptyString ->
  Forall (navigates (parent_dir current_dir)) evs ->
  Forall (navigates current_dir) evs.
Proof.
  intros Hne. apply Forall_impl. intros [T c r].
  destruct c; simpl; try tauto; intros H; apply on_the_way_parent; assumption.
Qed.

(** X16.  Whatever the server answers, [cd_tree] leaves the
    configuration in memory alone and makes no call other than
    [session.cwd] and [session.mkd], each on [current_dir] or on one of
    the directories above it that the recursion reaches. *)
Theorem cd_tree_only_navigates (current_dir : string) (s : State Env) :
  let s' := snd (FtpUploader.cd_tree current_dir s) in
  mem_cfg s' = mem_cfg s
  /\ exists evs,
       trace s' = trace s ++ evs /\ Forall (navigates current_dir) evs.
Proof.
  revert s.
  apply (FtpUploader.cd_tree_elim
           (fun d m => forall s,
              mem_cfg (snd (m s)) = mem_cfg s
              /\ exists evs,
                   trace (snd (m s)) = trace s ++ evs
                   /\ Forall (navigates d) evs)).
  - intros d _ _ s. split; [reflexivity|]. exists []. split; [|constructor].
    cbn [ret snd trace]. rewrite app_nil_r. reflexivity.
  - intros d Hne IH _ s.
    assert (Hself : on_the_way d d) by (constructor; exact Hne).
    unfold try_except, call.
    destruct (respond (session_cwd d) (ext s)) as [[[]|e] env].
    + split; [reflexivity|]. exists [Ev (session_cwd d) (Ok tt)].
      split; [reflexivity|]. constructor; [exact Hself | constructor].
    + destruct (is_error_perm e).
      2:{ split; [reflexivity|]. exists [Ev (session_cwd d) (Err e)].
          split; [reflexivity|]. constructor; [exact Hself | constructor]. }
      unfold bind. cbv beta.
      destruct (IH e s {| mem_cfg := mem_cfg s; ext := env;
                          trace := trace s ++ [Ev (session_cwd d) (Err e)] |})
        as [Hcfg [evs1 [Htr Hnav]]].
      apply (navigates_parent d evs1 Hne) in Hnav.
      destruct (FtpUploader.cd_tree (parent_dir d) _) as [[[]|e1] s2];
        cbn [snd mem_cfg trace] in Hcfg, Htr.
      * destruct (respond (session_mkd d) (ext s2)) as [[[]|e2] env2];
          cbn [ext mem_cfg trace snd].
        -- destruct (respond (session_cwd d) env2) as [r3 env3].
           cbn [ext mem_cfg trace snd]. split; [exact Hcfg|].
           rewrite Htr.
           exists ([Ev (session_cwd d) (Err e)] ++ evs1
                   ++ [Ev (session_mkd d) (Ok tt); Ev (session_cwd d) r3]).
           split; [rewrite <- !app_assoc; reflexivity|].
           apply Forall_app. split; [constructor; [exact Hself|constructor]|].
           apply Forall_app. split; [exact Hnav|].
           constructor; [exact Hself|]. constructor; [exact Hself|constructor].
        -- split; [exact Hcfg|]. rewrite Htr.
           exists ([Ev (session_cwd d) (Err e)] ++ evs1
                   ++ [Ev (session_mkd d) (Err e2)]).
           split; [rewrite <- !app_assoc; reflexivity|].
           apply Forall_app. split; [constructor; [exact Hself|constructor]|].
           apply Forall_app. split; [exact Hnav|].
           constructor; [exact Hself|constructor].
      * cbn [ext mem_cfg trace snd]. split; [exact Hcfg|]. rewrite Htr.
        exists ([Ev (session_cwd d) (Err e)] ++ evs1).
        split; [rewrite <- !app_assoc; reflexivity|].
        apply Forall_app. split; [constructor; [exact Hself|constructor]|].
        exact Hnav.
Qed.

End CdTree.

(* ================================================================= *)
(** * The uploader: one file *)

Lemma assign_file_line_num_frame (cfg cfg' : Cfg)
    (site location file site' location' file' : string) (n : Z) :
  assign_file_line_num cfg site location file n = Ok cfg' ->
  (site', location', file') <> (site, location, file) ->
  file_line_num cfg' site' location' file'
  = file_line_num cfg site' location' file'.
Proof.
  unfold assign_file_line_num, file_line_num, getfield, getitem.
  destruct (cfg_sites cfg) as [sites|]; simpl; [|discriminate].
  destruct (dict_get site sites) as [site_info|] eqn:Hs; simpl;
    [|discriminate].
  destruct (site_locations site_info) as [locations|] eqn:Hl; simpl;
    [|discriminate].
  destruct (dict_get location locations) as [location_info|] eqn:Hloc; simpl;
    [|discriminate].
  destruct (loc_files location_info) as [files|] eqn:Hf; simpl;
    [|discriminate].
  destruct (dict_get file files) as [file_info|]; simpl; [|discriminate].
  intros H Hne. injection H as <-. simpl.
  destruct (string_dec site' site) as [->|Hsite].
  2:{ now rewrite dict_get_set_other. }
  rewrite dict_get_set_same, Hs. simpl. rewrite Hl.
  destruct (string_dec location' location) as [->|Hlocation].
  2:{ now rewrite dict_get_set_other. }
  rewrite dict_get_set_same, Hloc. simpl. rewrite Hf.
  rewrite dict_get_set_other; [reflexivity|].
  intros ->. now apply Hne.
Qed.

(** Closes one outcome in a statement about the new events of a run. *)
Ltac events_done tac :=
  cbn [ext mem_cfg trace fst snd];
  eexists; split;
  [ first [ rewrite <- ?app_assoc; reflexivity
          | symmetry; apply app_nil_r ]
  | tac ].

Section MoreUploader.
Context {L : Library} {Env : Type} {W : World Env}.

(** X17.  When the reader finds no row after the checkpoint of a file,
    [transfer_rows] returns after that one call: it creates no directory,
    does not ask the server for its listing, writes, sends and removes
    nothing, and leaves the configuration in memory as it is. *)
Theorem transfer_rows_no_new_rows
    (output_dir site location file path : string) (file_info : FileInfo)
    (s : State Env) (env : Env)
    (Hpath : fi_file_path file_info = Some path)
    (Hread : respond (cr_read_table_data (Some path)
                        (fi_header_row file_info) (fi_line_num file_info))
                     (ext s) = (Ok [], env)) :
  FtpUploader.transfer_rows output_dir site location file file_info s
  = (Ok tt,
     {| mem_cfg := mem_cfg s; ext := env;
        trace := trace s
          ++ [Ev (cr_read_table_data (Some path) (fi_header_row file_info)
                    (fi_line_num file_info)) (Ok [])] |}).
Proof.
  unfold FtpUploader.transfer_rows, bind, lift, call.
  rewrite Hpath. cbn [file_extension]. rewrite Hread. reflexivity.
Qed.

(** X18.  The calls of a transfer that returns.  When the reader finds
    rows and [transfer_rows] returns, the file has a [line_num], and the
    calls made are, in this order and each answered without an exception:
    the read; [os.makedirs] of the directory of the output file; the
    listing of the remote directory; the export of the rows to the output
    file, with a header exactly when the listing does not have the file's
    name; the opening of the output file; the transfer of the opened
    file, under [STOR] when the listing does not have the name and under
    [APPE] when it has; the removal of the output file.  The checkpoint
    of the file in memory is then the old [line_num] plus the number of
    rows read. *)
Theorem transfer_rows_success
    (output_dir site location file path : string) (file_info : FileInfo)
    (s : State Env) (data : DataSet) (env1 : Env)
    (Hpath : fi_file_path file_info = Some path)
    (Hread : respond (cr_read_table_data (Some path)
                        (fi_header_row file_info) (fi_line_num file_info))
                     (ext s) = (Ok data, env1))
    (Hrows : data <> []) :
  let file_name :=
    (get_default (fi_name file_info) file ++ os_path_ext path)%string in
  let output_file_path :=
    os_path_join_abs output_dir site location file_name in
  let (r, s') :=
    FtpUploader.transfer_rows output_dir site location file file_info s in
  r = Ok tt ->
  exists listing f old,
    fi_line_num file_info = Some old
    /\ trace s'
       = trace s
         ++ [Ev (cr_read_table_data (Some path) (fi_header_row file_info)
                   (fi_line_num file_info)) (Ok data);
             Ev (os_makedirs (os_path_dirname output_file_path) true) (Ok tt);
             Ev session_nlst (Ok listing);
             Ev (cr_export_to_csv data output_file_path
                   (Some (negb (str_in file_name listing))) None) (Ok tt);
             Ev (open_rb output_file_path) (Ok f);
             Ev (session_storbinary
                   ((if negb (str_in file_name listing)
                     then "STOR " else "APPE ") ++ file_name)%string f)
                (Ok tt);
             Ev (os_remove output_file_path) (Ok tt)]
    /\ file_line_num (mem_cfg s') site location file
       = Some (old + Z.of_nat (length data)).
Proof.
  intros file_name output_file_path.
  unfold FtpUploader.transfer_rows, bind, lift, call, ret, get_cfg, put_cfg.
  cbv zeta. rewrite Hpath. cbn [file_extension]. rewrite Hread.
  cbn [ext mem_cfg trace].
  destruct (Z.eqb_spec (Z.of_nat (length data)) 0) as [H0|_].
  { destruct data; [now contradiction Hrows | simpl in H0; lia]. }
  fold file_name. fold output_file_path. cbn [ext mem_cfg trace].
  next_call; [|intros H; discriminate H]. destruct r.
  next_call; [|intros H; discriminate H]. rename r into listing.
  destruct (negb (str_in file_name listing)) eqn:Habsent;
    (next_call; [|intros H; discriminate H]); destruct r;
    (next_call; [|intros H; discriminate H]); rename r into f;
    (next_call; [|intros H; discriminate H]); destruct r;
    (next_call; [|intros H; discriminate H]); destruct r;
    (destruct (fi_line_num file_info) as [old|];
     cbn [FtpUploader.py_add]; [|intros H; discriminate H]);
    (destruct (assign_file_line_num _ _ _ _ _) as [cfg|e] eqn:Hassign;
     cbn [mem_cfg trace]; [|intros H; discriminate H]);
    intros _; exists listing, f, old; rewrite Habsent;
    (split; [reflexivity|]);
    (split; [rewrite <- !app_assoc; reflexivity|]);
    exact (assign_file_line_num_sets _ _ _ _ _ _ Hassign).
Qed.

(** X19.  [transfer_rows] removes the local output file only after the
    server has accepted the transfer: in no outcome does the trace of a
    call hold an [os.remove] without a completed [session.storbinary]. *)
Theorem transfer_rows_removes_only_after_transfer
    (output_dir site location file : string) (file_info : FileInfo)
    (s : State Env) :
  let s' :=
    snd (FtpUploader.transfer_rows output_dir site location file file_info
           s) in
  exists evs,
    trace s' = trace s ++ evs
    /\ (completed_transfers evs = [] -> removed_files evs = []).
Proof.
  unfold FtpUploader.transfer_rows, bind, lift, call, ret, get_cfg, put_cfg.
  cbv zeta.
  repeat case_step;
    events_done ltac:(cbn; intros H; first [reflexivity | discriminate H]).
Qed.

(** X20.  A file entry without [line_num] never gets a checkpoint from
    [transfer_rows]: whatever the world answers, the configuration in
    memory is left as it was, and the call returns normally only when the
    reader returned no rows, the read then being its only call.  In every
    other case it ends in an exception: the reader's, that of a later
    call, or at the latest the [TypeError] of
    [line_num + num_of_new_rows]. *)
Theorem transfer_rows_without_line_num
    (output_dir site location file : string) (file_info : FileInfo)
    (s : State Env)
    (Hnone : fi_line_num file_info = None) :
  let (r, s') :=
    FtpUploader.transfer_rows output_dir site location file file_info s in
  mem_cfg s' = mem_cfg s
  /\ (r = Ok tt ->
      exists path env,
        fi_file_path file_info = Some path
        /\ s' = {| mem_cfg := mem_cfg s; ext := env;
                   trace := trace s
                     ++ [Ev (cr_read_table_data (Some path)
                               (fi_header_row file_info) None) (Ok [])] |}).
Proof.
  unfold FtpUploader.transfer_rows, bind, lift, call, ret, get_cfg, put_cfg.
  cbv zeta. rewrite Hnone.
  destruct (fi_file_path file_info) as [path|]; cbn [file_extension];
    [|split; [reflexivity | intros H; discriminate H]].
  cbn [ext mem_cfg trace].
  destruct (respond (cr_read_table_data _ _ _) (ext s)) as [[data|e] env];
    cbn [ext mem_cfg trace];
    [|split; [reflexivity | intros H; discriminate H]].
  destruct data as [|row data].
  { split; [reflexivity|]. intros _. exists path, env. now split. }
  cbn [length Z.of_nat Z.eqb FtpUploader.py_add].
  repeat case_step; cbn [ext mem_cfg trace fst snd];
    (split; [reflexivity | intros H; discriminate H]).
Qed.

(** X21.  [transfer_rows] for one file leaves the checkpoint of every
    other file of the configuration in memory as it was, whatever the
    outcome. *)
Theorem transfer_rows_touches_one_checkpoint
    (output_dir site location file site' location' file' : string)
    (file_info : FileInfo) (s : State Env)
    (Hother : (site', location', file') <> (site, location, file)) :
  let s' :=
    snd (FtpUploader.transfer_rows output_dir site location file file_info
           s) in
  file_line_num (mem_cfg s') site' location' file'
  = file_line_num (mem_cfg s) site' location' file'.
Proof.
  cbv zeta.
  pose proof (transfer_rows_cfg output_dir site location file file_info s)
    as Hcfg.
  destruct (FtpUploader.transfer_rows output_dir site location file
              file_info s) as [[[]|e] s'].
  2:{ cbn [snd]. now rewrite Hcfg. }
  cbn [snd].
  destruct (fst (respond _ (ext s))) as [data|e]; [|contradiction].
  destruct (Z.of_nat (length data) =? 0); [now rewrite Hcfg|].
  destruct Hcfg as [old [_ Hassign]].
  exact (assign_file_line_num_frame _ _ _ _ _ _ _ _ _ Hassign Hother).
Qed.

End MoreUploader.

(* ================================================================= *)
(** * The uploader: a whole run *)

Lemma quits_app (evs1 evs2 : list Event) :
  quits (evs1 ++ evs2) = (quits evs1 + quits evs2)%nat.
Proof. unfold quits. now rewrite filter_app, length_app. Qed.

Lemma truthy_Some (value : option string) (s : string) :
  truthy value = Some s -> truthy (Some s) = Some s.
Proof.
  destruct value as [v|]; simpl; [|discriminate].
  destruct (String.eqb v "") eqn:Hv; [discriminate|].
  intros H. injection H as <-. now rewrite Hv.
Qed.

Lemma truthy_truthy (value : option string) :
  truthy (truthy value) = truthy value.
Proof.
  destruct (truthy value) as [s|] eqn:H; [|reflexivity].
  exact (truthy_Some value s H).
Qed.

Section UploaderRuns.
Context {L : Library} {Env : Type} {W : World Env}.

Lemma keeps_session_refl (s : State Env) : keeps_session s s.
Proof. exists []. now rewrite app_nil_r. Qed.

Lemma keeps_session_trans (a b c : State Env) :
  keeps_session a b -> keeps_session b c -> keeps_session a c.
Proof.
  intros [e1 [H1 Q1]] [e2 [H2 Q2]]. exists (e1 ++ e2). split.
  - now rewrite H2, H1, app_assoc.
  - rewrite quits_app. lia.
Qed.

Lemma call_keeps_session {T} (c : Call T) :
  is_quit c = false -> respects keeps_session (call c).
Proof.
  intros Hc s. unfold call. destruct (respond c (ext s)) as [r env].
  exists [Ev c r]. split; [reflexivity|]. unfold quits. simpl.
  now rewrite Hc.
Qed.

Lemma put_cfg_keeps_session (cfg : Cfg) :
  respects keeps_session (put_cfg cfg : M Env unit).
Proof.
  intros s. exists []. split; [|reflexivity]. simpl. now rewrite app_nil_r.
Qed.

Lemma cd_tree_keeps_session (current_dir : string) :
  respects keeps_session (FtpUploader.cd_tree current_dir).
Proof.
  apply (FtpUploader.cd_tree_elim (fun _ m => respects keeps_session m)).
  - intros d _ _. apply respects_ret. exact keeps_session_refl.
  - intros d Hne IH _.
    apply respects_try_except;
      [exact keeps_session_trans | now apply call_keeps_session |].
    intros e. apply respects_bind; [exact keeps_session_trans | |].
    + intros s. apply (IH e s).
    + intros _. apply respects_bind;
        [exact keeps_session_trans | now apply call_keeps_session |].
      intros _. now apply call_keeps_session.
Qed.

(** [frame_using] for [keeps_session]. *)
Ltac session_frame known :=
  pose proof (@keeps_session_refl) as Hrefl;
  pose proof (@keeps_session_trans) as Htrans;
  frame_using ltac:(first [ known
                          | apply call_keeps_session; reflexivity
                          | apply put_cfg_keeps_session
                          | apply cd_tree_keeps_session ]).

Lemma transfer_rows_keeps_session
    (output_dir site location file : string) (file_info : FileInfo) :
  respects keeps_session
    (FtpUploader.transfer_rows output_dir site location file file_info).
Proof.
  unfold FtpUploader.transfer_rows. cbv zeta. session_frame fail.
Qed.

Lemma process_sites_try_keeps_session (args : FtpUploader.Args)
    (output_dir : string) (sites : Dict SiteInfo) (root_dir : string) :
  respects keeps_session
    (FtpUploader.process_sites_try args output_dir sites root_dir).
Proof.
  unfold FtpUploader.process_sites_try, FtpUploader.transfer_locations,
    FtpUploader.transfer_files.
  session_frame ltac:(apply transfer_rows_keeps_session).
Qed.

Lemma process_sites_setup_keeps_session :
  respects keeps_session (FtpUploader.process_sites_setup (Env := Env)).
Proof. unfold FtpUploader.process_sites_setup. session_frame fail. Qed.

(** X22.  A run of the uploader's [process_sites] closes the session
    exactly once, as its very last call, whenever what precedes the [try]
    statement completes, whatever happens in the [try] suite; when what
    precedes the [try] raises (the configuration has no [sites], or
    [session.pwd] fails), the session is never closed.  No other part of
    the run calls [session.quit]. *)
Theorem process_sites_quits_once (args : FtpUploader.Args) (s : State Env) :
  let s' := snd (FtpUploader.process_sites args s) in
  match fst (FtpUploader.process_sites_setup s) with
  | Ok _ =>
      exists evs r,
        trace s' = trace s ++ evs ++ [Ev session_quit r]
        /\ quits evs = 0%nat
  | Err _ =>
      exists evs, trace s' = trace s ++ evs /\ quits evs = 0%nat
  end.
Proof.
  unfold FtpUploader.process_sites, bind.
  pose proof (process_sites_setup_keeps_session s) as Hsetup.
  destruct (FtpUploader.process_sites_setup s)
    as [[[[output_dir sites] root_dir]|e] s0]; cbn [fst snd] in *.
  2:{ exact Hsetup. }
  unfold try_except_else_finally.
  pose proof (process_sites_try_keeps_session args output_dir sites root_dir
                s0) as Htry.
  pose proof (keeps_session_trans _ _ _ Hsetup Htry) as Hrun.
  clear Hsetup Htry.
  destruct (FtpUploader.process_sites_try args output_dir sites root_dir s0)
    as [[[]|e] s1]; cbn [snd] in Hrun; destruct Hrun as [evs [Htr Hq]].
  - unfold get_cfg, call, bind. cbn [ext mem_cfg trace].
    destruct (respond (utils_save_config _ _) (ext s1)) as [r1 env1].
    cbn [ext mem_cfg trace].
    destruct (respond session_quit env1) as [[[]|e2] env2];
      cbn [snd trace]; rewrite Htr;
      eexists (evs ++ [Ev (utils_save_config _ _) r1]); eexists;
      (split; [rewrite <- !app_assoc; reflexivity|]);
      rewrite quits_app, Hq; reflexivity.
  - destruct (is_Exception e); unfold call; cbn [ext mem_cfg trace].
    + destruct (respond (print e) (ext s1)) as [r1 env1].
      cbn [ext mem_cfg trace].
      destruct (respond session_quit env1) as [[[]|e2] env2];
        cbn [snd trace]; rewrite Htr;
        exists (evs ++ [Ev (print e) r1]); eexists;
        (split; [rewrite <- !app_assoc; reflexivity|]);
        rewrite quits_app, Hq; reflexivity.
    + destruct (respond session_quit (ext s1)) as [[[]|e2] env2];
        cbn [snd trace]; rewrite Htr;
        exists evs; eexists;
        (split; [rewrite <- ?app_assoc; reflexivity|]);
        exact Hq.
Qed.

(** X23.  What a run of the uploader's [process_sites] does once its
    [try] suite has raised [e].  The configuration in memory stays as the
    suite left it.  If [e] is an [Exception], the run prints it and
    closes the session, and its result is the result of the [print]: the
    exception is not passed on to the caller.  If it is not (a
    [KeyboardInterrupt]), the run closes the session and passes [e] on.
    In both cases an exception of [session.quit] replaces the result. *)
Theorem process_sites_after_exception
    (args : FtpUploader.Args) (s s0 s1 : State Env)
    (output_dir root_dir : string) (sites : Dict SiteInfo) (e : Exn)
    (Hsetup : FtpUploader.process_sites_setup s
              = (Ok (output_dir, sites, root_dir), s0))
    (Htry : FtpUploader.process_sites_try args output_dir sites root_dir s0
            = (Err e, s1)) :
  let (r, s') := FtpUploader.process_sites args s in
  mem_cfg s' = mem_cfg s1
  /\ exists q,
       (if is_Exception e
        then exists p,
               trace s' = trace s1 ++ [Ev (print e) p; Ev session_quit q]
               /\ (q = Ok tt -> r = p)
        else trace s' = trace s1 ++ [Ev session_quit q]
             /\ (q = Ok tt -> r = Err e))
       /\ forall e2, q = Err e2 -> r = Err e2.
Proof.
  unfold FtpUploader.process_sites.
  rewrite (bind_Ok _ _ _ _ _ Hsetup).
  unfold try_except_else_finally. rewrite Htry.
  destruct (is_Exception e); unfold call.
  - destruct (respond (print e) (ext s1)) as [p env2].
    cbn [ext mem_cfg trace].
    destruct (respond session_quit env2) as [[[]|e2] env3];
      cbn [ext mem_cfg trace]; (split; [reflexivity|]); eexists;
      (split; [exists p; rewrite <- app_assoc;
               split; [reflexivity|]; intros H;
               first [reflexivity | discriminate H]|]);
      intros e3 H; first [discriminate H | now injection H as <-].
  - destruct (respond session_quit (ext s1)) as [[[]|e2] env3];
      cbn [ext mem_cfg trace]; (split; [reflexivity|]); eexists;
      (split; [split; [reflexivity|]; intros H;
               first [reflexivity | discriminate H]|]);
      intros e3 H; first [discriminate H | now injection H as <-].
Qed.

(** X24.  A run of the uploader's [process_sites] reads of its
    arguments only their selection: without a site, the location and the
    file given are ignored and every site is processed; with a site and
    without a location, the file given is ignored and every location of
    the site is processed; an empty string counts as not given. *)
Theorem process_sites_reads_selection
    (args : FtpUploader.Args) (s : State Env) :
  FtpUploader.process_sites args s
  = FtpUploader.process_sites (selection args) s.
Proof.
  unfold FtpUploader.process_sites, FtpUploader.process_sites_try, selection.
  destruct (truthy (FtpUploader.args_site args)) as [site|] eqn:Hsite;
    [|reflexivity].
  destruct (truthy (FtpUploader.args_location args)) as [location|]
    eqn:Hlocation; cbn [FtpUploader.args_site FtpUploader.args_location
                        FtpUploader.args_file];
    rewrite (truthy_Some _ _ Hsite); [|reflexivity].
  rewrite (truthy_Some _ _ Hlocation), truthy_truthy. reflexivity.
Qed.

End UploaderRuns.

(** X25.  The validation of the uploader's [setup_parser] lets the
    arguments pass exactly when a site is given, or neither a location
    nor a file is given, or both a location and a file are given.  So a
    file with a location and without a site passes, although the run then
    ignores both; and a file with a site and without a location passes,
    although the run then ignores the file. *)
Theorem setup_parser_error_accepts (args : FtpUploader.Args) :
  setup_parser_error args = None
  <-> (truthy (FtpUploader.args_site args) <> None
       \/ (truthy (FtpUploader.args_location args) = None
           /\ truthy (FtpUploader.args_file args) = None)
       \/ (truthy (FtpUploader.args_location args) <> None
           /\ truthy (FtpUploader.args_file args) <> None)).
Proof.
  unfold setup_parser_error.
  destruct (truthy (FtpUploader.args_file args)),
           (truthy (FtpUploader.args_location args)),
           (truthy (FtpUploader.args_site args)); split; intros H;
    try reflexivity; try discriminate H;
    try (left; discriminate);
    try (right; left; split; reflexivity);
    try (right; right; split; discriminate);
    destruct H as [H|[[H1 H2]|[H1 H2]]]; congruence.
Qed.

(* ================================================================= *)
(** * The programs on the concrete runs *)

Import Demo Examples.

Lemma day_table_wf : Forall row_wf day_table.
Proof.
  repeat constructor; simpl; intuition discriminate.
Qed.

Lemma make_export_data_set_projects_witness :
  exists data_to_export,
    make_export_data_set day_table (Some [ColName "Temp"; ColName "Day"])
    = Ok data_to_export
    /\ length data_to_export = length day_table
    /\ forall i row, nth_error day_table i = Some row ->
         exists out_row,
           nth_error data_to_export i = Some out_row
           /\ out_row
              = filter (fun item =>
                          col_in (fst item) [ColName "Temp"; ColName "Day"])
                  row
           /\ forall name,
                row_get name out_row
                = if col_in name [ColName "Temp"; ColName "Day"]
                  then row_get name row else None.
Proof.
  exact (make_export_data_set_projects day_table
           [ColName "Temp"; ColName "Day"] day_table_wf).
Defined.

Example make_export_data_set_day_table :
  make_export_data_set day_table (Some [ColName "Temp"; ColName "Day"])
  = Ok [[(ColName "Day", VInt 3); (ColName "Temp", VInt 20)];
        [(ColName "Day", VInt 4); (ColName "Temp", VInt 21)]].
Proof. reflexivity. Qed.

Lemma day_parsed_shape :
  Forall (fun row => row_wf row /\ row_get (ColName "Day") row <> None)
         day_parsed.
Proof.
  repeat constructor; simpl; intuition discriminate.
Qed.

Lemma convert_data_column_values_keeps_columns_witness :
  exists converted,
    convert_data_column_values day_table
      [(ColName "Day",
        {| value_type := Some "time";
           value_time_columns := Some [ColName "Year"; ColName "Day"] |})]
      None None false = Ok converted
    /\ length converted = length day_table
    /\ forall i row, nth_error day_table i = Some row ->
         exists row' parsed_row,
           nth_error converted i = Some row'
           /\ nth_error day_parsed i = Some parsed_row
           /\ row_names row' = row_names row
           /\ (forall name, name <> ColName "Day" ->
                 row_get name row' = row_get name row)
           /\ (In (ColName "Day") (row_names row) ->
                 row_get (ColName "Day") row'
                 = row_get (ColName "Day") parsed_row).
Proof.
  exact (@convert_data_column_values_keeps_columns Demo.library
           day_table day_parsed (ColName "Day")
           (Some [ColName "Year"; ColName "Day"]) None None false
           day_table_wf eq_refl eq_refl day_parsed_shape).
Defined.

Example convert_data_column_values_day_table :
  convert_data_column_values day_table
    [(ColName "Day",
      {| value_type := Some "time";
         value_time_columns := Some [ColName "Year"; ColName "Day"] |})]
    None None false
  = Ok [[(ColName "Year", VInt 2016); (ColName "Day", VDatetime 2019 None);
         (ColName "Temp", VInt 20)];
        [(ColName "Year", VInt 2016); (ColName "Day", VDatetime 2020 None);
         (ColName "Temp", VInt 21)]].
Proof. reflexivity. Qed.

Example update_column_names_new_lines :
  update_column_names (map snd new_lines) temp_columns
  = ([[(ColName "Year", VInt 2016); (ColName "Day", VInt 3);
       (ColName "Hour", VInt 12); (ColName "Temp", VInt 20)];
      [(ColName "Year", VInt 2016); (ColName "Day", VInt 3);
       (ColName "Hour", VInt 13); (ColName "Temp", VInt 21)]],
     [raw [2016; 3; 14]]).
Proof. reflexivity. Qed.

Lemma process_location_raises_TypeError_witness :
  exists msg,
    process_location "/out" "Site" "Mast" (mast 10) true (formatter_state 10)
    = (Err (TypeError msg),
       {| mem_cfg := formatter_cfg 10; ext := quiet_env;
          trace := [Ev (location_read (mast 10)) (Ok new_data)] |})
    /\ (loc_file_path (mast 10) <> None ->
        msg = unexpected_array_ids_data).
Proof.
  exact (@process_location_raises_TypeError Demo.library Demo.Env Demo.world
           "/out" "Site" "Mast" (mast 10) true (formatter_state 10)
           new_data quiet_env eq_refl eq_refl).
Defined.

Lemma process_location_no_new_rows_witness :
  process_location "/out" "Site" "Mast" (mast 13) true (formatter_state 13)
  = (Ok (formatter_cfg 13),
     {| mem_cfg := formatter_cfg 13; ext := quiet_env;
        trace := [Ev (location_read (mast 13)) (Ok [("Temp", [])])] |}).
Proof.
  exact (@process_location_no_new_rows Demo.library Demo.Env Demo.world
           "/out" "Site" "Mast" (mast 13) true (formatter_state 13)
           [("Temp", [])] quiet_env eq_refl eq_refl).
Defined.

(** C2.  The scenario of the specification, run with tracking: the
    location has ten lines consumed and three new ones.  The call of
    [process_array_ids] raises, so the assignment of [line_num] that
    follows it is never reached: the checkpoint stays at 10 instead of
    moving to 13, nothing is exported, and a whole tracked run of
    [process_sites] ends in the same error without saving. *)
Theorem tracked_run_does_not_advance :
  let (r, s') :=
    process_location "/out" "Site" "Mast" (mast 10) true
      (formatter_state 10) in
  let (r_run, s_run) :=
    Cr10xFormatter.process_sites
      {| args_site := None; args_location := None; args_track := true |}
      (formatter_state 10) in
  count_new_rows new_data = 3
  /\ r = Err (TypeError unexpected_array_ids_data)
  /\ location_line_num (mem_cfg s') "Site" "Mast" = Some 10
  /\ csv_exports (trace s') = []
  /\ r_run = Err (TypeError unexpected_array_ids_data)
  /\ location_line_num (mem_cfg s_run) "Site" "Mast" = Some 10
  /\ saved_configs (trace s_run) = []
  /\ Demo.stored_cfg (ext s_run) = None.
Proof. vm_compute. repeat split. Qed.

Lemma unsupported_conversion_raises_witness :
  (forall (table : DataSet) (to_utc : bool),
      is_Ok (convert_data_column_values table
               [(ColName "Day",
                 {| value_type := Some "time";
                    value_time_columns :=
                      Some [ColName "Year"; ColName "Day"] |})]
               (Some "UTC") None to_utc) = true ->
      convert_data_column_values table
        ([(ColName "Day",
           {| value_type := Some "time";
              value_time_columns := Some [ColName "Year"; ColName "Day"] |})]
         ++ (ColName "Speed",
             {| value_type := Some "float"; value_time_columns := None |})
            :: [])
        (Some "UTC") None to_utc
      = Err (UnsupportedValueConversionType
               "Only time conversion is supported in this version."))
  /\ process_array_ids_body "Site" "Mast" two_arrays (Some "UTC") None "/out"
       ([("1", temp_info)] ++ ("2", wind_info) :: []) ".dat"
       (formatter_state 10)
     = (Err (UnsupportedValueConversionType
               "Only time conversion is supported in this version."),
        after_temp).
Proof.
  apply (@unsupported_conversion_raises Demo.library Demo.Env Demo.world
           "Site" "Mast" two_arrays (Some "UTC") None "/out" ".dat" "2"
           wind_info [("1", temp_info)] [] [raw [2016; 3; 7]]
           [ColName "Year"; ColName "Day"; ColName "Speed"]
           [(ColName "Day",
             {| value_type := Some "time";
                value_time_columns := Some [ColName "Year"; ColName "Day"] |})]
           [] (ColName "Speed")
           {| value_type := Some "float"; value_time_columns := None |}
           (formatter_state 10) after_temp).
  - discriminate.
  - vm_compute. reflexivity.
  - reflexivity.
  - discriminate.
  - reflexivity.
  - reflexivity.
  - vm_compute. reflexivity.
Defined.

Example exports_before_unsupported_conversion :
  csv_exports (trace after_temp)
  = [([[(ColName "Timestamp", VDatetime 2031 (Some "UTC"));
        (ColName "Temp", VInt 20)];
       [(ColName "Timestamp", VDatetime 2032 (Some "UTC"));
        (ColName "Temp", VInt 21)]],
      "/out/Site/Mast/Temp.dat", Some true);
     ([raw [2016; 3; 14]], "/out/Site/Mast/Temp Mismatches.dat", None)].
Proof. vm_compute. reflexivity. Qed.

Lemma transfer_rows_create_or_append_witness :
  let (r, s') :=
    FtpUploader.transfer_rows "/out" "Site" "Mast" "Temp"
      (table_file "/out/Temp.dat") (uploader_state []) in
  exists evs,
    trace s'
    = trace (uploader_state [])
      ++ [Ev (cr_read_table_data (Some "/out/Temp.dat") (Some 0) (Some 10))
            (Ok (skipn 10 table_rows));
          Ev (os_makedirs (parent_dir "/out/Site/Mast/Temp.dat") true)
             (Ok tt);
          Ev session_nlst (Ok []);
          Ev (cr_export_to_csv (skipn 10 table_rows)
                "/out/Site/Mast/Temp.dat" (Some true) None) (Ok tt)]
      ++ evs
    /\ csv_exports evs = []
    /\ exists stored rest,
         evs = Ev (open_rb "/out/Site/Mast/Temp.dat")
                  (Ok "/out/Site/Mast/Temp.dat")
               :: Ev (session_storbinary "STOR Temp.dat"
                        "/out/Site/Mast/Temp.dat") stored
               :: rest
         /\ storbinary_cmds rest = []
         /\ (r = Ok tt -> stored = Ok tt).
Proof.
  exact (@transfer_rows_create_or_append Demo.library Demo.Env Demo.world
           "/out" "Site" "Mast" "Temp" "/out/Temp.dat"
           (table_file "/out/Temp.dat") (uploader_state [])
           (skipn 10 table_rows) [] (uploader_env []) (uploader_env [])
           (uploader_env []) eq_refl eq_refl
           (fun H => eq_ind (skipn 10 table_rows)
                       (fun l => match l with [] => False | _ :: _ => True end)
                       I [] H)
           eq_refl eq_refl).
Defined.

Example transfer_rows_appends_when_listed :
  let (r, s') :=
    FtpUploader.transfer_rows "/out" "Site" "Mast" "Temp"
      (table_file "/out/Temp.dat") listed_state in
  r = Ok tt
  /\ csv_exports (trace s')
     = [(skipn 10 table_rows, "/out/Site/Mast/Temp.dat", Some false)]
  /\ storbinary_cmds (trace s') = ["APPE Temp.dat"]
  /\ file_line_num (mem_cfg s') "Site" "Mast" "Temp" = Some 12.
Proof. vm_compute. repeat split. Qed.

(** A run in which the server refuses the second file: the first file's
    checkpoint has advanced in memory, and nothing is saved. *)
Example interrupted_sync_saves_nothing :
  let (r, s') :=
    FtpUploader.process_sites all_sites (uploader_state ["STOR Wind.dat"]) in
  r = Ok tt
  /\ file_line_num (mem_cfg s') "Site" "Mast" "Temp" = Some 12
  /\ file_line_num (mem_cfg s') "Site" "Mast" "Wind" = Some 10
  /\ saved_configs (trace s') = []
  /\ Demo.stored_cfg (ext s') = None.
Proof. vm_compute. repeat split. Qed.

Example completed_sync_saves_once :
  let (r, s') := FtpUploader.process_sites all_sites (uploader_state []) in
  r = Ok tt
  /\ saved_configs (trace s') = [mem_cfg s']
  /\ Demo.stored_cfg (ext s') = Some (mem_cfg s')
  /\ file_line_num (mem_cfg s') "Site" "Mast" "Temp" = Some 12
  /\ file_line_num (mem_cfg s') "Site" "Mast" "Wind" = Some 12.
Proof. vm_compute. repeat split. Qed.

(** C5 as stated fails on the uploader: its arguments are a site, a
    location and a file, with nothing to opt into tracking, and yet a
    run changes the [line_num] of each file it transfers (here from 10 to
    12) and saves the changed configuration. *)
Lemma uploader_advances_without_tracking :
  let s' := snd (FtpUploader.process_sites all_sites (uploader_state [])) in
  file_line_num (mem_cfg (uploader_state [])) "Site" "Mast" "Temp" = Some 10
  /\ file_line_num (mem_cfg s') "Site" "Mast" "Temp" = Some 12
  /\ mem_cfg s' <> mem_cfg (uploader_state [])
  /\ Demo.stored_cfg (ext s') = Some (mem_cfg s').
Proof.
  cbv zeta. split; [reflexivity|]. split; [vm_compute; reflexivity|].
  split; [|vm_compute; reflexivity].
  intros H.
  apply (f_equal (fun cfg => file_line_num cfg "Site" "Mast" "Temp")) in H.
  vm_compute in H. discriminate H.
Qed.

Lemma line_num_assigned_only_after_success_witness :
  mem_cfg (snd (process_location "/out" "Site" "Mast" (mast 10) false
                  (formatter_state 10)))
  = formatter_cfg 10
  /\ mem_cfg (snd (process_location "/out" "Site" "Mast" (mast 10) true
                     (formatter_state 10)))
     = formatter_cfg 10
  /\ (let (r, s') :=
        FtpUploader.transfer_rows "/out" "Site" "Mast" "Temp"
          (table_file "/out/Temp.dat") (uploader_state []) in
      match r with
      | Err _ => mem_cfg s' = uploader_cfg
      | Ok _ =>
          exists old,
            Some 10 = Some old
            /\ assign_file_line_num uploader_cfg "Site" "Mast" "Temp"
                 (old + 2) = Ok (mem_cfg s')
      end).
Proof.
  pose proof (@line_num_assigned_only_after_success Demo.library Demo.Env
                Demo.world) as [Hloc [_ Hfile]].
  split; [|split].
  - exact (Hloc "/out" "Site" "Mast" (mast 10) false (formatter_state 10)
             (or_introl eq_refl)).
  - exact (Hloc "/out" "Site" "Mast" (mast 10) true (formatter_state 10)
             (or_intror eq_refl)).
  - exact (Hfile "/out" "Site" "Mast" "Temp" (table_file "/out/Temp.dat")
             (uploader_state [])).
Defined.

Import Cases.

(* ================================================================= *)
(** * The further properties on the concrete runs *)

Lemma make_data_set_backup_copies_witness :
  make_data_set_backup day_table = day_table.
Proof. exact (make_data_set_backup_copies day_table day_table_wf). Defined.

Lemma make_export_data_set_keeps_rows_well_formed_witness :
  exists data_to_export,
    make_export_data_set day_table (Some [ColName "Temp"; ColName "Day"])
    = Ok data_to_export
    /\ Forall row_wf data_to_export
    /\ forall out_row name,
         In out_row data_to_export -> In name (row_names out_row) ->
         In name [ColName "Temp"; ColName "Day"].
Proof.
  exact (make_export_data_set_keeps_rows_well_formed day_table
           [ColName "Temp"; ColName "Day"] day_table_wf).
Defined.

Lemma make_export_data_set_twice_witness :
  rbind (make_export_data_set day_table
           (Some [ColName "Temp"; ColName "Day"]))
        (fun exported =>
           make_export_data_set exported
             (Some [ColName "Day"; ColName "Year"]))
  = make_export_data_set day_table
      (Some (filter (fun c => col_in c [ColName "Temp"; ColName "Day"])
               [ColName "Day"; ColName "Year"]))
  /\ rbind (make_export_data_set day_table
              (Some [ColName "Temp"; ColName "Day"]))
           (fun exported =>
              make_export_data_set exported
                (Some [ColName "Temp"; ColName "Day"]))
     = make_export_data_set day_table (Some [ColName "Temp"; ColName "Day"]).
Proof.
  exact (make_export_data_set_twice day_table
           [ColName "Temp"; ColName "Day"] [ColName "Day"; ColName "Year"]
           day_table_wf).
Defined.

Example make_export_data_set_twice_day_table :
  rbind (make_export_data_set day_table
           (Some [ColName "Temp"; ColName "Day"]))
        (fun exported =>
           make_export_data_set exported
             (Some [ColName "Day"; ColName "Year"]))
  = Ok [[(ColName "Day", VInt 3)]; [(ColName "Day", VInt 4)]].
Proof. reflexivity. Qed.

Lemma make_export_data_set_without_columns_witness :
  make_export_data_set day_table None
  = Err (TypeError "argument of type 'NoneType' is not iterable").
Proof.
  apply (make_export_data_set_without_columns day_table).
  eexists. split; [left; reflexivity | discriminate].
Defined.

Lemma partly_parsed_wf : Forall row_wf partly_parsed.
Proof.
  repeat constructor; simpl; intuition discriminate.
Qed.

Lemma collect_converted_rows_skips_rows_without_column_witness :
  collect_converted_rows partly_parsed (ColName "Day") []
  = map (converted_only (ColName "Day"))
      (filter (fun row => col_in (ColName "Day") (row_names row))
         partly_parsed).
Proof.
  exact (collect_converted_rows_skips_rows_without_column partly_parsed
           (ColName "Day") partly_parsed_wf).
Defined.

Example collect_converted_rows_partly_parsed :
  collect_converted_rows partly_parsed (ColName "Day") []
  = [[(ColName "Day", VDatetime 2019 None)];
     [(ColName "Day", VDatetime 2021 None)]].
Proof. reflexivity. Qed.

Lemma convert_data_column_values_keeps_last_conversion_only_witness :
  SharedTables.convert_data_column_values
    (C := SharedTables.without_writes) day_table
    ([year_conversion] ++ [day_conversion]) None None false
  = SharedTables.convert_data_column_values
      (C := SharedTables.without_writes) day_table [day_conversion]
      None None false.
Proof.
  exact (@convert_data_column_values_keeps_last_conversion_only
           (@SharedTables.without_writes Demo.library)
           day_table [year_conversion] (fst day_conversion)
           (snd day_conversion) None None false
           (fun _ _ _ _ _ _ _ => eq_refl) (fun _ _ => eq_refl) eq_refl).
Defined.

(** The two conversions with callees that write nothing, and with a
    merge step that writes into the baseline. *)
Example conversions_of_year_and_day :
  fst (fst (SharedTables.convert_data_column_values
              (C := SharedTables.without_writes) day_table
              [year_conversion; day_conversion] None None false))
  = Ok [[(ColName "Year", VInt 2016); (ColName "Day", VDatetime 2019 None);
         (ColName "Temp", VInt 20)];
        [(ColName "Year", VInt 2016); (ColName "Day", VDatetime 2020 None);
         (ColName "Temp", VInt 21)]]
  /\ fst (fst (SharedTables.convert_data_column_values (C := writing_merge)
                 day_table [year_conversion; day_conversion] None None
                 false))
     = Ok [[(ColName "Year", VDatetime 2016 None);
            (ColName "Day", VDatetime 2019 None); (ColName "Temp", VInt 20)];
           [(ColName "Year", VDatetime 2016 None);
            (ColName "Day", VDatetime 2020 None); (ColName "Temp", VInt 21)]].
Proof. split; reflexivity. Qed.

Lemma new_lines_parsed_wf :
  Forall row_wf
    [[(ColName "Timestamp", VDatetime 2031 (Some "UTC"));
      (ColName "Temp", VInt 20)];
     [(ColName "Timestamp", VDatetime 2032 (Some "UTC"));
      (ColName "Temp", VInt 21)]].
Proof.
  repeat constructor; simpl; intuition discriminate.
Qed.

Lemma process_array_id_exports_witness :
  let (r, s') :=
    process_array_id "Site" "Mast" new_data (Some "UTC") None "/out" ".dat"
      "1" temp_info (formatter_state 10) in
  r = Ok tt ->
  csv_exports (trace s')
  = csv_exports (trace (formatter_state 10))
    ++ (map (project_row [ColName "Timestamp"; ColName "Temp"])
          [[(ColName "Timestamp", VDatetime 2031 (Some "UTC"));
            (ColName "Temp", VInt 20)];
           [(ColName "Timestamp", VDatetime 2032 (Some "UTC"));
            (ColName "Temp", VInt 21)]],
        array_file_path "/out" "Site" "Mast" "Temp" ".dat", Some true)
       :: [([raw [2016; 3; 14]],
            mismatches_file_path "/out" "Site" "Mast" "Temp" ".dat", None)].
Proof.
  refine (@process_array_id_exports Demo.library Demo.Env Demo.world
            "Site" "Mast" new_data (Some "UTC") None "/out" ".dat" "1"
            temp_info (map snd new_lines)
            [[(ColName "Year", VInt 2016); (ColName "Day", VInt 3);
              (ColName "Hour", VInt 12); (ColName "Temp", VInt 20)];
             [(ColName "Year", VInt 2016); (ColName "Day", VInt 3);
              (ColName "Hour", VInt 13); (ColName "Temp", VInt 21)]]
            [raw [2016; 3; 14]]
            [[(ColName "Year", VInt 2016); (ColName "Day", VInt 3);
              (ColName "Hour", VInt 12); (ColName "Temp", VInt 20)];
             [(ColName "Year", VInt 2016); (ColName "Day", VInt 3);
              (ColName "Hour", VInt 13); (ColName "Temp", VInt 21)]]
            [[(ColName "Timestamp", VDatetime 2031 (Some "UTC"));
              (ColName "Temp", VInt 20)];
             [(ColName "Timestamp", VDatetime 2032 (Some "UTC"));
              (ColName "Temp", VInt 21)]]
            temp_columns [ColName "Timestamp"; ColName "Temp"]
            (formatter_state 10) eq_refl _ eq_refl eq_refl eq_refl eq_refl
            new_lines_parsed_wf eq_refl).
  discriminate.
Defined.

Lemma process_array_ids_skips_empty_arrays_witness :
  process_array_ids_body "Site" "Mast" quiet_and_temp (Some "UTC") None
    "/out" ([("1", temp_info)] ++ ("2", wind_info) :: []) ".dat"
    (formatter_state 10)
  = process_array_ids_body "Site" "Mast" quiet_and_temp (Some "UTC") None
      "/out" ([("1", temp_info)] ++ []) ".dat" (formatter_state 10).
Proof.
  exact (@process_array_ids_skips_empty_arrays Demo.library Demo.Env
           Demo.world "Site" "Mast" quiet_and_temp (Some "UTC") None "/out"
           ".dat" "2" wind_info [("1", temp_info)] [] (formatter_state 10)
           eq_refl).
Defined.

Lemma parent_dir_of_child_witness :
  parent_dir ("Site/Mast" ++ String "/"%char "Temp")%string = "Site/Mast"
  /\ parent_dir "Temp" = EmptyString.
Proof. exact (parent_dir_of_child "Site/Mast" "Temp" eq_refl). Defined.

Lemma cd_tree_enters_existing_directory_witness :
  FtpUploader.cd_tree "/" (uploader_state [])
  = (Ok tt,
     {| mem_cfg := uploader_cfg;
        ext := with_remote (uploader_env []) ["/"] "/" [];
        trace := trace (uploader_state [])
                   ++ [Ev (session_cwd "/") (Ok tt)] |}).
Proof.
  refine (@cd_tree_enters_existing_directory Demo.Env Demo.world "/"
            (uploader_state []) (Ok tt)
            (with_remote (uploader_env []) ["/"] "/" []) _ eq_refl _).
  - discriminate.
  - intros e H. discriminate H.
Defined.

Lemma cd_tree_ends_in_current_dir_witness :
  exists evs,
    trace (snd (FtpUploader.cd_tree "Site" (uploader_state [])))
    = trace (uploader_state []) ++ evs ++ [Ev (session_cwd "Site") (Ok tt)].
Proof.
  refine (@cd_tree_ends_in_current_dir Demo.Env Demo.world "Site"
            (uploader_state [])
            (snd (FtpUploader.cd_tree "Site" (uploader_state []))) _ _).
  - discriminate.
  - vm_compute. reflexivity.
Defined.

(** A directory that does not exist is created and entered. *)
Example cd_tree_creates_missing_directory :
  trace (snd (FtpUploader.cd_tree "Site" (uploader_state [])))
  = [Ev (session_cwd "Site")
       (Err (error_perm "550 Failed to change directory."));
     Ev (session_mkd "Site") (Ok tt);
     Ev (session_cwd "Site") (Ok tt)].
Proof. vm_compute. reflexivity. Qed.

Lemma transfer_rows_no_new_rows_witness :
  FtpUploader.transfer_rows "/out" "Site" "Mast" "Temp"
    (read_file "/out/Temp.dat") (uploader_state [])
  = (Ok tt,
     {| mem_cfg := uploader_cfg; ext := uploader_env [];
        trace := trace (uploader_state [])
          ++ [Ev (cr_read_table_data (Some "/out/Temp.dat") (Some 0)
                    (Some 12)) (Ok [])] |}).
Proof.
  exact (@transfer_rows_no_new_rows Demo.library Demo.Env Demo.world
           "/out" "Site" "Mast" "Temp" "/out/Temp.dat"
           (read_file "/out/Temp.dat") (uploader_state []) (uploader_env [])
           eq_refl eq_refl).
Defined.

Lemma transfer_rows_success_witness :
  let (r, s') :=
    FtpUploader.transfer_rows "/out" "Site" "Mast" "Temp"
      (table_file "/out/Temp.dat") (uploader_state []) in
  r = Ok tt ->
  exists listing f old,
    Some 10 = Some old
    /\ trace s'
       = trace (uploader_state [])
         ++ [Ev (cr_read_table_data (Some "/out/Temp.dat") (Some 0)
                   (Some 10)) (Ok (skipn 10 table_rows));
             Ev (os_makedirs (parent_dir "/out/Site/Mast/Temp.dat") true)
                (Ok tt);
             Ev session_nlst (Ok listing);
             Ev (cr_export_to_csv (skipn 10 table_rows)
                   "/out/Site/Mast/Temp.dat"
                   (Some (negb (str_in "Temp.dat" listing))) None) (Ok tt);
             Ev (open_rb "/out/Site/Mast/Temp.dat") (Ok f);
             Ev (session_storbinary
                   ((if negb (str_in "Temp.dat" listing)
                     then "STOR " else "APPE ") ++ "Temp.dat")%string f)
                (Ok tt);
             Ev (os_remove "/out/Site/Mast/Temp.dat") (Ok tt)]
    /\ file_line_num (mem_cfg s') "Site" "Mast" "Temp"
       = Some (old + Z.of_nat (length (skipn 10 table_rows))).
Proof.
  refine (@transfer_rows_success Demo.library Demo.Env Demo.world
            "/out" "Site" "Mast" "Temp" "/out/Temp.dat"
            (table_file "/out/Temp.dat") (uploader_state [])
            (skipn 10 table_rows) (uploader_env []) eq_refl eq_refl _).
  discriminate.
Defined.

Lemma transfer_rows_without_line_num_witness :
  let (r, s') :=
    FtpUploader.transfer_rows "/out" "Site" "Mast" "Temp"
      (fresh_file "/out/Temp.dat") (uploader_state []) in
  mem_cfg s' = mem_cfg (uploader_state [])
  /\ (r = Ok tt ->
      exists path env,
        Some "/out/Temp.dat" = Some path
        /\ s' = {| mem_cfg := mem_cfg (uploader_state []); ext := env;
                   trace := trace (uploader_state [])
                     ++ [Ev (cr_read_table_data (Some path) (Some 0) None)
                           (Ok [])] |}).
Proof.
  exact (@transfer_rows_without_line_num Demo.library Demo.Env Demo.world
           "/out" "Site" "Mast" "Temp" (fresh_file "/out/Temp.dat")
           (uploader_state []) eq_refl).
Defined.

(** Here the reader refuses the missing line number, and the transfer
    ends at the read. *)
Example transfer_without_line_num_raises :
  let (r, s') :=
    FtpUploader.transfer_rows "/out" "Site" "Mast" "Temp"
      (fresh_file "/out/Temp.dat") (uploader_state []) in
  r = Err (TypeError "first_line_num")
  /\ trace s'
     = [Ev (cr_read_table_data (Some "/out/Temp.dat") (Some 0) None)
          (Err (TypeError "first_line_num"))]
  /\ mem_cfg s' = uploader_cfg.
Proof. vm_compute. repeat split. Qed.

Lemma transfer_rows_touches_one_checkpoint_witness :
  file_line_num
    (mem_cfg (snd (FtpUploader.transfer_rows "/out" "Site" "Mast" "Temp"
                     (table_file "/out/Temp.dat") (uploader_state []))))
    "Site" "Mast" "Wind"
  = file_line_num (mem_cfg (uploader_state [])) "Site" "Mast" "Wind".
Proof.
  refine (@transfer_rows_touches_one_checkpoint Demo.library Demo.Env
            Demo.world "/out" "Site" "Mast" "Temp" "Site" "Mast" "Wind"
            (table_file "/out/Temp.dat") (uploader_state []) _).
  discriminate.
Defined.

Lemma process_sites_after_exception_witness :
  let (r, s') := FtpUploader.process_sites unknown_site (uploader_state []) in
  mem_cfg s' = mem_cfg after_setup
  /\ exists q,
       (if is_Exception (KeyError "Nowhere")
        then exists p,
               trace s'
               = trace after_setup
                 ++ [Ev (print (KeyError "Nowhere")) p; Ev session_quit q]
               /\ (q = Ok tt -> r = p)
        else trace s' = trace after_setup ++ [Ev session_quit q]
             /\ (q = Ok tt -> r = Err (KeyError "Nowhere")))
       /\ forall e2, q = Err e2 -> r = Err e2.
Proof.
  refine (@process_sites_after_exception Demo.library Demo.Env Demo.world
            unknown_site (uploader_state []) after_setup after_setup
            "/out" "/" (get_default (cfg_sites uploader_cfg) [])
            (KeyError "Nowhere") _ _).
  - vm_compute. reflexivity.
  - vm_compute. reflexivity.
Defined.

(** A site that is not configured: the run prints the [KeyError], closes
    the session and returns. *)
Example unknown_site_is_printed :
  let (r, s') := FtpUploader.process_sites unknown_site (uploader_state []) in
  r = Ok tt
  /\ trace s'
     = [Ev session_pwd (Ok "/"); Ev (print (KeyError "Nowhere")) (Ok tt);
        Ev session_quit (Ok tt)].
Proof. vm_compute. split; reflexivity. Qed.
